(** * sensorpush-logger: telemetry ingestion and live distribution

    A shallow embedding of the backend of the SensorPush logger
    ([backend/sql_model.py], [backend/sp_ble.py],
    [backend/graphql_resolvers.py], [backend/web_backend.py]) and the
    properties of its storage engine, device resolver, sample pipeline and
    broadcast path.

    Conventions of the embedding.

    - An [async def] is a computation in a state-and-exception monad; an
      [await] is a bind.  The event loop is cooperative, so one coroutine
      body between two suspension points is one function on the state.
    - SQLite is modelled at the level of its tables: a table is the list of
      its rows in rowid order, an AUTOINCREMENT key comes from a per-table
      sequence, a statement either applies as a whole or raises
      [IntegrityError] and leaves the tables as they were.  The implicit
      transaction of the Python driver is kept: a data-modifying statement
      opens it, [commit] closes it, [rollback] restores the tables it
      started from.  Storage faults other than constraint violations
      (I/O errors, a closed connection) are outside the model, and integer
      keys are taken within SQLite's 64-bit range.
    - What the external collaborators answer (the radio stack, the
      advertisement decoder, the clocks) is an input of the computation.
    - Temperature and humidity are floating-point numbers that the code
      carries and never computes on; they are kept as rationals.
    - A timestamp is kept as the second it denotes; where the engine
      compares timestamps as text against bound parameters (the export
      query), the text of a second is a parameter of the model and the
      comparison is the byte order of texts.
    - The log lines the code writes are not modelled; the log feed is
      modelled on the records handed to its handler. *)

From Stdlib Require Import ZArith QArith List Ascii String Lia Bool.
From Stdlib.Strings Require Import Byte.
From stdpp Require Import base option list gmap strings sorting.

Open Scope Z_scope.

(** ** Exceptions and the monad of coroutines *)

Module Py.

(** The constraint an [sqlite3.IntegrityError] reports. *)
Inductive constraint : Type :=
| UniqueFailed (column : string)
| ForeignKeyFailed.

(** The [ValueError]s of [SqlModel], by the message they carry. *)
Inductive value_error : Type :=
| ErrInsertingDevice (e : constraint)
    (* "Error inserting device: {e}" *)
| ErrSampleNoDevice (sp_id : Z)
    (* "Error inserting sample: Device with sp_id {sp_id} does not exist." *)
| ErrInsertingSample (e : constraint)
    (* "Error inserting sample: {e}" *)
| ErrNameNoDevice (sp_id : Z)
    (* "Cannot update name: Device with sp_id {sp_id} does not exist." *)
| ErrNameIntegrity (e : constraint).
    (* "Integrity error updating/inserting device name: {e}" *)

Inductive exn : Type :=
| IntegrityError (e : constraint)
| ValueError (e : value_error)
| BleakError.

Inductive outcome (A : Type) : Type :=
| Ok (a : A)
| Raise (e : exn).
Arguments Ok {A} a.
Arguments Raise {A} e.

(** A coroutine over a state [S]: it returns or raises, and leaves a state. *)
Definition M (S A : Type) : Type := S -> outcome A * S.

Definition ret {S A} (a : A) : M S A := fun s => (Ok a, s).

Definition raise {S A} (e : exn) : M S A := fun s => (Raise e, s).

Definition bind {S A B} (m : M S A) (k : A -> M S B) : M S B :=
  fun s => match m s with
           | (Ok a, s') => k a s'
           | (Raise e, s') => (Raise e, s')
           end.

(** [try: m except h]: [h e = None] when no [except] clause matches [e]. *)
Definition try_except {S A} (m : M S A) (h : exn -> option (M S A)) : M S A :=
  fun s => match m s with
           | (Ok a, s') => (Ok a, s')
           | (Raise e, s') =>
               match h e with
               | Some handler => handler s'
               | None => (Raise e, s')
               end
           end.

Definition get {S} : M S S := fun s => (Ok s, s).

Definition modify {S} (f : S -> S) : M S unit := fun s => (Ok tt, f s).

(** Run a coroutine of a component inside a larger state. *)
Definition zoom {S T A} (proj : T -> S) (upd : S -> T -> T) (m : M S A) : M T A :=
  fun t => match m (proj t) with
           | (r, s') => (r, upd s' t)
           end.

(** [except ValueError], [except aiosqlite.IntegrityError], [except Exception]. *)
Definition except_ValueError {S A} (k : value_error -> M S A) (e : exn) : option (M S A) :=
  match e with
  | ValueError v => Some (k v)
  | _ => None
  end.

Definition except_IntegrityError {S A} (k : constraint -> M S A) (e : exn) : option (M S A) :=
  match e with
  | IntegrityError c => Some (k c)
  | _ => None
  end.

Definition except_Exception {S A} (k : exn -> M S A) (e : exn) : option (M S A) :=
  Some (k e).

End Py.

Import Py.

Declare Scope py_scope.
Delimit Scope py_scope with py.
Notation "x <- m ;; k" := (Py.bind m (fun x => k))
  (at level 100, m at next level, right associativity) : py_scope.
Notation "m ;;; k" := (Py.bind m (fun _ => k))
  (at level 100, right associativity) : py_scope.
Open Scope py_scope.

(** ** The storage engine: [backend/sql_model.py] *)

Module SqlModel.

(** [devices (id, sp_id, ble_id)]. *)
Record DeviceRow : Type := mkDevice
  { d_id : Z; d_sp_id : Z; d_ble_id : string }.

(** [samples (id, device_sp_id, created_on, temperature_c, humidity)].
    [created_on] is the text of CURRENT_TIMESTAMP, one-second resolution;
    it is kept as the number of seconds it denotes, which orders the same
    way as the fixed-width text. *)
Record SampleRow : Type := mkSample
  { s_id : Z; s_device_sp_id : Z; s_created_on : Z;
    s_temperature_c : Q; s_humidity : Q }.

(** [device_names (id, device_sp_id, name)]. *)
Record NameRow : Type := mkName
  { n_id : Z; n_device_sp_id : Z; n_name : string }.

(** The three tables, each with its [sqlite_sequence] entry (the largest
    rowid ever handed out). *)
Record Tables : Type := mkTables
  { devices : list DeviceRow; devices_seq : Z;
    samples : list SampleRow; samples_seq : Z;
    device_names : list NameRow; device_names_seq : Z }.

(** [self.conn]: the tables as this connection sees them, and the tables
    as they were when the open transaction began, if one is open. *)
Record Conn : Type := mkConn
  { db : Tables; txn : option Tables }.

Definition empty_tables : Tables :=
  mkTables [] 0 [] 0 [] 0.

(** [SqlModel.create] on a fresh file: [_initialize_db] creates the three
    empty tables and commits. *)
Definition create : Conn := mkConn empty_tables None.

(** The driver opens a transaction before INSERT/UPDATE if none is open. *)
Definition begin_implicit (c : Conn) : Conn :=
  match txn c with
  | None => mkConn (db c) (Some (db c))
  | Some _ => c
  end.

Definition commit : M Conn unit :=
  fun c => (Ok tt, mkConn (db c) None).

Definition rollback : M Conn unit :=
  fun c => (Ok tt, mkConn (default (db c) (txn c)) None).

Definition sp_id_in (sp_id : Z) (ds : list DeviceRow) : bool :=
  existsb (fun d => d_sp_id d =? sp_id) ds.

Definition ble_id_in (ble_id : string) (ds : list DeviceRow) : bool :=
  existsb (fun d => bool_decide (d_ble_id d = ble_id)) ds.

(** [INSERT INTO devices (sp_id, ble_id) VALUES (?, ?)]; yields [lastrowid]. *)
Definition execute_insert_device (sp_id : Z) (ble_id : string) : M Conn Z :=
  fun c0 =>
    let c := begin_implicit c0 in
    let t := db c in
    if sp_id_in sp_id (devices t) then
      (Raise (IntegrityError (UniqueFailed "devices.sp_id")), c)
    else if ble_id_in ble_id (devices t) then
      (Raise (IntegrityError (UniqueFailed "devices.ble_id")), c)
    else
      let id := devices_seq t + 1 in
      (Ok id,
       mkConn (mkTables (devices t ++ [mkDevice id sp_id ble_id]) id
                        (samples t) (samples_seq t)
                        (device_names t) (device_names_seq t))
              (txn c)).

(** [INSERT INTO samples (device_sp_id, temperature_c, humidity) VALUES (?, ?, ?)]
    with [PRAGMA foreign_keys = ON]; [now] is what CURRENT_TIMESTAMP reads. *)
Definition execute_insert_sample (now : Z) (device_sp_id : Z) (temperature_c humidity : Q)
  : M Conn Z :=
  fun c0 =>
    let c := begin_implicit c0 in
    let t := db c in
    if sp_id_in device_sp_id (devices t) then
      let id := samples_seq t + 1 in
      (Ok id,
       mkConn (mkTables (devices t) (devices_seq t)
                        (samples t ++ [mkSample id device_sp_id now temperature_c humidity]) id
                        (device_names t) (device_names_seq t))
              (txn c))
    else
      (Raise (IntegrityError ForeignKeyFailed), c).

Definition name_key_in (device_sp_id : Z) (ns : list NameRow) : bool :=
  existsb (fun n => n_device_sp_id n =? device_sp_id) ns.

Definition set_name (device_sp_id : Z) (name : string) (n : NameRow) : NameRow :=
  if n_device_sp_id n =? device_sp_id then mkName (n_id n) (n_device_sp_id n) name else n.

(** [INSERT INTO device_names (device_sp_id, name) VALUES (?, ?)
     ON CONFLICT(device_sp_id) DO UPDATE SET name = excluded.name].
    The rowid for the new row is drawn before the conflict is detected,
    so the sequence advances on the update path too. *)
Definition execute_upsert_name (device_sp_id : Z) (name : string) : M Conn unit :=
  fun c0 =>
    let c := begin_implicit c0 in
    let t := db c in
    let id := device_names_seq t + 1 in
    if name_key_in device_sp_id (device_names t) then
      (Ok tt,
       mkConn (mkTables (devices t) (devices_seq t)
                        (samples t) (samples_seq t)
                        (set_name device_sp_id name <$> device_names t) id)
              (txn c))
    else if sp_id_in device_sp_id (devices t) then
      (Ok tt,
       mkConn (mkTables (devices t) (devices_seq t)
                        (samples t) (samples_seq t)
                        (device_names t ++ [mkName id device_sp_id name]) id)
              (txn c))
    else
      (Raise (IntegrityError ForeignKeyFailed), c).

(** [SELECT 1 FROM devices WHERE ble_id = ?] ... [fetchone() is not None]. *)
Definition device_exists (ble_id : string) : M Conn bool :=
  c <- get ;; ret (ble_id_in ble_id (devices (db c))).

(** [SELECT 1 FROM devices WHERE sp_id = ?] ... [fetchone() is not None]. *)
Definition device_sp_id_exists (sp_id : Z) : M Conn bool :=
  c <- get ;; ret (sp_id_in sp_id (devices (db c))).

(** [SELECT sp_id FROM devices WHERE ble_id = ?]; [row['sp_id'] if row else None]. *)
Definition get_device_sp_id (ble_id : string) : M Conn (option Z) :=
  c <- get ;;
  ret (d_sp_id <$> head (filter (fun d => d_ble_id d = ble_id) (devices (db c)))).

Definition add_device (sp_id : Z) (ble_id : string) : M Conn Z :=
  try_except
    (device_id <- execute_insert_device sp_id ble_id ;;
     commit ;;;
     ret device_id)
    (except_IntegrityError (fun e =>
       rollback ;;;
       raise (ValueError (ErrInsertingDevice e)))).

Definition add_sample (now : Z) (device_sp_id : Z) (temperature_c humidity : Q) : M Conn Z :=
  try_except
    (sample_id <- execute_insert_sample now device_sp_id temperature_c humidity ;;
     commit ;;;
     ret sample_id)
    (except_IntegrityError (fun e =>
       rollback ;;;
       exists_ <- device_sp_id_exists device_sp_id ;;
       if negb exists_ then raise (ValueError (ErrSampleNoDevice device_sp_id))
       else raise (ValueError (ErrInsertingSample e)))).

Definition update_device_name (device_sp_id : Z) (name : string) : M Conn unit :=
  try_except
    (exists_ <- device_sp_id_exists device_sp_id ;;
     if negb exists_ then raise (ValueError (ErrNameNoDevice device_sp_id))
     else
       execute_upsert_name device_sp_id name ;;;
       commit)
    (except_IntegrityError (fun e =>
       rollback ;;;
       raise (ValueError (ErrNameIntegrity e)))).

(** A row of [SELECT d.sp_id, d.ble_id, COALESCE(dn.name, '') AS friendly_name]. *)
Record SensorRow : Type := mkSensor
  { sp_id : Z; ble_id : string; friendly_name : string }.

(** [devices d LEFT JOIN device_names dn ON d.sp_id = dn.device_sp_id]. *)
Definition left_join_names (ns : list NameRow) (d : DeviceRow) : list SensorRow :=
  match filter (fun n => n_device_sp_id n = d_sp_id d) ns with
  | [] => [mkSensor (d_sp_id d) (d_ble_id d) ""]
  | matches => (fun n => mkSensor (d_sp_id d) (d_ble_id d) (n_name n)) <$> matches
  end.

Definition sensor_le (a b : SensorRow) : Prop := sp_id a <= sp_id b.

#[global] Instance sensor_le_dec : RelDecision sensor_le.
Proof. intros a b. unfold sensor_le. apply _. Defined.

(** [... ORDER BY d.sp_id ASC]; [[dict(row) for row in rows]]. *)
Definition get_all_sensors_with_names : M Conn (list SensorRow) :=
  c <- get ;;
  ret (merge_sort sensor_le
         (concat (left_join_names (device_names (db c)) <$> devices (db c)))).

(** [... WHERE d.sp_id = ?]; [dict(row) if row else None]. *)
Definition get_sensor_by_sp_id (sp : Z) : M Conn (option SensorRow) :=
  c <- get ;;
  ret (head (concat (left_join_names (device_names (db c)) <$>
                       filter (fun d => d_sp_id d = sp) (devices (db c))))).

(** A row of the latest-sample query: the four selected columns. *)
Record LatestRow : Type := mkLatest
  { l_device_sp_id : Z; l_temperature_c : Q; l_humidity : Q; l_created_on : Z }.

Definition select_latest_columns (r : SampleRow) : LatestRow :=
  mkLatest (s_device_sp_id r) (s_temperature_c r) (s_humidity r) (s_created_on r).

Definition same_partition (r r' : SampleRow) : bool :=
  s_device_sp_id r' =? s_device_sp_id r.

(** [ROW_NUMBER() OVER (PARTITION BY device_sp_id ORDER BY created_on DESC)]
    for the row [r] found at position [i] of the scan: one more than the
    number of rows of its partition that the ordering puts before it.
    Those are the rows with a later [created_on] and, the sort being
    stable over the rowid-order scan, the rows scanned before [r] with
    the same [created_on]. *)
Definition row_number (rows : list SampleRow) (i : nat) (r : SampleRow) : nat :=
  S (length (filter (fun r' => same_partition r r' && (s_created_on r <? s_created_on r')) rows)
     + length (filter (fun r' => same_partition r r' && (s_created_on r' =? s_created_on r))
                      (take i rows))).

(** [SELECT ... FROM LatestSamples WHERE rn = 1]. *)
Definition execute_latest_samples (t : Tables) : list LatestRow :=
  omap (fun ir : nat * SampleRow =>
          if Nat.eqb (row_number (samples t) (fst ir) (snd ir)) 1
          then Some (select_latest_columns (snd ir)) else None)
       (imap pair (samples t)).

(** [{row['device_sp_id']: dict(row) for row in rows}]: a later row
    replaces an earlier one under the same key. *)
Definition dict_by_device (rows : list LatestRow) : gmap Z LatestRow :=
  foldl (fun m row => <[l_device_sp_id row := row]> m) ∅ rows.

Definition get_latest_sample_for_all_sensors : M Conn (gmap Z LatestRow) :=
  c <- get ;;
  ret (dict_by_device (execute_latest_samples (db c))).

(** A row of the export query: the sample's columns and
    [COALESCE(dn.name, '') AS friendly_name]. *)
Record ExportRow : Type := mkExport
  { e_id : Z; e_device_sp_id : Z; e_created_on : Z;
    e_temperature_c : Q; e_humidity : Q; e_friendly_name : string }.

(** [samples s LEFT JOIN device_names dn ON s.device_sp_id = dn.device_sp_id]. *)
Definition left_join_sample_names (ns : list NameRow) (r : SampleRow) : list ExportRow :=
  match filter (fun n => n_device_sp_id n = s_device_sp_id r) ns with
  | [] => [mkExport (s_id r) (s_device_sp_id r) (s_created_on r)
                    (s_temperature_c r) (s_humidity r) ""]
  | matches =>
      (fun n => mkExport (s_id r) (s_device_sp_id r) (s_created_on r)
                         (s_temperature_c r) (s_humidity r) (n_name n)) <$> matches
  end.

(** A [datetime.datetime] bound as a query parameter.  [dt_second] is the
    second its date and time fields spell (its own fields: an aware
    datetime is not converted to UTC), [dt_rest] what [isoformat(" ")]
    writes after the seconds: the fraction when [microsecond] is not zero
    and the UTC offset of an aware datetime; the empty string for a naive
    datetime on a whole second. *)
Record Datetime : Type := mkDatetime
  { dt_second : Z; dt_rest : string }.

Section TimestampText.

(** The text "YYYY-MM-DD HH:MM:SS" of a second: what CURRENT_TIMESTAMP
    stores in [created_on], and what [isoformat(" ")] writes for the date
    and time fields of a datetime. *)
Variable timestamp_text : Z -> string.

(** The default adapter of the driver binds a datetime as the text of
    [isoformat(" ")]. *)
Definition adapt_datetime (d : Datetime) : string :=
  timestamp_text (dt_second d) +:+ dt_rest d.

(** [x BETWEEN lo AND hi] on text values: [x >= lo AND x <= hi] in byte
    order, a proper prefix before its extensions. *)
Definition text_between (lo hi x : string) : bool :=
  String.leb lo x && String.leb x hi.

(** [WHERE s.created_on BETWEEN ? AND ?] with [(begin_dt, end_dt)] bound:
    the stored text of [created_on] against the texts of the two bounds. *)
Definition in_period (begin_dt end_dt : Datetime) (r : SampleRow) : Prop :=
  text_between (adapt_datetime begin_dt) (adapt_datetime end_dt)
               (timestamp_text (s_created_on r)) = true.

#[global] Instance in_period_dec (begin_dt end_dt : Datetime) (r : SampleRow) :
  Decision (in_period begin_dt end_dt r).
Proof. unfold in_period. apply _. Defined.

(** [ORDER BY s.created_on ASC], on the stored text. *)
Definition export_le (a b : ExportRow) : Prop :=
  String.leb (timestamp_text (e_created_on a)) (timestamp_text (e_created_on b)) = true.

#[global] Instance export_le_dec : RelDecision export_le.
Proof. intros a b. unfold export_le. apply _. Defined.

(** [get_samples_for_export].  Rows that tie on [created_on] come in an
    order the engine chooses. *)
Definition get_samples_for_export (begin_dt end_dt : Datetime) : M Conn (list ExportRow) :=
  c <- get ;;
  ret (merge_sort export_le
         (concat (left_join_sample_names (device_names (db c)) <$>
                    filter (in_period begin_dt end_dt) (samples (db c))))).

End TimestampText.

End SqlModel.

(** ** The objects passed between the components *)

Module GraphqlSchema.

(** [class Sample] of [backend/graphql_schema.py]; [created_on] is a
    [datetime], kept as the instant it denotes. *)
Record Sample : Type := mkSample
  { device_sp_id : Z; friendly_name : string;
    temperature_c : Q; humidity : Q; created_on : Z }.

End GraphqlSchema.

Module Runtime.

(** The [sample_data] dict built by [process_advertisement_event] and read
    by [publish_sample] with [.get]: every key is either missing (or
    [None]) or holds a value of the type its producer gives it. *)
Record sample_data : Type := mkSampleData
  { sd_device : option string;
    sd_sp_id : option Z;
    sd_temperature : option Q;
    sd_humidity : option Q;
    sd_rssi : option Z;
    sd_timestamp : option string }.

(** The coroutines handed to [asyncio.create_task]. *)
Inductive task : Type :=
| OnSampleTask (sd : sample_data)        (* [on_sample(sample_data)] *)
| PublishSampleTask (sd : sample_data).  (* [publish_sample(db, sample_data)] *)

(** The calls the ingestion path makes on its collaborators, in order. *)
Inductive call : Type :=
| ScannerStop
| ReadGattChar (address : string)
| ScannerStart
| AddDevice (sp_id : Z) (ble_id : string)
| AddSample (sp_id : Z) (temperature_c humidity : Q)
| CreateTask (t : task).

(** The state the coroutines share: the database connection, the calls
    made so far, the global [sample_queue] of the resolvers and what each
    subscriber generator has yielded so far. *)
Record World : Type := mkWorld
  { conn : SqlModel.Conn;
    calls : list call;
    sample_queue : list GraphqlSchema.Sample;
    yielded : list (nat * GraphqlSchema.Sample) }.

Definition with_conn (c : SqlModel.Conn) (w : World) : World :=
  mkWorld c (calls w) (sample_queue w) (yielded w).

(** A method of [db] awaited from a coroutine. *)
Definition on_db {A} (m : M SqlModel.Conn A) : M World A :=
  zoom conn with_conn m.

Definition record_call (c : call) : M World unit :=
  modify (fun w => mkWorld (conn w) (calls w ++ [c]) (sample_queue w) (yielded w)).

Definition create_task (t : task) : M World unit :=
  record_call (CreateTask t).

(** What the radio stack and the clocks answer while one advertisement is
    processed. *)
Inductive gatt_outcome : Type :=
| GattRaises                      (* connecting or reading fails or times out *)
| GattBytes (raw_val : list byte).

Record Env : Type := mkEnv
  { stop_raises : bool;           (* [scanner.stop()] raises *)
    gatt : gatt_outcome;          (* [BleakClient] and [read_gatt_char] *)
    start_raises : bool;          (* [scanner.start()] raises *)
    current_timestamp : Z;        (* CURRENT_TIMESTAMP of the database *)
    utcnow : Z }.                 (* [datetime.datetime.utcnow()] *)

End Runtime.

(** ** Device resolver and sample pipeline: [backend/sp_ble.py] *)

Module SpBle.
Import Runtime.

Record BLEDevice : Type := mkBLEDevice
  { address : string; name : option string }.

Record AdvertisementData : Type := mkAdvertisementData
  { rssi : Z;
    manufacturer_data : gmap Z (list byte);
    service_data : gmap string (list byte);
    service_uuids : list string }.

Record BluetoothServiceInfo : Type := mkBluetoothServiceInfo
  { si_name : string;
    si_address : string;
    si_rssi : Z;
    si_manufacturer_data : gmap Z (list byte);
    si_service_data : gmap string (list byte);
    si_service_uuids : list string;
    si_source : string }.

(** [int.from_bytes(raw, byteorder="little")]. *)
Fixpoint int_from_bytes_little (raw : list byte) : Z :=
  match raw with
  | [] => 0
  | b :: rest => Z.of_N (Byte.to_N b) + 256 * int_from_bytes_little rest
  end.

Definition scanner_stop (e : Env) : M World unit :=
  record_call ScannerStop ;;;
  if stop_raises e then raise BleakError else ret tt.

Definition scanner_start (e : Env) : M World unit :=
  record_call ScannerStart ;;;
  if start_raises e then raise BleakError else ret tt.

(** [async with BleakClient(device) as client: await client.read_gatt_char(...)]. *)
Definition read_gatt_char (e : Env) (addr : string) : M World (list byte) :=
  record_call (ReadGattChar addr) ;;;
  match gatt e with
  | GattRaises => raise BleakError
  | GattBytes raw_val => ret raw_val
  end.

Definition db_add_device (sp_id : Z) (ble_id : string) : M World Z :=
  record_call (AddDevice sp_id ble_id) ;;;
  on_db (SqlModel.add_device sp_id ble_id).

Definition db_add_sample (e : Env) (sp_id : Z) (temperature_c humidity : Q) : M World Z :=
  record_call (AddSample sp_id temperature_c humidity) ;;;
  on_db (SqlModel.add_sample (current_timestamp e) sp_id temperature_c humidity).

Definition read_device_id (device : BLEDevice) (e : Env) : M World unit :=
  try_except
    (raw_val <- read_gatt_char e (address device) ;;
     if negb (bool_decide (raw_val = [])) && (4 <=? Z.of_nat (length raw_val)) then
       let sp_id := int_from_bytes_little (take 4 raw_val) in
       try_except
         (db_add_device sp_id (address device) ;;; ret tt)
         (except_ValueError (fun _ => ret tt))
     else ret tt)
    (except_Exception (fun _ => ret tt)).

(** The [BluetoothServiceInfo] built from a detection callback's arguments. *)
Definition make_service_info (device : BLEDevice) (advertisement_data : AdvertisementData)
  : BluetoothServiceInfo :=
  mkBluetoothServiceInfo
    (default "Unknown" (name device))
    (address device)
    (rssi advertisement_data)
    (manufacturer_data advertisement_data)
    (service_data advertisement_data)
    (service_uuids advertisement_data)
    "bleak".

Section Decoder.

(** [SensorPushBluetoothDeviceData] of the external [sensorpush_ble]
    package: whether it recognises an advertisement, and the
    [native_value]s its [_sensor_values] hold after [update], by the name
    of their [DeviceKey]. *)
Variable supported : BluetoothServiceInfo -> bool.
Variable sensor_values : BluetoothServiceInfo -> gmap string Q.

(** [datetime.isoformat()]. *)
Variable isoformat : Z -> string.

Definition process_advertisement_event
    (device : BLEDevice) (advertisement_data : AdvertisementData) (e : Env)
    (on_sample : option (sample_data -> task)) : M World unit :=
  let service_info := make_service_info device advertisement_data in
  if supported service_info then
    let temperature := sensor_values service_info !! "temperature" in
    let humidity := sensor_values service_info !! "humidity" in
    try_except
      (device_known <- on_db (SqlModel.device_exists (si_address service_info)) ;;
       if negb device_known then
         scanner_stop e ;;;
         read_device_id device e ;;;
         scanner_start e
       else
         sp_id <- on_db (SqlModel.get_device_sp_id (si_address service_info)) ;;
         match sp_id, temperature, humidity with
         | Some sp, Some t, Some h =>
             try_except
               (db_add_sample e sp t h ;;;
                match on_sample with
                | Some callback =>
                    create_task
                      (callback
                         (mkSampleData (Some (si_address service_info)) (Some sp)
                                       (Some t) (Some h) (Some (si_rssi service_info))
                                       (Some (isoformat (utcnow e) +:+ "Z"))))
                | None => ret tt
                end)
               (except_ValueError (fun _ => ret tt))
         | _, _, _ => ret tt
         end)
      (except_Exception (fun _ => ret tt))
  else ret tt.

(** [advertisement_loop] over the events it dequeues, in queue order. *)
Fixpoint advertisement_loop
    (queue : list (BLEDevice * AdvertisementData * Env))
    (on_sample : option (sample_data -> task)) : M World unit :=
  match queue with
  | [] => ret tt
  | (device, advertisement_data, e) :: rest =>
      try_except
        (process_advertisement_event device advertisement_data e on_sample)
        (except_Exception (fun _ => ret tt)) ;;;
      advertisement_loop rest on_sample
  end.

End Decoder.

End SpBle.

(** ** The broadcast path: [backend/graphql_resolvers.py] *)

Module Resolvers.
Import Runtime.

(** [str.replace("Z", "+00:00")]. *)
Fixpoint replace_Z (s : string) : string :=
  match s with
  | EmptyString => EmptyString
  | String c rest =>
      if Ascii.eqb c "Z"%char then "+00:00" +:+ replace_Z rest
      else String c (replace_Z rest)
  end.

(** [await sample_queue.put(sample_obj)]: the queue is unbounded. *)
Definition sample_queue_put (s : GraphqlSchema.Sample) : M World unit :=
  modify (fun w => mkWorld (conn w) (calls w) (sample_queue w ++ [s]) (yielded w)).

Section Clock.

(** [datetime.datetime.fromisoformat]; [None] stands for its [ValueError]. *)
Variable fromisoformat : string -> option Z.

(** [now] is what [datetime.datetime.now(datetime.timezone.utc)] reads. *)
Definition publish_sample (now : Z) (sd : sample_data) : M World unit :=
  try_except
    (let device_sp_id := sd_sp_id sd in
     let temperature := sd_temperature sd in
     let humidity := sd_humidity sd in
     let timestamp_str := sd_timestamp sd in
     match device_sp_id, temperature, humidity with
     | Some sp, Some t, Some h =>
         sensor_details <- on_db (SqlModel.get_sensor_by_sp_id sp) ;;
         let friendly_name :=
           match sensor_details with
           | Some details => SqlModel.friendly_name details
           | None => ""
           end in
         let created_on_dt :=
           match timestamp_str with
           | Some s =>
               if bool_decide (s = "") then now
               else default now (fromisoformat (replace_Z s))
           | None => now
           end in
         sample_queue_put (GraphqlSchema.mkSample sp friendly_name t h created_on_dt)
     | _, _, _ => ret tt
     end)
    (except_Exception (fun _ => ret tt)).

End Clock.

(** One turn of the loop of the generator, run for the subscriber [who]: [await sample_queue.get()] takes the head of the
    global queue and the generator yields it; on an empty queue the
    generator stays suspended.  The samples on the queue carry a
    [datetime], so the string-timestamp repair is not entered. *)
Definition sensor_updates_subscription (who : nat) : M World (option GraphqlSchema.Sample) :=
  w <- get ;;
  match sample_queue w with
  | [] => ret None
  | sample :: rest =>
      modify (fun w => mkWorld (conn w) (calls w) rest (yielded w ++ [(who, sample)])) ;;;
      ret (Some sample)
  end.

(** What the subscriber [who] has been sent, in order. *)
Definition received (who : nat) (w : World) : list GraphqlSchema.Sample :=
  snd <$> filter (fun y => fst y = who) (yielded w).

(** The feed under a schedule of the event loop: a sample is put on the
    queue, or the generator of a subscriber is resumed. *)
Inductive feed_step : Type :=
| Put (s : GraphqlSchema.Sample)
| Resume (who : nat).

(** The samples a schedule puts on the queue, in order. *)
Definition published (schedule : list feed_step) : list GraphqlSchema.Sample :=
  omap (fun st => match st with Put s => Some s | Resume _ => None end) schedule.

Fixpoint run_feed (schedule : list feed_step) : M World unit :=
  match schedule with
  | [] => ret tt
  | Put s :: rest => sample_queue_put s ;;; run_feed rest
  | Resume who :: rest => sensor_updates_subscription who ;;; run_feed rest
  end.

End Resolvers.

(** ** The wiring of [lifespan]: [backend/web_backend.py] *)

Module WebBackend.
Import Runtime.

(** [on_sample_callback]: [app.state.db] is set for as long as the
    advertisement loop runs, so the callback spawns [publish_sample]. *)
Definition on_sample_callback (sd : sample_data) : M World unit :=
  create_task (PublishSampleTask sd).

(** The event loop running a task created on the ingestion path. *)
Definition run_task (fromisoformat : string -> option Z) (now : Z) (t : task) : M World unit :=
  match t with
  | OnSampleTask sd => on_sample_callback sd
  | PublishSampleTask sd => Resolvers.publish_sample fromisoformat now sd
  end.

(** [advertisement_loop(scanner, app.state.db, on_sample=on_sample_callback)]. *)
Definition ble_task (supported : SpBle.BluetoothServiceInfo -> bool)
    (sensor_values : SpBle.BluetoothServiceInfo -> gmap string Q)
    (isoformat : Z -> string)
    (queue : list (SpBle.BLEDevice * SpBle.AdvertisementData * Env)) : M World unit :=
  SpBle.advertisement_loop supported sensor_values isoformat queue (Some OnSampleTask).

Definition startup : World :=
  mkWorld SqlModel.create [] [] [].

End WebBackend.

(** ** The integrity constraints of the schema *)

Module Schema.
Import SqlModel.

(** What the schema of [_initialize_db] enforces, with no transaction left
    open between two operations. *)
Record wf (c : Conn) : Prop := mkWf
  { wf_txn : txn c = None;
    wf_sp_id_unique : NoDup (d_sp_id <$> devices (db c));
    wf_ble_id_unique : NoDup (d_ble_id <$> devices (db c));
    wf_name_unique : NoDup (n_device_sp_id <$> device_names (db c));
    wf_device_ids : Forall (fun d => d_id d <= devices_seq (db c)) (devices (db c));
    wf_samples_fk :
      Forall (fun s => sp_id_in (s_device_sp_id s) (devices (db c)) = true) (samples (db c));
    wf_names_fk :
      Forall (fun n => sp_id_in (n_device_sp_id n) (devices (db c)) = true)
             (device_names (db c)) }.

(** The rows of [device_names] that name the device [sp]. *)
Definition name_rows (sp : Z) (c : Conn) : list NameRow :=
  filter (fun n => n_device_sp_id n = sp) (device_names (db c)).

(** The name the read paths resolve for the device [sp]:
    [COALESCE(dn.name, '')]. *)
Definition resolved_name (sp : Z) (c : Conn) : string :=
  match name_rows sp c with
  | [] => ""
  | n :: _ => n_name n
  end.

(** The row at position [i] of the scan is a latest sample of its device:
    no sample of the device is later, and none scanned before it is as
    late. *)
Definition first_latest (rows : list SampleRow) (i : nat) (r : SampleRow) : Prop :=
  rows !! i = Some r
  /\ (forall r', r' ∈ rows -> s_device_sp_id r' = s_device_sp_id r ->
        s_created_on r' <= s_created_on r)
  /\ (forall j r', (j < i)%nat -> rows !! j = Some r' ->
        s_device_sp_id r' = s_device_sp_id r -> s_created_on r' < s_created_on r).

(** The latest sample of a device in the words of the specification: the
    maximal [recorded_at], and among samples that tie on it the one
    inserted last (the greatest rowid). *)
Definition more_recent (r r' : SampleRow) : bool :=
  (s_created_on r <? s_created_on r')
  || ((s_created_on r =? s_created_on r') && (s_id r <? s_id r')).

Definition latest_as_specified (t : Tables) (d : Z) : option LatestRow :=
  select_latest_columns <$>
    foldl (fun best r =>
             if s_device_sp_id r =? d then
               match best with
               | None => Some r
               | Some b => if more_recent b r then Some r else Some b
               end
             else best)
          None (samples t).

End Schema.

(** ** The scan-pause protocol, read off the calls *)

Module Protocol.
Import Runtime.

(** Where the resolver stands: scanning, scanner stopped, identity read
    attempted and the restart still owed. *)
Inductive phase : Type := Scanning | Stopped | ReadDone.

(** One call seen in a phase; [None] when the call is out of place: an
    identity read that does not follow a stop, a registration or a restart
    that does not follow an identity read, anything but the registration
    and the restart after an identity read.  Storing and handing on a
    sample does not move the scanner. *)
Definition phase_step (ph : phase) (c : call) : option phase :=
  match ph, c with
  | (Scanning | Stopped), ScannerStop => Some Stopped
  | Stopped, ReadGattChar _ => Some ReadDone
  | ReadDone, AddDevice _ _ => Some ReadDone
  | ReadDone, ScannerStart => Some Scanning
  | (Scanning | Stopped), (AddSample _ _ _ | CreateTask _) => Some ph
  | _, _ => None
  end.

Fixpoint phase_run (ph : phase) (cs : list call) : option phase :=
  match cs with
  | [] => Some ph
  | c :: rest =>
      match phase_step ph c with
      | Some ph' => phase_run ph' rest
      | None => None
      end
  end.

(** No restart is owed. *)
Definition resting (ph : phase) : bool :=
  match ph with
  | Scanning | Stopped => true
  | ReadDone => false
  end.

(** Every identity read follows a stop and is followed by its restart. *)
Definition well_bracketed (cs : list call) : bool :=
  match phase_run Scanning cs with
  | Some ph => resting ph
  | None => false
  end.

Definition is_read (c : call) : bool :=
  match c with ReadGattChar _ => true | _ => false end.

Definition is_start (c : call) : bool :=
  match c with ScannerStart => true | _ => false end.

(** How many identity reads were attempted, how often the scanner was
    restarted. *)
Definition reads (cs : list call) : nat := length (List.filter is_read cs).

Definition starts (cs : list call) : nat := length (List.filter is_start cs).

(** The calls one advertisement event can make, for the address [a] it
    comes from. *)
Inductive event_calls (a : string) : list call -> Prop :=
| calls_none : event_calls a []
| calls_stop_raised : event_calls a [ScannerStop]
| calls_read : event_calls a [ScannerStop; ReadGattChar a; ScannerStart]
| calls_read_register sp :
    event_calls a [ScannerStop; ReadGattChar a; AddDevice sp a; ScannerStart]
| calls_sample sp t h : event_calls a [AddSample sp t h]
| calls_sample_task sp t h tk : event_calls a [AddSample sp t h; CreateTask tk].

(** The identity read of an event registers its (unregistered) address
    next to the devices [ds]: the payload has four bytes or more and their
    number is not the number of a stored device. *)
Definition registers (ds : list SqlModel.DeviceRow) (e : Env) : bool :=
  match gatt e with
  | GattBytes raw_val =>
      (4 <=? Z.of_nat (length raw_val))
      && negb (SqlModel.sp_id_in (SpBle.int_from_bytes_little (take 4 raw_val)) ds)
  | GattRaises => false
  end.

End Protocol.

(** ** Query and mutation resolvers: [backend/graphql_resolvers.py] *)

Module GraphqlSensor.

(** [class Sensor] of [backend/graphql_schema.py]. *)
Record Sensor : Type := mkSensor
  { sp_id : Z; ble_id : string; friendly_name : string;
    last_update : option Z;
    last_temperature_c : option Q;
    last_humidity : option Q }.

End GraphqlSensor.

Module QueryResolvers.
Import Runtime.

(** What a resolver finds in its [info]: whether the context holds a
    request, and whether [request.app.state.db] is set.  The database
    object itself is the connection of the shared state. *)
Inductive Info : Type :=
| NoRequest
| Request (app_state_db : bool).

Inductive db_lookup : Type :=
| DbFound
| RaisesRuntimeError (message : string).

Definition get_db_from_info (info : Info) : db_lookup :=
  match info with
  | NoRequest => RaisesRuntimeError "Request context not found in Strawberry Info."
  | Request false =>
      RaisesRuntimeError "Database instance not found in application state (app.state.db)."
  | Request true => DbFound
  end.

(** The [Sensor] built from a row of the listing and the latest-sample map.
    [created_on] reaches the resolver as the text or the [datetime] of a
    CURRENT_TIMESTAMP; either way [last_update] is the instant it denotes. *)
Definition sensor_of (latest_samples_map : gmap Z SqlModel.LatestRow)
    (s_base : SqlModel.SensorRow) : GraphqlSensor.Sensor :=
  match latest_samples_map !! SqlModel.sp_id s_base with
  | Some latest_sample =>
      GraphqlSensor.mkSensor
        (SqlModel.sp_id s_base) (SqlModel.ble_id s_base) (SqlModel.friendly_name s_base)
        (Some (SqlModel.l_created_on latest_sample))
        (Some (SqlModel.l_temperature_c latest_sample))
        (Some (SqlModel.l_humidity latest_sample))
  | None =>
      GraphqlSensor.mkSensor
        (SqlModel.sp_id s_base) (SqlModel.ble_id s_base) (SqlModel.friendly_name s_base)
        None None None
  end.

(** [get_sensors_resolver]: any exception, the [RuntimeError] of
    [get_db_from_info] included, yields the empty list. *)
Definition get_sensors_resolver (info : Info) : M World (list GraphqlSensor.Sensor) :=
  match get_db_from_info info with
  | RaisesRuntimeError _ => ret []
  | DbFound =>
      try_except
        (sensor_base_data <- on_db SqlModel.get_all_sensors_with_names ;;
         latest_samples_map <- on_db SqlModel.get_latest_sample_for_all_sensors ;;
         ret (sensor_of latest_samples_map <$> sensor_base_data))
        (except_Exception (fun _ => ret []))
  end.

Definition sample_of_row (row : SqlModel.ExportRow) : GraphqlSchema.Sample :=
  GraphqlSchema.mkSample (SqlModel.e_device_sp_id row) (SqlModel.e_friendly_name row)
                         (SqlModel.e_temperature_c row) (SqlModel.e_humidity row)
                         (SqlModel.e_created_on row).

(** [get_samples_resolver]; [timestamp_text] is the text the engine and
    the driver write for a second. *)
Definition get_samples_resolver (timestamp_text : Z -> string) (info : Info)
    (begin_dt end_dt : SqlModel.Datetime) : M World (list GraphqlSchema.Sample) :=
  match get_db_from_info info with
  | RaisesRuntimeError _ => ret []
  | DbFound =>
      try_except
        (sample_rows <-
           on_db (SqlModel.get_samples_for_export timestamp_text begin_dt end_dt) ;;
         ret (sample_of_row <$> sample_rows))
        (except_Exception (fun _ => ret []))
  end.



End QueryResolvers.

(** ** The log feed: [QueueLogHandler] and [log_messages_subscription] *)

Module LogFeed.

(** [class LogMessage] of [backend/graphql_schema.py]. *)
Record LogMessage : Type := mkLogMessage
  { timestamp : Z; message : string; level : string }.

(** A [logging.LogRecord], with the text the handler's formatter gives it. *)
Record LogRecord : Type := mkLogRecord
  { created : Z; formatted : string; levelname : string }.

(** The global [log_queue] and what each subscriber generator has yielded. *)
Record Feed : Type := mkFeed
  { log_queue : list LogMessage;
    log_yielded : list (nat * LogMessage) }.

(** [QueueLogHandler.emit]: [put_nowait] on the unbounded queue. *)
Definition emit (record : LogRecord) : M Feed unit :=
  modify (fun f =>
            mkFeed (log_queue f ++
                      [mkLogMessage (created record) (formatted record) (levelname record)])
                   (log_yielded f)).

(** One turn of the loop of [log_messages_subscription] for the subscriber
    [who]; on an empty queue the generator stays suspended. *)
Definition log_messages_subscription (who : nat) : M Feed (option LogMessage) :=
  f <- get ;;
  match log_queue f with
  | [] => ret None
  | log_entry :: rest =>
      modify (fun f => mkFeed rest (log_yielded f ++ [(who, log_entry)])) ;;;
      ret (Some log_entry)
  end.

Inductive log_step : Type :=
| Emit (record : LogRecord)
| ResumeLog (who : nat).

Fixpoint run_log (schedule : list log_step) : M Feed unit :=
  match schedule with
  | [] => ret tt
  | Emit record :: rest => emit record ;;; run_log rest
  | ResumeLog who :: rest => log_messages_subscription who ;;; run_log rest
  end.

(** The entries a schedule emits, in order, and what a subscriber was sent. *)
Definition emitted (schedule : list log_step) : list LogMessage :=
  omap (fun st =>
          match st with
          | Emit record =>
              Some (mkLogMessage (created record) (formatted record) (levelname record))
          | ResumeLog _ => None
          end) schedule.

Definition log_received (who : nat) (f : Feed) : list LogMessage :=
  snd <$> filter (fun y => fst y = who) (log_yielded f).

End LogFeed.

(** ** The advertisement queue: [handle_advertisement] and the loop *)

Module Ingest.
Import Runtime.

(** The global [advertisement_queue] next to the shared state. *)
Record State : Type := mkState
  { advertisement_queue : list (SpBle.BLEDevice * SpBle.AdvertisementData);
    world : World }.

(** [handle_advertisement]: the detection callback creates the task that
    puts the event on the unbounded queue; the event loop runs these tasks
    in the order they were created and a put on an unbounded queue does
    not wait, so the events are queued in the order of detection. *)
Definition handle_advertisement (device : SpBle.BLEDevice)
    (advertisement_data : SpBle.AdvertisementData) : M State unit :=
  modify (fun st => mkState (advertisement_queue st ++ [(device, advertisement_data)])
                            (world st)).

Section Decoder.

Variable supported : SpBle.BluetoothServiceInfo -> bool.
Variable sensor_values : SpBle.BluetoothServiceInfo -> gmap string Q.
Variable isoformat : Z -> string.

(** One turn of [advertisement_loop]: the head of the queue is taken and
    processed to completion, an exception of the processing is logged and
    the loop goes on; on an empty queue the loop stays suspended. *)
Definition advertisement_loop_turn (e : Env) (on_sample : option (sample_data -> task))
  : M State unit :=
  st <- get ;;
  match advertisement_queue st with
  | [] => ret tt
  | (device, advertisement_data) :: rest =>
      modify (fun st => mkState rest (world st)) ;;;
      try_except
        (zoom world (fun w st => mkState (advertisement_queue st) w)
           (SpBle.process_advertisement_event supported sensor_values isoformat
              device advertisement_data e on_sample))
        (except_Exception (fun _ => ret tt))
  end.

(** The radio detects an advertisement, or the loop takes a turn. *)
Inductive step : Type :=
| Detect (device : SpBle.BLEDevice) (advertisement_data : SpBle.AdvertisementData)
| Turn (e : Env).

Fixpoint run (schedule : list step) (on_sample : option (sample_data -> task))
  : M State unit :=
  match schedule with
  | [] => ret tt
  | Detect device advertisement_data :: rest =>
      handle_advertisement device advertisement_data ;;; run rest on_sample
  | Turn e :: rest => advertisement_loop_turn e on_sample ;;; run rest on_sample
  end.

End Decoder.

(** The advertisements a schedule detects, in order. *)
Definition detected (schedule : list step)
  : list (SpBle.BLEDevice * SpBle.AdvertisementData) :=
  omap (fun st => match st with
                  | Detect device advertisement_data => Some (device, advertisement_data)
                  | Turn _ => None
                  end) schedule.

End Ingest.

(** ** Sequences of calls on the storage engine *)

Module Api.
Import SqlModel.

Inductive api_call : Type :=
| DoAddDevice (sp_id : Z) (ble_id : string)
| DoAddSample (now : Z) (device_sp_id : Z) (temperature_c humidity : Q)
| DoUpdateDeviceName (device_sp_id : Z) (name : string).

(** Whether the call raised, and the connection it leaves. *)
Definition run_call (op : api_call) (c : Conn) : option exn * Conn :=
  match op with
  | DoAddDevice sp_id ble_id =>
      match add_device sp_id ble_id c with
      | (Ok _, c') => (None, c')
      | (Raise e, c') => (Some e, c')
      end
  | DoAddSample now device_sp_id temperature_c humidity =>
      match add_sample now device_sp_id temperature_c humidity c with
      | (Ok _, c') => (None, c')
      | (Raise e, c') => (Some e, c')
      end
  | DoUpdateDeviceName device_sp_id name =>
      match update_device_name device_sp_id name c with
      | (Ok _, c') => (None, c')
      | (Raise e, c') => (Some e, c')
      end
  end.

Definition run_calls (ops : list api_call) (c : Conn) : Conn :=
  foldl (fun c op => snd (run_call op c)) c ops.

End Api.

(** ** What the read paths report *)

Module Views.
Import SqlModel Schema.

(** The listing entry of a device: its number, its address and the name it
    resolves to. *)
Definition sensor_entry (c : Conn) (d : DeviceRow) : SensorRow :=
  mkSensor (d_sp_id d) (d_ble_id d) (resolved_name (d_sp_id d) c).

(** The export entry of a sample: its columns and the name its device
    resolves to. *)
Definition export_entry (c : Conn) (r : SampleRow) : ExportRow :=
  mkExport (s_id r) (s_device_sp_id r) (s_created_on r)
           (s_temperature_c r) (s_humidity r) (resolved_name (s_device_sp_id r) c).

(** The [Sample] the API shows for a stored sample. *)
Definition sample_entry (c : Conn) (r : SampleRow) : GraphqlSchema.Sample :=
  GraphqlSchema.mkSample (s_device_sp_id r) (resolved_name (s_device_sp_id r) c)
                         (s_temperature_c r) (s_humidity r) (s_created_on r).

(** The last reading a [Sensor] shows is the latest stored one: nothing
    when the device has no sample, else the values of a sample of the
    device that no other sample of the device is later than. *)
Definition latest_reported (c : Conn) (s : GraphqlSensor.Sensor) : Prop :=
  ((forall r, r ∈ samples (db c) -> s_device_sp_id r <> GraphqlSensor.sp_id s)
   /\ GraphqlSensor.last_update s = None
   /\ GraphqlSensor.last_temperature_c s = None
   /\ GraphqlSensor.last_humidity s = None)
  \/ (exists i r,
        first_latest (samples (db c)) i r
        /\ s_device_sp_id r = GraphqlSensor.sp_id s
        /\ GraphqlSensor.last_update s = Some (s_created_on r)
        /\ GraphqlSensor.last_temperature_c s = Some (s_temperature_c r)
        /\ GraphqlSensor.last_humidity s = Some (s_humidity r)).

(** A [Sensor] shows a registered device under the name it resolves to. *)
Definition shows_device (c : Conn) (s : GraphqlSensor.Sensor) : Prop :=
  (exists d, d ∈ devices (db c)
             /\ d_sp_id d = GraphqlSensor.sp_id s /\ d_ble_id d = GraphqlSensor.ble_id s)
  /\ GraphqlSensor.friendly_name s = resolved_name (GraphqlSensor.sp_id s) c.

End Views.

(** ** Concrete states used as test inputs *)

Module Fixtures.
Import SqlModel.

(** The database after [add_device(1, "AA:BB")] on a fresh file. *)
Definition one_device : Conn := snd (add_device 1 "AA:BB" create).

(** ... and after two samples of that device stored within the same
    second, 20.0 degrees first and 21.0 degrees second. *)
Definition tied_samples : Conn :=
  snd (add_sample 100 1 (21 # 1) (50 # 1)
         (snd (add_sample 100 1 (20 # 1) (50 # 1) one_device))).

(** Decoders: one that recognises every advertisement, one that
    recognises none; one that finds 23.5 degrees and 45.2 percent in an
    advertisement, one that finds the temperature alone.  An [isoformat]
    and a [fromisoformat] with fixed answers. *)
Definition always_supported : SpBle.BluetoothServiceInfo -> bool := fun _ => true.

Definition never_supported : SpBle.BluetoothServiceInfo -> bool := fun _ => false.

Definition both_readings : SpBle.BluetoothServiceInfo -> gmap string Q :=
  fun _ => {[ "temperature" := 47 # 2; "humidity" := 226 # 5 ]}.

Definition no_humidity : SpBle.BluetoothServiceInfo -> gmap string Q :=
  fun _ => {[ "temperature" := 47 # 2 ]}.

Definition fixed_isoformat : Z -> string := fun _ => "2024-01-01T00:00:00".

Definition fixed_fromisoformat : string -> option Z := fun _ => Some 1704067200.

(** The sensor at "AA:BB", one of its advertisements, and three ways the
    identity read can go: the bytes 01 00 00 00, a failure, two bytes. *)
Definition aa_bb : SpBle.BLEDevice := SpBle.mkBLEDevice "AA:BB" (Some "SensorPush HT.w").

Definition an_advertisement : SpBle.AdvertisementData :=
  SpBle.mkAdvertisementData (-60) ∅ ∅ [].

Definition read_one : Runtime.Env :=
  Runtime.mkEnv false (Runtime.GattBytes [x01; x00; x00; x00]) false 100 100.

Definition read_fails : Runtime.Env :=
  Runtime.mkEnv false Runtime.GattRaises false 100 100.

Definition read_short : Runtime.Env :=
  Runtime.mkEnv false (Runtime.GattBytes [x01; x00]) false 100 100.

(** The running backend with that sensor registered and nothing else. *)
Definition world_with_device : Runtime.World :=
  Runtime.mkWorld one_device [] [] [].

(** A record without its humidity. *)
Definition record_without_humidity : Runtime.sample_data :=
  Runtime.mkSampleData (Some "AA:BB") (Some 1) (Some (47 # 2)) None (Some (-60))
                       (Some "2024-01-01T00:00:00Z").

(** Two sensors, registered out of numeric order: "CC:DD" (number 5, not
    named) with a sample at 150, "AA:BB" (number 1, named "Garden") with
    samples at 100 and 200. *)
Definition two_devices : Conn :=
  Api.run_calls
    [Api.DoAddDevice 5 "CC:DD"; Api.DoAddDevice 1 "AA:BB";
     Api.DoAddSample 100 1 (20 # 1) (50 # 1); Api.DoAddSample 150 5 (18 # 1) (60 # 1);
     Api.DoAddSample 200 1 (21 # 1) (55 # 1); Api.DoUpdateDeviceName 1 "Garden"]
    create.

Definition world_with_two_devices : Runtime.World :=
  Runtime.mkWorld two_devices [] [] [].

(** The text of the seconds of the first hour of 2024-01-01. *)
Definition two_digits (n : Z) : string :=
  String (ascii_of_N (48 + Z.to_N (n / 10)))
         (String (ascii_of_N (48 + Z.to_N (n mod 10))) "").

Definition first_hour_text (second : Z) : string :=
  "2024-01-01 00:" +:+ two_digits (second / 60) +:+ ":" +:+ two_digits (second mod 60).

End Fixtures.

(** * Properties *)

Import SqlModel Schema Runtime Protocol Fixtures.

(** Unfolding the monad. *)
Ltac unfold_py :=
  unfold Py.bind, Py.try_except, Py.ret, Py.raise, Py.get, Py.modify, Py.zoom,
    Py.except_IntegrityError, Py.except_ValueError, Py.except_Exception in *.

(** ** Storage engine *)

Lemma sp_id_in_true (sp : Z) (ds : list DeviceRow) :
  sp_id_in sp ds = true <-> exists d, d ∈ ds /\ d_sp_id d = sp.
Proof.
  unfold sp_id_in. rewrite existsb_exists. split.
  - intros (d & Hin & Heq). exists d. split; [by apply list_elem_of_In|lia].
  - intros (d & Hin & Heq). exists d. split; [by apply list_elem_of_In|lia].
Qed.

Lemma sp_id_in_false (sp : Z) (ds : list DeviceRow) :
  sp_id_in sp ds = false <-> forall d, d ∈ ds -> d_sp_id d <> sp.
Proof.
  rewrite <- not_true_iff_false, sp_id_in_true. split.
  - intros H d Hin Heq. apply H. eauto.
  - intros H (d & Hin & Heq). by apply (H d).
Qed.

Lemma ble_id_in_true (ble : string) (ds : list DeviceRow) :
  ble_id_in ble ds = true <-> exists d, d ∈ ds /\ d_ble_id d = ble.
Proof.
  unfold ble_id_in. rewrite existsb_exists. split.
  - intros (d & Hin & Heq). exists d. split; [by apply list_elem_of_In|].
    by apply bool_decide_eq_true in Heq.
  - intros (d & Hin & Heq). exists d. split; [by apply list_elem_of_In|].
    by apply bool_decide_eq_true.
Qed.

Lemma ble_id_in_false (ble : string) (ds : list DeviceRow) :
  ble_id_in ble ds = false <-> forall d, d ∈ ds -> d_ble_id d <> ble.
Proof.
  rewrite <- not_true_iff_false, ble_id_in_true. split.
  - intros H d Hin Heq. apply H. eauto.
  - intros H (d & Hin & Heq). by apply (H d).
Qed.

Lemma name_key_in_true (sp : Z) (ns : list NameRow) :
  name_key_in sp ns = true <-> exists n, n ∈ ns /\ n_device_sp_id n = sp.
Proof.
  unfold name_key_in. rewrite existsb_exists. split.
  - intros (n & Hin & Heq). exists n. split; [by apply list_elem_of_In|lia].
  - intros (n & Hin & Heq). exists n. split; [by apply list_elem_of_In|lia].
Qed.

Lemma sp_id_in_app (sp : Z) (ds ds' : list DeviceRow) :
  sp_id_in sp (ds ++ ds') = sp_id_in sp ds || sp_id_in sp ds'.
Proof. unfold sp_id_in. apply existsb_app. Qed.

Lemma conn_eta (c : Conn) : txn c = None -> mkConn (db c) None = c.
Proof. destruct c as [t o]. simpl. by intros ->. Qed.

(** The empty database satisfies the schema. *)
Lemma wf_create : wf create.
Proof. split; simpl; try constructor; done. Qed.

(** [add_device] on a conflict: [ValueError], nothing changed. *)
Lemma add_device_conflict (sp : Z) (ble : string) (c : Conn) :
  txn c = None ->
  sp_id_in sp (devices (db c)) || ble_id_in ble (devices (db c)) = true ->
  exists e, add_device sp ble c = (Raise (ValueError (ErrInsertingDevice e)), c).
Proof.
  intros Htxn Hdup. unfold add_device, execute_insert_device, rollback, commit, begin_implicit.
  unfold_py. rewrite Htxn. simpl.
  destruct (sp_id_in sp (devices (db c))) eqn:Hsp; simpl.
  - eexists. by rewrite conn_eta.
  - simpl in Hdup. rewrite Hdup. simpl. eexists. by rewrite conn_eta.
Qed.

(** [add_device] with both keys fresh: the row is appended under the next
    rowid. *)
Lemma add_device_fresh (sp : Z) (ble : string) (c : Conn) :
  sp_id_in sp (devices (db c)) = false ->
  ble_id_in ble (devices (db c)) = false ->
  add_device sp ble c =
    (Ok (devices_seq (db c) + 1),
     mkConn (mkTables (devices (db c) ++ [mkDevice (devices_seq (db c) + 1) sp ble])
                      (devices_seq (db c) + 1)
                      (samples (db c)) (samples_seq (db c))
                      (device_names (db c)) (device_names_seq (db c)))
            None).
Proof.
  intros Hsp Hble. unfold add_device, execute_insert_device, rollback, commit, begin_implicit.
  unfold_py. destruct (txn c); simpl; by rewrite Hsp, Hble.
Qed.

(** [add_sample] for a registered device appends the row. *)
Lemma add_sample_registered (now sp : Z) (t h : Q) (c : Conn) :
  sp_id_in sp (devices (db c)) = true ->
  add_sample now sp t h c =
    (Ok (samples_seq (db c) + 1),
     mkConn (mkTables (devices (db c)) (devices_seq (db c))
                      (samples (db c) ++ [mkSample (samples_seq (db c) + 1) sp now t h])
                      (samples_seq (db c) + 1)
                      (device_names (db c)) (device_names_seq (db c)))
            None).
Proof.
  intros Hsp. unfold add_sample, execute_insert_sample, rollback, commit, begin_implicit.
  unfold_py. destruct (txn c); simpl; by rewrite Hsp.
Qed.

(** [add_sample] for an unknown device: the foreign key fails. *)
Lemma add_sample_unregistered (now sp : Z) (t h : Q) (c : Conn) :
  txn c = None ->
  sp_id_in sp (devices (db c)) = false ->
  add_sample now sp t h c = (Raise (ValueError (ErrSampleNoDevice sp)), c).
Proof.
  intros Htxn Hsp.
  unfold add_sample, execute_insert_sample, device_sp_id_exists, rollback, commit,
    begin_implicit.
  unfold_py. rewrite Htxn. simpl. rewrite Hsp. simpl. rewrite Hsp. simpl.
  by rewrite conn_eta.
Qed.

(** The schema is an invariant of the three mutating operations. *)
Lemma add_device_wf (sp : Z) (ble : string) (c : Conn) :
  wf c -> wf (snd (add_device sp ble c)).
Proof.
  intros Hwf.
  destruct (sp_id_in sp (devices (db c)) || ble_id_in ble (devices (db c))) eqn:Hdup.
  - destruct (add_device_conflict sp ble c (wf_txn c Hwf) Hdup) as [e ->]. done.
  - apply orb_false_elim in Hdup as [Hsp Hble].
    rewrite (add_device_fresh sp ble c Hsp Hble). simpl.
    destruct Hwf as [Htxn Hu1 Hu2 Hu3 Hids Hfk1 Hfk2].
    split; simpl; try done.
    + rewrite fmap_app. apply NoDup_app. split; [done|]. split; [|apply NoDup_singleton].
      intros x Hx Hx'. apply list_elem_of_singleton in Hx'. simpl in Hx'. subst x.
      apply list_elem_of_fmap in Hx as (d & Heq & Hd).
      apply (proj1 (sp_id_in_false sp _) Hsp d Hd). done.
    + rewrite fmap_app. apply NoDup_app. split; [done|]. split; [|apply NoDup_singleton].
      intros x Hx Hx'. apply list_elem_of_singleton in Hx'. simpl in Hx'. subst x.
      apply list_elem_of_fmap in Hx as (d & Heq & Hd).
      apply (proj1 (ble_id_in_false ble _) Hble d Hd). done.
    + apply Forall_app. split.
      * eapply Forall_impl; [exact Hids|]. simpl. intros; lia.
      * apply Forall_singleton. simpl. lia.
    + eapply Forall_impl; [exact Hfk1|]. simpl. intros s Hs.
      by rewrite sp_id_in_app, Hs.
    + eapply Forall_impl; [exact Hfk2|]. simpl. intros n Hn.
      by rewrite sp_id_in_app, Hn.
Qed.

Lemma add_sample_wf (now sp : Z) (t h : Q) (c : Conn) :
  wf c -> wf (snd (add_sample now sp t h c)).
Proof.
  intros Hwf.
  destruct (sp_id_in sp (devices (db c))) eqn:Hsp.
  - rewrite (add_sample_registered now sp t h c Hsp). simpl.
    destruct Hwf as [Htxn Hu1 Hu2 Hu3 Hids Hfk1 Hfk2].
    split; simpl; try done.
    apply Forall_app. split; [done|]. by apply Forall_singleton.
  - by rewrite (add_sample_unregistered now sp t h c (wf_txn c Hwf) Hsp).
Qed.

Lemma set_name_key (sp : Z) (name : string) (ns : list NameRow) :
  n_device_sp_id <$> (set_name sp name <$> ns) = n_device_sp_id <$> ns.
Proof.
  rewrite <- list_fmap_compose. apply list_fmap_ext. intros i n _. simpl.
  unfold set_name. by destruct (n_device_sp_id n =? sp).
Qed.

(** [update_device_name] for a registered device: the upsert, committed. *)
Lemma update_device_name_registered (sp : Z) (name : string) (c : Conn) :
  sp_id_in sp (devices (db c)) = true ->
  update_device_name sp name c =
    (Ok tt,
     mkConn (mkTables (devices (db c)) (devices_seq (db c))
                      (samples (db c)) (samples_seq (db c))
                      (if name_key_in sp (device_names (db c))
                       then set_name sp name <$> device_names (db c)
                       else device_names (db c) ++
                              [mkName (device_names_seq (db c) + 1) sp name])
                      (device_names_seq (db c) + 1))
            None).
Proof.
  intros Hsp.
  unfold update_device_name, execute_upsert_name, device_sp_id_exists, commit, begin_implicit.
  unfold_py. simpl. rewrite Hsp. simpl.
  destruct (txn c); simpl; rewrite ?Hsp;
    by destruct (name_key_in sp (device_names (db c))).
Qed.

(** [update_device_name] for an unknown device raises before any statement. *)
Lemma update_device_name_unregistered (sp : Z) (name : string) (c : Conn) :
  sp_id_in sp (devices (db c)) = false ->
  update_device_name sp name c = (Raise (ValueError (ErrNameNoDevice sp)), c).
Proof.
  intros Hsp. unfold update_device_name, device_sp_id_exists. unfold_py. simpl.
  by rewrite Hsp.
Qed.

Lemma update_device_name_wf (sp : Z) (name : string) (c : Conn) :
  wf c -> wf (snd (update_device_name sp name c)).
Proof.
  intros Hwf.
  destruct (sp_id_in sp (devices (db c))) eqn:Hsp.
  - rewrite (update_device_name_registered sp name c Hsp). simpl.
    destruct Hwf as [Htxn Hu1 Hu2 Hu3 Hids Hfk1 Hfk2].
    split; simpl; try done.
    + destruct (name_key_in sp (device_names (db c))) eqn:Hkey.
      * by rewrite set_name_key.
      * rewrite fmap_app. apply NoDup_app. split; [done|].
        split; [|apply NoDup_singleton].
        intros x Hx Hx'. apply list_elem_of_singleton in Hx'. simpl in Hx'. subst x.
        apply list_elem_of_fmap in Hx as (n & Heq & Hn).
        apply not_true_iff_false in Hkey. apply Hkey.
        apply name_key_in_true. eauto.
    + destruct (name_key_in sp (device_names (db c))).
      * apply Forall_fmap. eapply Forall_impl; [exact Hfk2|]. simpl. intros n Hn.
        unfold set_name. by destruct (n_device_sp_id n =? sp).
      * apply Forall_app. split; [done|]. by apply Forall_singleton.
  - by rewrite (update_device_name_unregistered sp name c Hsp).
Qed.

(** C5. [add_sample] with a [device_sp_id] that no row of [devices] carries
    raises the [ValueError] "Device with sp_id ... does not exist", and the
    connection is left exactly as it was: no sample row is stored and no
    transaction stays open, so no later read can see a partial row. *)
Theorem add_sample_unknown_device_rejected (now sp : Z) (t h : Q) (c : Conn) :
  txn c = None ->
  (forall d, d ∈ devices (db c) -> d_sp_id d <> sp) ->
  add_sample now sp t h c = (Raise (ValueError (ErrSampleNoDevice sp)), c)
  /\ samples (db (snd (add_sample now sp t h c))) = samples (db c).
Proof.
  intros Htxn Hnone. apply sp_id_in_false in Hnone.
  by rewrite (add_sample_unregistered now sp t h c Htxn Hnone).
Qed.

(** A sample for device 7 when only device 1 is registered. *)
Lemma add_sample_unknown_device_rejected_witness :
  add_sample 100 7 (47 # 2) (226 # 5) one_device
    = (Raise (ValueError (ErrSampleNoDevice 7)), one_device)
  /\ samples (db (snd (add_sample 100 7 (47 # 2) (226 # 5) one_device)))
     = samples (db one_device).
Proof.
  apply (add_sample_unknown_device_rejected 100 7 (47 # 2) (226 # 5) one_device).
  - reflexivity.
  - apply sp_id_in_false. reflexivity.
Defined.

(** C6. [add_device] under a [sp_id] or a [ble_id] that a stored device
    already has raises the [ValueError] "Error inserting device" and leaves
    the connection as it was; with both keys fresh it returns the next
    rowid of the table, which no stored device has, and appends the row
    under it, touching nothing else. *)
Theorem add_device_unique_keys (sp : Z) (ble : string) (c : Conn) :
  wf c ->
  ((exists d, d ∈ devices (db c) /\ (d_sp_id d = sp \/ d_ble_id d = ble)) ->
     exists e, add_device sp ble c = (Raise (ValueError (ErrInsertingDevice e)), c))
  /\ ((forall d, d ∈ devices (db c) -> d_sp_id d <> sp /\ d_ble_id d <> ble) ->
      exists id c',
        add_device sp ble c = (Ok id, c')
        /\ devices (db c') = devices (db c) ++ [mkDevice id sp ble]
        /\ (forall d, d ∈ devices (db c) -> d_id d <> id)
        /\ samples (db c') = samples (db c)
        /\ device_names (db c') = device_names (db c)
        /\ wf c').
Proof.
  intros Hwf. split.
  - intros (d & Hd & Hkey). apply add_device_conflict; [apply Hwf|].
    apply orb_true_iff. destruct Hkey as [Hsp | Hble].
    + left. apply sp_id_in_true. eauto.
    + right. apply ble_id_in_true. eauto.
  - intros Hfresh.
    assert (Hsp : sp_id_in sp (devices (db c)) = false).
    { apply sp_id_in_false. intros d Hd. by apply Hfresh. }
    assert (Hble : ble_id_in ble (devices (db c)) = false).
    { apply ble_id_in_false. intros d Hd. by apply Hfresh. }
    pose proof (add_device_wf sp ble c Hwf) as Hwf'.
    rewrite (add_device_fresh sp ble c Hsp Hble) in Hwf'.
    rewrite (add_device_fresh sp ble c Hsp Hble).
    eexists _, _. split; [reflexivity|]. simpl.
    split; [reflexivity|]. split; [|by repeat (split; [reflexivity|])].
    intros d Hd. pose proof (wf_device_ids c Hwf) as Hids.
    rewrite Forall_forall in Hids. specialize (Hids d Hd). lia.
Qed.

(** With device 1 at "AA:BB" registered: number 1 again is refused, number
    2 at a new address is stored. *)
Lemma add_device_unique_keys_witness :
  wf one_device /\
  (exists e, add_device 1 "CC:DD" one_device
             = (Raise (ValueError (ErrInsertingDevice e)), one_device)) /\
  (exists id c', add_device 2 "CC:DD" one_device = (Ok id, c')
     /\ devices (db c') = devices (db one_device) ++ [mkDevice id 2 "CC:DD"]).
Proof.
  assert (Hwf : wf one_device) by (apply add_device_wf, wf_create).
  destruct (add_device_unique_keys 1 "CC:DD" one_device Hwf) as [Hdup _].
  destruct (add_device_unique_keys 2 "CC:DD" one_device Hwf) as [_ Hfresh].
  split; [exact Hwf|]. split.
  - apply Hdup. exists (mkDevice 1 1 "AA:BB"). split; [|by left].
    apply list_elem_of_In. simpl. by left.
  - destruct Hfresh as (id & c' & Hrun & Hdevs & _).
    + intros d Hd. apply list_elem_of_In in Hd. simpl in Hd.
      destruct Hd as [<- | []]. simpl. split; [lia|discriminate].
    + exists id, c'. by split.
Defined.

(** *** Rows under a unique key *)

Section UniqueKey.
Context {A : Type} (key : A -> Z).

Lemma filter_none (P : A -> Prop) `{!forall x, Decision (P x)} (l : list A) :
  (forall x, x ∈ l -> ~ P x) -> filter P l = [].
Proof.
  induction l as [|a l IH]; intros Hno; [done|].
  rewrite filter_cons_False by (apply Hno; left).
  apply IH. intros x Hx. apply Hno. by right.
Qed.

Lemma filter_all (P : A -> Prop) `{!forall x, Decision (P x)} (l : list A) :
  (forall x, x ∈ l -> P x) -> filter P l = l.
Proof.
  induction l as [|a l IH]; intros Hall; [done|].
  rewrite filter_cons_True by (apply Hall; left).
  f_equal. apply IH. intros x Hx. apply Hall. by right.
Qed.

(** Under a UNIQUE constraint a key selects the one row that carries it. *)
Lemma unique_key_filter (l : list A) (x : A) :
  NoDup (key <$> l) -> x ∈ l -> filter (fun y => key y = key x) l = [x].
Proof.
  induction l as [|a l IH]; intros Hnd Hin; [by apply elem_of_nil in Hin|].
  rewrite fmap_cons in Hnd. apply NoDup_cons in Hnd as [Hnotin Hnd].
  apply elem_of_cons in Hin as [-> | Hin].
  - rewrite filter_cons_True by done. f_equal.
    apply filter_none. intros y Hy Heq. apply Hnotin.
    rewrite <- Heq. by apply list_elem_of_fmap_2.
  - rewrite filter_cons_False; [by apply IH|].
    intros Heq. apply Hnotin. rewrite Heq. by apply list_elem_of_fmap_2.
Qed.

(** An update that keeps the keys commutes with the selection by key. *)
Lemma filter_key_fmap (f : A -> A) (k : Z) (l : list A) :
  (forall x, key (f x) = key x) ->
  filter (fun y => key y = k) (f <$> l) = f <$> filter (fun y => key y = k) l.
Proof.
  intros Hkey. induction l as [|a l IH]; [done|].
  rewrite fmap_cons. destruct (decide (key a = k)) as [Heq | Hne].
  - rewrite !filter_cons_True by (by rewrite ?Hkey). by rewrite fmap_cons, IH.
  - rewrite !filter_cons_False by (by rewrite ?Hkey). done.
Qed.

End UniqueKey.

Lemma set_name_preserves_key (sp : Z) (name : string) (n : NameRow) :
  n_device_sp_id (set_name sp name n) = n_device_sp_id n.
Proof. unfold set_name. by destruct (n_device_sp_id n =? sp). Qed.

Lemma set_name_other (sp sp' : Z) (name : string) (ns : list NameRow) :
  sp' <> sp ->
  filter (fun n => n_device_sp_id n = sp') (set_name sp name <$> ns)
  = filter (fun n => n_device_sp_id n = sp') ns.
Proof.
  intros Hne. rewrite (filter_key_fmap n_device_sp_id) by apply set_name_preserves_key.
  induction ns as [|n ns IH]; [done|].
  destruct (decide (n_device_sp_id n = sp')) as [Heq | Hne'].
  - rewrite !filter_cons_True by done. rewrite fmap_cons, IH. f_equal.
    unfold set_name. destruct (Z.eqb_spec (n_device_sp_id n) sp); [congruence|done].
  - by rewrite !filter_cons_False by done.
Qed.

(** The name rows of a device after a successful [update_device_name]:
    one row, carrying the new name. *)
Lemma name_rows_after_update (sp : Z) (name : string) (c c' : Conn) :
  wf c ->
  update_device_name sp name c = (Ok tt, c') ->
  exists id, name_rows sp c' = [mkName id sp name]
    /\ (forall n, name_rows sp c = [n] -> id = n_id n)
    /\ (name_rows sp c = [] -> id = device_names_seq (db c) + 1).
Proof.
  intros Hwf Hrun.
  destruct (sp_id_in sp (devices (db c))) eqn:Hsp;
    [|by rewrite (update_device_name_unregistered sp name c Hsp) in Hrun].
  rewrite (update_device_name_registered sp name c Hsp) in Hrun.
  injection Hrun as <-. unfold name_rows. simpl.
  destruct (name_key_in sp (device_names (db c))) eqn:Hkey.
  - apply name_key_in_true in Hkey as (n & Hn & Hnsp).
    pose proof (unique_key_filter n_device_sp_id _ n (wf_name_unique c Hwf) Hn) as Hone.
    rewrite Hnsp in Hone.
    rewrite (filter_key_fmap n_device_sp_id) by apply set_name_preserves_key.
    rewrite Hone. exists (n_id n). simpl. unfold set_name.
    rewrite <- Hnsp, Z.eqb_refl. split; [done|]. split; [|done].
    by intros n' [= ->].
  - assert (Hnone : filter (fun n => n_device_sp_id n = sp) (device_names (db c)) = []).
    { apply filter_none. intros n Hn Heq. apply not_true_iff_false in Hkey.
      apply Hkey, name_key_in_true. eauto. }
    rewrite filter_app, Hnone. simpl. rewrite filter_cons_True by done.
    exists (device_names_seq (db c) + 1). split; [done|]. split; [done|done].
Qed.

Lemma name_rows_other_after_update (sp sp' : Z) (name : string) (c c' : Conn) :
  sp' <> sp ->
  update_device_name sp name c = (Ok tt, c') ->
  name_rows sp' c' = name_rows sp' c.
Proof.
  intros Hne Hrun.
  destruct (sp_id_in sp (devices (db c))) eqn:Hsp;
    [|by rewrite (update_device_name_unregistered sp name c Hsp) in Hrun].
  rewrite (update_device_name_registered sp name c Hsp) in Hrun.
  injection Hrun as <-. unfold name_rows. simpl.
  destruct (name_key_in sp (device_names (db c))).
  - by apply set_name_other.
  - rewrite filter_app. rewrite (filter_cons_False _ _ []) by (simpl; congruence).
    by rewrite app_nil_r.
Qed.

Lemma set_name_idem (sp : Z) (name : string) (n : NameRow) :
  set_name sp name (set_name sp name n) = set_name sp name n.
Proof.
  unfold set_name. destruct (n_device_sp_id n =? sp) eqn:Heq; simpl; by rewrite Heq.
Qed.

Lemma set_name_absent (sp : Z) (name : string) (ns : list NameRow) :
  name_key_in sp ns = false -> set_name sp name <$> ns = ns.
Proof.
  unfold name_key_in. induction ns as [|n ns IH]; intros Hno; [done|].
  simpl in Hno. apply orb_false_elim in Hno as [Hn Hns].
  rewrite fmap_cons, (IH Hns). unfold set_name. by rewrite Hn.
Qed.

Lemma name_key_in_app (sp : Z) (ns ns' : list NameRow) :
  name_key_in sp (ns ++ ns') = name_key_in sp ns || name_key_in sp ns'.
Proof. unfold name_key_in. apply existsb_app. Qed.

Lemma name_key_in_set_name (sp sp' : Z) (name : string) (ns : list NameRow) :
  name_key_in sp' (set_name sp name <$> ns) = name_key_in sp' ns.
Proof.
  unfold name_key_in. induction ns as [|n ns IH]; [done|].
  rewrite fmap_cons. simpl. by rewrite IH, set_name_preserves_key.
Qed.

(** Renaming twice to the same name stores what renaming once stores. *)
Lemma update_device_name_twice (sp : Z) (name : string) (c c1 c2 : Conn) :
  update_device_name sp name c = (Ok tt, c1) ->
  update_device_name sp name c1 = (Ok tt, c2) ->
  device_names (db c2) = device_names (db c1)
  /\ devices (db c2) = devices (db c1) /\ samples (db c2) = samples (db c1).
Proof.
  intros Hrun1 Hrun2.
  destruct (sp_id_in sp (devices (db c))) eqn:Hsp;
    [|by rewrite (update_device_name_unregistered sp name c Hsp) in Hrun1].
  rewrite (update_device_name_registered sp name c Hsp) in Hrun1.
  injection Hrun1 as <-.
  rewrite update_device_name_registered in Hrun2 by done.
  injection Hrun2 as <-. simpl. split; [|done].
  destruct (name_key_in sp (device_names (db c))) eqn:Hkey.
  - rewrite name_key_in_set_name, Hkey.
    rewrite <- list_fmap_compose. apply list_fmap_ext. intros i n _. simpl.
    apply set_name_idem.
  - rewrite name_key_in_app, Hkey. simpl. rewrite Z.eqb_refl. simpl.
    rewrite fmap_app, (set_name_absent sp name _ Hkey). simpl.
    unfold set_name. simpl. by rewrite Z.eqb_refl.
Qed.

(** *** The joined listing *)

Lemma left_join_names_sp_id (ns : list NameRow) (d : DeviceRow) (s : SensorRow) :
  s ∈ left_join_names ns d -> sp_id s = d_sp_id d.
Proof.
  unfold left_join_names.
  destruct (filter (fun n => n_device_sp_id n = d_sp_id d) ns) as [|n l].
  - intros Hs. apply list_elem_of_singleton in Hs. by subst.
  - intros Hs. apply list_elem_of_fmap in Hs as (n' & -> & _). done.
Qed.

Lemma filter_left_join (sp : Z) (ns : list NameRow) (ds : list DeviceRow) :
  filter (fun s => sp_id s = sp) (concat (left_join_names ns <$> ds))
  = concat (left_join_names ns <$> filter (fun d => d_sp_id d = sp) ds).
Proof.
  induction ds as [|d ds IH]; [done|].
  rewrite fmap_cons. simpl. rewrite filter_app, IH.
  destruct (decide (d_sp_id d = sp)) as [Heq | Hne].
  - rewrite (filter_cons_True _ d ds) by done. rewrite fmap_cons. simpl. f_equal.
    apply filter_all. intros s Hs. by rewrite (left_join_names_sp_id ns d s Hs).
  - rewrite (filter_cons_False _ d ds) by done.
    rewrite filter_none; [done|].
    intros s Hs. by rewrite (left_join_names_sp_id ns d s Hs).
Qed.

(** The entries of [get_all_sensors_with_names] for a registered device
    that has one name row: one entry, with that name. *)
Lemma sensors_entry_of_named (sp id : Z) (name : string) (c : Conn) (d : DeviceRow) :
  NoDup (d_sp_id <$> devices (db c)) ->
  d ∈ devices (db c) -> d_sp_id d = sp ->
  name_rows sp c = [mkName id sp name] ->
  exists l, get_all_sensors_with_names c = (Ok l, c)
    /\ filter (fun s => sp_id s = sp) l = [mkSensor sp (d_ble_id d) name].
Proof.
  intros Hnd Hd Hsp Hname. unfold get_all_sensors_with_names. unfold_py.
  eexists. split; [reflexivity|].
  apply Permutation_singleton_r.
  rewrite merge_sort_Permutation, filter_left_join.
  pose proof (unique_key_filter d_sp_id _ d Hnd Hd) as Hone. rewrite Hsp in Hone.
  rewrite Hone. simpl. rewrite app_nil_r. unfold left_join_names.
  unfold name_rows in Hname. rewrite Hsp, Hname. done.
Qed.

Lemma name_key_in_name_rows (sp : Z) (c : Conn) :
  name_key_in sp (device_names (db c)) = true <-> name_rows sp c <> [].
Proof.
  rewrite name_key_in_true. unfold name_rows. split.
  - intros (n & Hn & Heq) Hnil.
    by apply (filter_nil_not_elem_of _ _ n Hnil Heq).
  - intros Hne. destruct (filter _ _) as [|n l] eqn:Hf; [done|].
    assert (Hn : n ∈ filter (fun n => n_device_sp_id n = sp) (device_names (db c))).
    { rewrite Hf. left. }
    apply list_elem_of_filter in Hn as [Heq Hn]. eauto.
Qed.

(** C7. [update_device_name] is an upsert and is idempotent.  For a device
    that is not registered it raises the [ValueError] "Cannot update name:
    Device with sp_id ... does not exist" and changes nothing.  For a
    registered device it succeeds: afterwards the device has exactly one
    name row and it carries the given name; that row was appended when the
    device had none and is the old row, overwritten, when it had one; the
    name rows of other devices are untouched.  A second call with the same
    name leaves the name table as the first call left it, and a second call
    with another name leaves one row with that name, which is the one entry
    [get_all_sensors_with_names] lists for the device. *)
Theorem update_device_name_upsert (sp : Z) (name name' : string) (c : Conn) :
  wf c ->
  ((forall d, d ∈ devices (db c) -> d_sp_id d <> sp) ->
     update_device_name sp name c = (Raise (ValueError (ErrNameNoDevice sp)), c))
  /\ (forall d, d ∈ devices (db c) -> d_sp_id d = sp ->
      exists c1 c2 c3 id,
        update_device_name sp name c = (Ok tt, c1)
        /\ update_device_name sp name c1 = (Ok tt, c2)
        /\ update_device_name sp name' c1 = (Ok tt, c3)
        /\ name_rows sp c1 = [mkName id sp name]
        /\ (name_rows sp c = [] ->
            device_names (db c1) = device_names (db c) ++ [mkName id sp name])
        /\ (forall n, name_rows sp c = [n] ->
            id = n_id n
            /\ device_names (db c1) = set_name sp name <$> device_names (db c))
        /\ (forall sp', sp' <> sp -> name_rows sp' c1 = name_rows sp' c)
        /\ device_names (db c2) = device_names (db c1)
        /\ name_rows sp c3 = [mkName id sp name']
        /\ exists l, get_all_sensors_with_names c3 = (Ok l, c3)
             /\ filter (fun s => sp_id s = sp) l = [mkSensor sp (d_ble_id d) name']).
Proof.
  intros Hwf. split.
  - intros Hnone. apply update_device_name_unregistered. by apply sp_id_in_false.
  - intros d Hd Hdsp.
    assert (Hsp : sp_id_in sp (devices (db c)) = true) by (apply sp_id_in_true; eauto).
    destruct (update_device_name sp name c) as [r1 c1] eqn:Hrun1.
    pose proof (update_device_name_registered sp name c Hsp) as Hexp1.
    rewrite Hrun1 in Hexp1. injection Hexp1 as -> Hc1.
    assert (Hwf1 : wf c1).
    { pose proof (update_device_name_wf sp name c Hwf) as H. by rewrite Hrun1 in H. }
    assert (Hdevs1 : devices (db c1) = devices (db c)) by (by rewrite Hc1).
    assert (Hsp1 : sp_id_in sp (devices (db c1)) = true) by (by rewrite Hdevs1).
    destruct (update_device_name sp name c1) as [r2 c2] eqn:Hrun2.
    pose proof (update_device_name_registered sp name c1 Hsp1) as Hexp2.
    rewrite Hrun2 in Hexp2. injection Hexp2 as -> Hc2.
    destruct (update_device_name sp name' c1) as [r3 c3] eqn:Hrun3.
    pose proof (update_device_name_registered sp name' c1 Hsp1) as Hexp3.
    rewrite Hrun3 in Hexp3. injection Hexp3 as -> Hc3.
    destruct (name_rows_after_update sp name c c1 Hwf Hrun1) as (id & Hrows1 & Hold & Hnew).
    destruct (name_rows_after_update sp name' c1 c3 Hwf1 Hrun3) as (id' & Hrows3 & Hold3 & _).
    specialize (Hold3 _ Hrows1). simpl in Hold3. subst id'.
    exists c1, c2, c3, id. repeat (split; [done|]).
    split; [|split; [|split; [|split; [|split]]]].
    + intros Hnil. specialize (Hnew Hnil). subst id.
      assert (Hkey : name_key_in sp (device_names (db c)) = false).
      { apply not_true_iff_false. rewrite name_key_in_name_rows. by intros []. }
      rewrite Hc1. simpl. by rewrite Hkey.
    + intros n Hone. split; [by apply Hold|].
      assert (Hkey : name_key_in sp (device_names (db c)) = true).
      { apply name_key_in_name_rows. by rewrite Hone. }
      rewrite Hc1. simpl. by rewrite Hkey.
    + intros sp' Hne. by apply (name_rows_other_after_update sp sp' name c c1).
    + by destruct (update_device_name_twice sp name c c1 c2 Hrun1 Hrun2).
    + done.
    + assert (Hdevs3 : devices (db c3) = devices (db c)) by (by rewrite Hc3).
      apply (sensors_entry_of_named sp id name' c3 d); rewrite ?Hdevs3; try done.
      apply Hwf.
Qed.

(** Device 9 is unknown; device 1 renamed "Garden" and then "Garden Shed"
    is listed once, as "Garden Shed". *)
Lemma update_device_name_upsert_witness :
  wf one_device
  /\ update_device_name 9 "Garden" one_device
     = (Raise (ValueError (ErrNameNoDevice 9)), one_device)
  /\ exists c1 c3,
       update_device_name 1 "Garden" one_device = (Ok tt, c1)
       /\ update_device_name 1 "Garden Shed" c1 = (Ok tt, c3)
       /\ exists l, get_all_sensors_with_names c3 = (Ok l, c3)
            /\ filter (fun s => sp_id s = 1) l = [mkSensor 1 "AA:BB" "Garden Shed"].
Proof.
  assert (Hwf : wf one_device) by (apply add_device_wf, wf_create).
  destruct (update_device_name_upsert 9 "Garden" "Garden Shed" one_device Hwf) as [Hunknown _].
  destruct (update_device_name_upsert 1 "Garden" "Garden Shed" one_device Hwf) as [_ Hknown].
  split; [exact Hwf|]. split.
  - apply Hunknown. apply sp_id_in_false. reflexivity.
  - destruct (Hknown (mkDevice 1 1 "AA:BB")) as (c1 & c2 & c3 & id & H1 & _ & H3 & _ & _ & _ & _ & _ & _ & Hl).
    + apply list_elem_of_In. simpl. by left.
    + reflexivity.
    + exists c1, c3. split; [exact H1|]. split; [exact H3|]. exact Hl.
Defined.

(** *** The latest-sample query *)

Lemma row_number_one (rows : list SampleRow) (i : nat) (r : SampleRow) :
  rows !! i = Some r ->
  row_number rows i r = 1%nat <-> first_latest rows i r.
Proof.
  intros Hi. unfold row_number, first_latest. split.
  - intros Hrn. injection Hrn as Hrn. apply Nat.eq_add_0 in Hrn as [Hlater Htie].
    apply nil_length_inv in Hlater. apply nil_length_inv in Htie.
    split; [done|]. split.
    + intros r' Hr' Hdev.
      destruct (Z.le_gt_cases (s_created_on r') (s_created_on r)) as [|Hgt]; [done|].
      exfalso. apply (filter_nil_not_elem_of _ _ r' Hlater); [|done].
      unfold same_partition. apply andb_True. split.
      * apply Is_true_true. lia.
      * apply Is_true_true. lia.
    + intros j r' Hj Hr' Hdev.
      assert (Hin : r' ∈ take i rows) by (apply elem_of_take; eauto).
      assert (Hle : s_created_on r' <= s_created_on r).
      { destruct (Z.le_gt_cases (s_created_on r') (s_created_on r)) as [|Hgt]; [done|].
        exfalso. apply (filter_nil_not_elem_of _ _ r' Hlater).
        - unfold same_partition. apply andb_True. split; apply Is_true_true; lia.
        - by apply list_elem_of_lookup_2 in Hr'. }
      destruct (Z.eq_dec (s_created_on r') (s_created_on r)) as [Heq|]; [|lia].
      exfalso. apply (filter_nil_not_elem_of _ _ r' Htie); [|done].
      unfold same_partition. apply andb_True. split; apply Is_true_true; lia.
  - intros (_ & Hmax & Hfirst). f_equal.
    rewrite (filter_none _ rows), (filter_none _ (take i rows)); [done| |].
    + intros r' Hr' HP. apply andb_True in HP as [Hdev Heq].
      apply Is_true_true in Hdev, Heq. unfold same_partition in Hdev.
      apply elem_of_take in Hr' as (j & Hj & Hlt).
      assert (s_created_on r' < s_created_on r) by (apply (Hfirst j r'); [done|done|lia]).
      lia.
    + intros r' Hr' HP. apply andb_True in HP as [Hdev Hlt].
      apply Is_true_true in Hdev, Hlt. unfold same_partition in Hdev.
      assert (s_created_on r' <= s_created_on r) by (apply Hmax; [done|lia]).
      lia.
Qed.

(** Two rows of one device cannot both be numbered 1. *)
Lemma first_latest_unique (rows : list SampleRow) (i j : nat) (r r' : SampleRow) :
  first_latest rows i r -> first_latest rows j r' ->
  s_device_sp_id r = s_device_sp_id r' -> i = j /\ r = r'.
Proof.
  intros (Hi & Hmax & Hfirst) (Hj & Hmax' & Hfirst') Hdev.
  assert (Hle : s_created_on r' <= s_created_on r).
  { apply Hmax; [by apply list_elem_of_lookup_2 in Hj|done]. }
  assert (Hle' : s_created_on r <= s_created_on r').
  { apply Hmax'; [by apply list_elem_of_lookup_2 in Hi|done]. }
  destruct (lt_eq_lt_dec i j) as [[Hlt | ->] | Hlt].
  - specialize (Hfirst' i r Hlt Hi Hdev). lia.
  - split; [done|]. congruence.
  - specialize (Hfirst j r' Hlt Hj (eq_sym Hdev)). lia.
Qed.

(** Every device with a sample has a row numbered 1. *)
Lemma first_latest_exists (rows : list SampleRow) (d : Z) :
  (exists r, r ∈ rows /\ s_device_sp_id r = d) ->
  exists i r, first_latest rows i r /\ s_device_sp_id r = d.
Proof.
  induction rows as [|x rows IH] using rev_ind.
  - intros (r & Hr & _). by apply elem_of_nil in Hr.
  - intros (r0 & Hr0 & Hd0).
    destruct (decide (Exists (fun r => s_device_sp_id r = d) rows)) as [Hold | Hnew];
      rewrite Exists_exists in *.
    + destruct (IH Hold) as (i & r & (Hi & Hmax & Hfirst) & Hd).
      destruct (decide (s_device_sp_id x = d /\ s_created_on r < s_created_on x))
        as [[Hxd Hlater] | Hkeep].
      * exists (length rows), x. split; [|done]. split; [|split].
        -- by apply list_lookup_middle.
        -- intros r' Hr' Hdev. apply elem_of_app in Hr' as [Hr' | Hr'].
           ++ assert (s_created_on r' <= s_created_on r) by (apply Hmax; [done|congruence]).
              lia.
           ++ apply list_elem_of_singleton in Hr'. subst. lia.
        -- intros j r' Hj Hr' Hdev. rewrite lookup_app_l in Hr' by done.
           assert (s_created_on r' <= s_created_on r).
           { apply Hmax; [by apply list_elem_of_lookup_2 in Hr'|congruence]. }
           lia.
      * exists i, r. split; [|done]. split; [|split].
        -- by apply lookup_app_l_Some.
        -- intros r' Hr' Hdev. apply elem_of_app in Hr' as [Hr' | Hr'].
           ++ by apply Hmax.
           ++ apply list_elem_of_singleton in Hr'. subst r'.
              destruct (Z.le_gt_cases (s_created_on x) (s_created_on r)); [done|].
              exfalso. apply Hkeep. split; [congruence|lia].
        -- intros j r' Hj Hr' Hdev. apply (Hfirst j r'); [done| |done].
           apply lookup_lt_Some in Hi.
           rewrite lookup_app_l in Hr' by lia. done.
    + assert (Hx : r0 = x).
      { apply elem_of_app in Hr0 as [Hr0 | Hr0]; [|by apply list_elem_of_singleton in Hr0].
        exfalso. apply Hnew. eauto. }
      subst r0. exists (length rows), x. split; [|done]. split; [|split].
      * by apply list_lookup_middle.
      * intros r' Hr' Hdev. apply elem_of_app in Hr' as [Hr' | Hr'].
        -- exfalso. apply Hnew. exists r'. split; [done|congruence].
        -- apply list_elem_of_singleton in Hr'. subst. lia.
      * intros j r' Hj Hr' Hdev. rewrite lookup_app_l in Hr' by done.
        exfalso. apply Hnew. exists r'. split; [|congruence].
        by apply list_elem_of_lookup_2 in Hr'.
Qed.

Lemma execute_latest_samples_elem (t : Tables) (row : LatestRow) :
  row ∈ execute_latest_samples t <->
  exists i r, first_latest (samples t) i r /\ row = select_latest_columns r.
Proof.
  unfold execute_latest_samples. rewrite list_elem_of_omap. split.
  - intros ([i r] & Hir & Hsel). cbn [fst snd] in Hsel.
    apply list_elem_of_lookup in Hir as (k & Hk).
    rewrite list_lookup_imap in Hk.
    destruct (samples t !! k) as [r'|] eqn:Hr'; [|done].
    simpl in Hk. injection Hk as <- <-.
    destruct (Nat.eqb_spec (row_number (samples t) k r') 1) as [Hrn|]; [|done].
    injection Hsel as <-. exists k, r'. split; [|done]. by apply row_number_one.
  - intros (i & r & Hfl & ->). exists (i, r). split.
    + apply list_elem_of_lookup. exists i. rewrite list_lookup_imap.
      destruct Hfl as [-> _]. done.
    + cbn [fst snd]. pose proof Hfl as [Hi _].
      apply (row_number_one _ _ _ Hi) in Hfl. by rewrite Hfl.
Qed.

(** The dict comprehension: what a key is bound to is a row of the list
    with that key, and every key of the list is bound. *)
Lemma dict_by_device_lookup (rows : list LatestRow) (m : gmap Z LatestRow)
    (d : Z) (row : LatestRow) :
  foldl (fun m row => <[l_device_sp_id row := row]> m) m rows !! d = Some row ->
  (row ∈ rows /\ l_device_sp_id row = d) \/ m !! d = Some row.
Proof.
  revert m. induction rows as [|x rows IH]; intros m Hm; [by right|].
  simpl in Hm. apply IH in Hm as [[Hin Hkey] | Hm].
  - left. split; [by right|done].
  - destruct (decide (l_device_sp_id x = d)) as [Heq | Hne].
    + rewrite Heq, lookup_insert_eq in Hm. injection Hm as <-. left. split; [left|done].
    + rewrite lookup_insert_ne in Hm by done. by right.
Qed.

Lemma dict_by_device_bound (rows : list LatestRow) (m : gmap Z LatestRow) (d : Z) :
  (exists row, row ∈ rows /\ l_device_sp_id row = d) \/ is_Some (m !! d) ->
  is_Some (foldl (fun m row => <[l_device_sp_id row := row]> m) m rows !! d).
Proof.
  revert m. induction rows as [|x rows IH]; intros m Hm.
  - destruct Hm as [(row & Hin & _) | Hm]; [by apply elem_of_nil in Hin|done].
  - simpl. apply IH. destruct Hm as [(row & Hin & Hkey) | Hm].
    + apply elem_of_cons in Hin as [-> | Hin].
      * right. by rewrite Hkey, lookup_insert_eq.
      * left. eauto.
    + right. destruct (decide (l_device_sp_id x = d)) as [Heq | Hne].
      * by rewrite Heq, lookup_insert_eq.
      * by rewrite lookup_insert_ne.
Qed.

(** C4, as the code has it.  [get_latest_sample_for_all_sensors] returns a
    mapping whose keys are exactly the devices with at least one sample (a
    device without samples is not a key), and that maps each of them to the
    columns of one of its samples with the maximal [created_on].  The
    query orders by [created_on] alone: among samples of the device that
    tie on the maximum, the first in rowid order is the one returned. *)
Theorem latest_sample_per_device (c : Conn) :
  exists m,
    get_latest_sample_for_all_sensors c = (Ok m, c)
    /\ (forall d, is_Some (m !! d) <->
                  exists r, r ∈ samples (db c) /\ s_device_sp_id r = d)
    /\ (forall d row, m !! d = Some row ->
          exists i r,
            samples (db c) !! i = Some r
            /\ row = select_latest_columns r
            /\ s_device_sp_id r = d
            /\ (forall r', r' ∈ samples (db c) -> s_device_sp_id r' = d ->
                  s_created_on r' <= s_created_on r)
            /\ (forall j r', (j < i)%nat -> samples (db c) !! j = Some r' ->
                  s_device_sp_id r' = d -> s_created_on r' < s_created_on r)).
Proof.
  unfold get_latest_sample_for_all_sensors. unfold_py.
  eexists. split; [reflexivity|].
  assert (Hval : forall d row,
             dict_by_device (execute_latest_samples (db c)) !! d = Some row ->
             exists i r, first_latest (samples (db c)) i r
                         /\ row = select_latest_columns r /\ s_device_sp_id r = d).
  { intros d row Hm. apply dict_by_device_lookup in Hm as [[Hin Hkey] | Hm]; [|done].
    apply execute_latest_samples_elem in Hin as (i & r & Hfl & ->).
    exists i, r. done. }
  split.
  - intros d. split.
    + intros [row Hm]. destruct (Hval d row Hm) as (i & r & (Hi & _) & _ & Hd).
      exists r. split; [by apply list_elem_of_lookup_2 in Hi|done].
    + intros Hex. apply first_latest_exists in Hex as (i & r & Hfl & Hd).
      apply dict_by_device_bound. left. exists (select_latest_columns r).
      split; [|done]. apply execute_latest_samples_elem. eauto.
  - intros d row Hm. destruct (Hval d row Hm) as (i & r & (Hi & Hmax & Hfirst) & Hrow & Hd).
    exists i, r. rewrite <- Hd. done.
Qed.

(** The fold of the specification's wording ends on a sample of the
    device with the maximal [created_on], when the device has one. *)
Lemma latest_as_specified_max (rows : list SampleRow) (d : Z) :
  match foldl (fun best r =>
                 if s_device_sp_id r =? d then
                   match best with
                   | None => Some r
                   | Some b => if more_recent b r then Some r else Some b
                   end
                 else best) None rows with
  | None => forall r, r ∈ rows -> s_device_sp_id r <> d
  | Some b => b ∈ rows /\ s_device_sp_id b = d
              /\ forall r, r ∈ rows -> s_device_sp_id r = d ->
                           s_created_on r <= s_created_on b
  end.
Proof.
  induction rows as [|x rows IH] using rev_ind.
  - simpl. intros r Hr. by apply elem_of_nil in Hr.
  - rewrite foldl_app. simpl.
    destruct (foldl _ None rows) as [b|].
    + destruct IH as (Hb & Hbd & Hmax).
      destruct (Z.eqb_spec (s_device_sp_id x) d) as [Hxd | Hxd].
      * unfold more_recent.
        destruct (Z.ltb_spec (s_created_on b) (s_created_on x)) as [Hlt | Hge]; simpl.
        -- split; [apply elem_of_app; right; left|]. split; [done|].
           intros r Hr Hrd. apply elem_of_app in Hr as [Hr | Hr].
           ++ specialize (Hmax r Hr Hrd). lia.
           ++ apply list_elem_of_singleton in Hr. subst. lia.
        -- destruct (Z.eqb_spec (s_created_on b) (s_created_on x)) as [Heq | Hne]; simpl.
           ++ destruct (s_id b <? s_id x).
              ** split; [apply elem_of_app; right; left|]. split; [done|].
                 intros r Hr Hrd. apply elem_of_app in Hr as [Hr | Hr].
                 --- specialize (Hmax r Hr Hrd). lia.
                 --- apply list_elem_of_singleton in Hr. subst. lia.
              ** split; [by apply elem_of_app; left|]. split; [done|].
                 intros r Hr Hrd. apply elem_of_app in Hr as [Hr | Hr].
                 --- by apply Hmax.
                 --- apply list_elem_of_singleton in Hr. subst. lia.
           ++ split; [by apply elem_of_app; left|]. split; [done|].
              intros r Hr Hrd. apply elem_of_app in Hr as [Hr | Hr].
              ** by apply Hmax.
              ** apply list_elem_of_singleton in Hr. subst. lia.
      * split; [by apply elem_of_app; left|]. split; [done|].
        intros r Hr Hrd. apply elem_of_app in Hr as [Hr | Hr]; [by apply Hmax|].
        apply list_elem_of_singleton in Hr. by subst.
    + destruct (Z.eqb_spec (s_device_sp_id x) d) as [Hxd | Hxd].
      * split; [apply elem_of_app; right; left|]. split; [done|].
        intros r Hr Hrd. apply elem_of_app in Hr as [Hr | Hr].
        -- by destruct (IH r Hr).
        -- apply list_elem_of_singleton in Hr. subst. lia.
      * intros r Hr. apply elem_of_app in Hr as [Hr | Hr]; [by apply IH|].
        apply list_elem_of_singleton in Hr. by subst.
Qed.

(** Where no two samples of a device carry the same [created_on], the
    mapping is the one the specification words: the tie-break is the only
    difference. *)
Lemma latest_agrees_without_ties (c : Conn) (m : gmap Z LatestRow) :
  (forall r r', r ∈ samples (db c) -> r' ∈ samples (db c) ->
                s_device_sp_id r = s_device_sp_id r' ->
                s_created_on r = s_created_on r' -> r = r') ->
  get_latest_sample_for_all_sensors c = (Ok m, c) ->
  forall d, m !! d = latest_as_specified (db c) d.
Proof.
  intros Hdistinct Hrun d.
  unfold get_latest_sample_for_all_sensors in Hrun. unfold_py. injection Hrun as <-.
  unfold latest_as_specified.
  pose proof (latest_as_specified_max (samples (db c)) d) as Hspec.
  destruct (foldl _ None (samples (db c))) as [b|]; simpl.
  - destruct Hspec as (Hb & Hbd & Hmax).
    destruct (dict_by_device_bound (execute_latest_samples (db c)) ∅ d) as [row Hrow].
    { left. destruct (first_latest_exists (samples (db c)) d) as (i & r & Hfl & Hd); [eauto|].
      exists (select_latest_columns r). split; [|done].
      apply execute_latest_samples_elem. eauto. }
    unfold dict_by_device. rewrite Hrow. f_equal.
    apply dict_by_device_lookup in Hrow as [[Hin Hkey] | Hempty]; [|done].
    apply execute_latest_samples_elem in Hin as (i & r & (Hi & Hrmax & _) & ->).
    simpl in Hkey. f_equal. apply Hdistinct.
    + by apply list_elem_of_lookup_2 in Hi.
    + done.
    + congruence.
    + assert (s_created_on r <= s_created_on b)
        by (apply Hmax; [by apply list_elem_of_lookup_2 in Hi|done]).
      assert (s_created_on b <= s_created_on r) by (apply Hrmax; [done|congruence]).
      lia.
  - destruct (dict_by_device (execute_latest_samples (db c)) !! d) as [row|] eqn:Hrow; [|done].
    exfalso. apply dict_by_device_lookup in Hrow as [[Hin Hkey] | Hempty]; [|done].
    apply execute_latest_samples_elem in Hin as (i & r & (Hi & _) & ->).
    simpl in Hkey. apply (Hspec r); [by apply list_elem_of_lookup_2 in Hi|done].
Qed.

(** C4, as stated, fails on ties.  With two samples of device 1 stored in
    the same second, the mapping holds the first one (20.0 degrees), where
    the claim's tie-break asks for the one inserted last (21.0 degrees). *)
Lemma latest_sample_tie_keeps_first :
  samples (db tied_samples)
    = [mkSample 1 1 100 (20 # 1) (50 # 1); mkSample 2 1 100 (21 # 1) (50 # 1)]
  /\ (exists m, get_latest_sample_for_all_sensors tied_samples = (Ok m, tied_samples)
        /\ m !! 1 = Some (mkLatest 1 (20 # 1) (50 # 1) 100))
  /\ latest_as_specified (db tied_samples) 1 = Some (mkLatest 1 (21 # 1) (50 # 1) 100)
  /\ mkLatest 1 (20 # 1) (50 # 1) 100 <> mkLatest 1 (21 # 1) (50 # 1) 100.
Proof.
  split; [reflexivity|]. split; [|split; [reflexivity|discriminate]].
  eexists. split; [reflexivity|]. vm_compute. reflexivity.
Qed.

(** ** Device resolver *)

Import SpBle.

Lemma add_device_outcome (sp : Z) (ble : string) (c : Conn) :
  (exists id, fst (add_device sp ble c) = Ok id)
  \/ (exists v, fst (add_device sp ble c) = Raise (ValueError v)).
Proof.
  unfold add_device, execute_insert_device, rollback, commit. unfold_py.
  destruct (sp_id_in sp (devices (db (begin_implicit c)))); [right; eauto|].
  destruct (ble_id_in ble (devices (db (begin_implicit c)))); [right; eauto|].
  left; eauto.
Qed.

(** The identity read fails: nothing is registered. *)
Lemma read_device_id_raises (device : BLEDevice) (e : Env) (w : World) :
  gatt e = GattRaises ->
  read_device_id device e w
  = (Ok tt, mkWorld (conn w) (calls w ++ [ReadGattChar (address device)])
                    (sample_queue w) (yielded w)).
Proof.
  intros Hg. unfold read_device_id, read_gatt_char, record_call. unfold_py.
  simpl. by rewrite Hg.
Qed.

(** The identity read returns fewer than four bytes: nothing is registered. *)
Lemma read_device_id_short (device : BLEDevice) (e : Env) (w : World) (raw : list byte) :
  gatt e = GattBytes raw -> (length raw < 4)%nat ->
  read_device_id device e w
  = (Ok tt, mkWorld (conn w) (calls w ++ [ReadGattChar (address device)])
                    (sample_queue w) (yielded w)).
Proof.
  intros Hg Hlen. unfold read_device_id, read_gatt_char, record_call. unfold_py.
  simpl. rewrite Hg.
  destruct (Z.leb_spec 4 (Z.of_nat (length raw))) as [Hge|_]; [lia|].
  by rewrite andb_false_r.
Qed.

(** The identity read returns four bytes or more: [add_device] is called
    with the number they encode, and whether it registers the device or
    raises its [ValueError], [read_device_id] returns. *)
Lemma read_device_id_long (device : BLEDevice) (e : Env) (w : World) (raw : list byte) :
  gatt e = GattBytes raw -> (4 <= length raw)%nat ->
  read_device_id device e w
  = (Ok tt,
     mkWorld (snd (add_device (int_from_bytes_little (take 4 raw)) (address device) (conn w)))
             (calls w ++ [ReadGattChar (address device);
                          AddDevice (int_from_bytes_little (take 4 raw)) (address device)])
             (sample_queue w) (yielded w)).
Proof.
  intros Hg Hlen.
  unfold read_device_id, read_gatt_char, db_add_device, on_db, record_call, with_conn.
  unfold_py. simpl. rewrite Hg.
  destruct (Z.leb_spec 4 (Z.of_nat (length raw))) as [_|Hlt]; [|lia].
  assert (Hne : bool_decide (raw = []) = false).
  { apply bool_decide_eq_false. intros ->. simpl in Hlen. lia. }
  rewrite Hne. simpl. rewrite <- app_assoc. simpl.
  destruct (add_device_outcome (int_from_bytes_little (take 4 raw)) (address device) (conn w))
    as [[id Hok] | [v Herr]];
    destruct (add_device _ _ _) as [r c']; simpl in *; subst r; done.
Qed.

Lemma byte_range (b : byte) : 0 <= Z.of_N (Byte.to_N b) < 256.
Proof. pose proof (Byte.to_N_bounded b). lia. Qed.

(** The first four bytes, least significant first. *)
Lemma int_from_bytes_little_4 (b0 b1 b2 b3 : byte) (rest : list byte) :
  int_from_bytes_little (take 4 (b0 :: b1 :: b2 :: b3 :: rest))
  = Z.of_N (Byte.to_N b0) + 256 * Z.of_N (Byte.to_N b1)
    + 65536 * Z.of_N (Byte.to_N b2) + 16777216 * Z.of_N (Byte.to_N b3).
Proof.
  change (take 4 (b0 :: b1 :: b2 :: b3 :: rest)) with [b0; b1; b2; b3].
  cbn [int_from_bytes_little]. lia.
Qed.

Section Ingestion.

Variable supported : BluetoothServiceInfo -> bool.
Variable sensor_values : BluetoothServiceInfo -> gmap string Q.
Variable isoformat : Z -> string.

Abbreviation process := (process_advertisement_event supported sensor_values isoformat).
Abbreviation loop := (advertisement_loop supported sensor_values isoformat).

(** An advertisement the decoder does not recognise is dropped. *)
Lemma process_unsupported (device : BLEDevice) (adv : AdvertisementData) (e : Env)
    (on_sample : option (sample_data -> task)) (w : World) :
  supported (make_service_info device adv) = false ->
  process device adv e on_sample w = (Ok tt, w).
Proof. intros Hs. unfold process_advertisement_event. by rewrite Hs. Qed.

(** Unknown address, [scanner.stop()] raises: no read, no restart. *)
Lemma process_unknown_stop_raises (device : BLEDevice) (adv : AdvertisementData) (e : Env)
    (on_sample : option (sample_data -> task)) (w : World) :
  supported (make_service_info device adv) = true ->
  ble_id_in (address device) (devices (db (conn w))) = false ->
  stop_raises e = true ->
  process device adv e on_sample w
  = (Ok tt, mkWorld (conn w) (calls w ++ [ScannerStop]) (sample_queue w) (yielded w)).
Proof.
  intros Hs Hunknown Hstop.
  unfold process_advertisement_event, on_db, device_exists, scanner_stop, record_call, with_conn.
  rewrite Hs. unfold_py. simpl. rewrite Hunknown. simpl. rewrite Hstop. simpl.
  by destruct w.
Qed.

(** Unknown address, scanner stopped: the identity read, then the restart,
    whatever the read and the registration did. *)
Lemma process_unknown (device : BLEDevice) (adv : AdvertisementData) (e : Env)
    (on_sample : option (sample_data -> task)) (w : World) :
  supported (make_service_info device adv) = true ->
  ble_id_in (address device) (devices (db (conn w))) = false ->
  stop_raises e = false ->
  exists w1,
    read_device_id device e
      (mkWorld (conn w) (calls w ++ [ScannerStop]) (sample_queue w) (yielded w))
    = (Ok tt, w1)
    /\ process device adv e on_sample w
       = (Ok tt, mkWorld (conn w1) (calls w1 ++ [ScannerStart])
                         (sample_queue w1) (yielded w1)).
Proof.
  intros Hs Hunknown Hstop.
  set (w0 := mkWorld (conn w) (calls w ++ [ScannerStop]) (sample_queue w) (yielded w)).
  assert (Hread : exists w1, read_device_id device e w0 = (Ok tt, w1)).
  { destruct (gatt e) as [|raw] eqn:Hg.
    - rewrite (read_device_id_raises device e w0 Hg). eauto.
    - destruct (le_lt_dec 4 (length raw)) as [Hlen | Hlen].
      + rewrite (read_device_id_long device e w0 raw Hg Hlen). eauto.
      + rewrite (read_device_id_short device e w0 raw Hg Hlen). eauto. }
  destruct Hread as [w1 Hread]. exists w1. split; [done|].
  unfold process_advertisement_event, on_db, device_exists, scanner_stop, scanner_start,
    record_call, with_conn.
  rewrite Hs. unfold_py. simpl. rewrite Hunknown. simpl. rewrite Hstop. simpl.
  replace (mkWorld (conn w) (calls w ++ [ScannerStop]) (sample_queue w) (yielded w))
    with w0 by (by destruct w).
  replace (mkWorld (mkConn (db (conn w)) (txn (conn w))) (calls w ++ [ScannerStop])
             (sample_queue w) (yielded w))
    with w0 by (by destruct w as [[] ? ? ?]).
  rewrite Hread. simpl. by destruct (start_raises e).
Qed.

Lemma head_ble_id_known (a : string) (ds : list DeviceRow) :
  ble_id_in a ds = true ->
  exists d, head (filter (fun d => d_ble_id d = a) ds) = Some d
            /\ d ∈ ds /\ d_ble_id d = a.
Proof.
  intros Hin. apply ble_id_in_true in Hin as (d & Hd & Ha).
  destruct (filter (fun d => d_ble_id d = a) ds) as [|d' l] eqn:Hf.
  - exfalso. by apply (filter_nil_not_elem_of _ _ d Hf Ha).
  - exists d'. split; [done|].
    assert (Hd' : d' ∈ filter (fun d => d_ble_id d = a) ds) by (rewrite Hf; left).
    apply list_elem_of_filter in Hd' as [Ha' Hd']. done.
Qed.

(** Known address, both readings decoded: the sample is stored, then the
    callback is handed the record. *)
Lemma process_known_sample (device : BLEDevice) (adv : AdvertisementData) (e : Env)
    (on_sample : option (sample_data -> task)) (w : World) (t h : Q) :
  supported (make_service_info device adv) = true ->
  ble_id_in (address device) (devices (db (conn w))) = true ->
  sensor_values (make_service_info device adv) !! "temperature" = Some t ->
  sensor_values (make_service_info device adv) !! "humidity" = Some h ->
  exists sp,
    get_device_sp_id (address device) (conn w) = (Ok (Some sp), conn w)
    /\ sp_id_in sp (devices (db (conn w))) = true
    /\ process device adv e on_sample w
       = (Ok tt,
          mkWorld (snd (add_sample (current_timestamp e) sp t h (conn w)))
                  (calls w ++ AddSample sp t h ::
                     match on_sample with
                     | Some callback =>
                         [CreateTask
                            (callback
                               (mkSampleData (Some (address device)) (Some sp) (Some t) (Some h)
                                             (Some (rssi adv))
                                             (Some (isoformat (utcnow e) +:+ "Z"))))]
                     | None => []
                     end)
                  (sample_queue w) (yielded w)).
Proof.
  intros Hs Hknown Ht Hh.
  destruct (head_ble_id_known _ _ Hknown) as (d & Hhead & Hd & Ha).
  exists (d_sp_id d).
  assert (Hsp : sp_id_in (d_sp_id d) (devices (db (conn w))) = true)
    by (apply sp_id_in_true; eauto).
  split; [|split; [done|]].
  { unfold get_device_sp_id. unfold_py. by rewrite Hhead. }
  unfold process_advertisement_event, on_db, device_exists, get_device_sp_id, db_add_sample,
    create_task, record_call, with_conn.
  rewrite Hs, Ht, Hh. unfold_py. simpl. rewrite Hknown. simpl. rewrite Hhead. simpl.
  unfold on_db, with_conn. unfold_py. simpl.
  rewrite (add_sample_registered (current_timestamp e) (d_sp_id d) t h _ Hsp). simpl.
  destruct on_sample as [callback|]; simpl; by rewrite <- ?app_assoc.
Qed.

(** Known address, a reading missing: nothing is stored, nothing is handed on. *)
Lemma process_known_no_reading (device : BLEDevice) (adv : AdvertisementData) (e : Env)
    (on_sample : option (sample_data -> task)) (w : World) :
  supported (make_service_info device adv) = true ->
  ble_id_in (address device) (devices (db (conn w))) = true ->
  sensor_values (make_service_info device adv) !! "temperature" = None
  \/ sensor_values (make_service_info device adv) !! "humidity" = None ->
  process device adv e on_sample w = (Ok tt, w).
Proof.
  intros Hs Hknown Hmiss.
  unfold process_advertisement_event, on_db, device_exists, get_device_sp_id, with_conn.
  rewrite Hs. unfold_py. simpl. rewrite Hknown. simpl.
  destruct w as [c cs q ys]. simpl in *.
  destruct (d_sp_id <$> head _) as [sp|]; [|done].
  destruct Hmiss as [-> | ->]; [done|].
  by destruct (sensor_values _ !! "temperature").
Qed.

(** *** Calls of one event and of a run *)

Lemma reads_app (cs cs' : list call) : reads (cs ++ cs') = (reads cs + reads cs')%nat.
Proof. unfold reads. by rewrite List.filter_app, length_app. Qed.

Lemma starts_app (cs cs' : list call) : starts (cs ++ cs') = (starts cs + starts cs')%nat.
Proof. unfold starts. by rewrite List.filter_app, length_app. Qed.

Lemma phase_run_app (ph : phase) (cs cs' : list call) :
  phase_run ph (cs ++ cs') =
  match phase_run ph cs with
  | Some ph' => phase_run ph' cs'
  | None => None
  end.
Proof.
  revert ph. induction cs as [|c cs IH]; intros ph; [done|].
  simpl. destruct (phase_step ph c); [apply IH|done].
Qed.

Lemma event_calls_protocol (a : string) (cs : list call) (ph : phase) :
  event_calls a cs -> resting ph = true ->
  exists ph', phase_run ph cs = Some ph' /\ resting ph' = true.
Proof. intros Hcs Hph. destruct Hcs, ph; try done; simpl; eauto. Qed.

Lemma event_calls_counts (a : string) (cs : list call) :
  event_calls a cs -> reads cs = starts cs /\ (reads cs <= 1)%nat.
Proof. intros Hcs. destruct Hcs; unfold reads, starts; simpl; split; (done || lia). Qed.

(** Every event returns, and its calls have one of these shapes. *)
Lemma process_returns (device : BLEDevice) (adv : AdvertisementData) (e : Env)
    (on_sample : option (sample_data -> task)) (w : World) :
  exists cs w',
    process device adv e on_sample w = (Ok tt, w')
    /\ calls w' = calls w ++ cs
    /\ sample_queue w' = sample_queue w /\ yielded w' = yielded w
    /\ event_calls (address device) cs.
Proof.
  destruct (supported (make_service_info device adv)) eqn:Hs.
  2:{ exists [], w. rewrite process_unsupported by done. rewrite app_nil_r.
      repeat split. constructor. }
  destruct (ble_id_in (address device) (devices (db (conn w)))) eqn:Hknown.
  - destruct (sensor_values (make_service_info device adv) !! "temperature") as [t|] eqn:Ht.
    2:{ exists [], w. rewrite process_known_no_reading by auto. rewrite app_nil_r.
        repeat split. constructor. }
    destruct (sensor_values (make_service_info device adv) !! "humidity") as [h|] eqn:Hh.
    2:{ exists [], w. rewrite process_known_no_reading by auto. rewrite app_nil_r.
        repeat split. constructor. }
    destruct (process_known_sample device adv e on_sample w t h Hs Hknown Ht Hh)
      as (sp & _ & _ & Hrun).
    eexists _, _. split; [exact Hrun|]. simpl. repeat split.
    destruct on_sample; constructor.
  - destruct (stop_raises e) eqn:Hstop.
    + eexists _, _. split; [by apply process_unknown_stop_raises|]. simpl.
      repeat split. constructor.
    + destruct (process_unknown device adv e on_sample w Hs Hknown Hstop)
        as (w1 & Hread & Hrun).
      destruct (gatt e) as [|raw] eqn:Hg.
      * rewrite read_device_id_raises in Hread by done. injection Hread as <-.
        exists [ScannerStop; ReadGattChar (address device); ScannerStart].
        eexists. split; [exact Hrun|]. simpl.
        rewrite <- !app_assoc. repeat split. constructor.
      * destruct (le_lt_dec 4 (length raw)) as [Hlen | Hlen].
        -- rewrite (read_device_id_long _ _ _ raw) in Hread by done.
           injection Hread as <-.
           exists [ScannerStop; ReadGattChar (address device);
                   AddDevice (int_from_bytes_little (take 4 raw)) (address device);
                   ScannerStart].
           eexists. split; [exact Hrun|]. simpl.
           rewrite <- !app_assoc. repeat split. constructor.
        -- rewrite (read_device_id_short _ _ _ raw) in Hread by done.
           injection Hread as <-.
           exists [ScannerStop; ReadGattChar (address device); ScannerStart].
           eexists. split; [exact Hrun|]. simpl.
           rewrite <- !app_assoc. repeat split. constructor.
Qed.

Lemma loop_cons (device : BLEDevice) (adv : AdvertisementData) (e : Env)
    (rest : list (BLEDevice * AdvertisementData * Env))
    (on_sample : option (sample_data -> task)) (w w' : World) :
  process device adv e on_sample w = (Ok tt, w') ->
  loop ((device, adv, e) :: rest) on_sample w = loop rest on_sample w'.
Proof. intros Hrun. simpl. unfold_py. by rewrite Hrun. Qed.

(** The loop returns on every queue; its calls respect the protocol, with
    one restart per identity read and at most one read per event. *)
Lemma loop_protocol (queue : list (BLEDevice * AdvertisementData * Env))
    (on_sample : option (sample_data -> task)) (w : World) (ph : phase) :
  resting ph = true ->
  exists cs w',
    loop queue on_sample w = (Ok tt, w')
    /\ calls w' = calls w ++ cs
    /\ (exists ph', phase_run ph cs = Some ph' /\ resting ph' = true)
    /\ reads cs = starts cs
    /\ (reads cs <= length queue)%nat.
Proof.
  revert w ph. induction queue as [|[[device adv] e] rest IH]; intros w ph Hph.
  - exists [], w. rewrite app_nil_r. simpl. eauto 10.
  - destruct (process_returns device adv e on_sample w)
      as (cs1 & w1 & Hrun & Hcalls1 & _ & _ & Hshape).
    destruct (event_calls_protocol _ _ ph Hshape Hph) as (ph1 & Hph1 & Hrest1).
    destruct (event_calls_counts _ _ Hshape) as [Heq1 Hle1].
    destruct (IH w1 ph1 Hrest1) as (cs2 & w2 & Hloop & Hcalls2 & Hph2 & Heq2 & Hle2).
    exists (cs1 ++ cs2), w2. rewrite (loop_cons _ _ _ _ _ _ _ Hrun).
    split; [done|]. split; [by rewrite Hcalls2, Hcalls1, app_assoc|].
    split; [by rewrite phase_run_app, Hph1|].
    rewrite reads_app, starts_app. simpl. lia.
Qed.

(** Once the address is registered, its events make no identity read. *)
Lemma loop_known (a : string) (queue : list (BLEDevice * AdvertisementData * Env))
    (on_sample : option (sample_data -> task)) (w : World) :
  Forall (fun ev => address ev.1.1 = a) queue ->
  ble_id_in a (devices (db (conn w))) = true ->
  exists cs w',
    loop queue on_sample w = (Ok tt, w')
    /\ calls w' = calls w ++ cs
    /\ reads cs = 0%nat.
Proof.
  revert w. induction queue as [|[[device adv] e] rest IH]; intros w Hq Hknown.
  - exists [], w. by rewrite app_nil_r.
  - apply Forall_cons in Hq as [Ha Hq]. simpl in Ha. subst a.
    assert (Hone : exists cs1 w1,
               process device adv e on_sample w = (Ok tt, w1)
               /\ calls w1 = calls w ++ cs1 /\ reads cs1 = 0%nat
               /\ devices (db (conn w1)) = devices (db (conn w))).
    { destruct (supported (make_service_info device adv)) eqn:Hs.
      2:{ exists [], w. rewrite process_unsupported by done. by rewrite app_nil_r. }
      destruct (sensor_values (make_service_info device adv) !! "temperature")
        as [t|] eqn:Ht.
      2:{ exists [], w. rewrite process_known_no_reading by auto. by rewrite app_nil_r. }
      destruct (sensor_values (make_service_info device adv) !! "humidity")
        as [h|] eqn:Hh.
      2:{ exists [], w. rewrite process_known_no_reading by auto. by rewrite app_nil_r. }
      destruct (process_known_sample device adv e on_sample w t h Hs Hknown Ht Hh)
        as (sp & _ & Hsp & Hrun).
      eexists _, _. split; [exact Hrun|]. simpl. split; [done|].
      rewrite (add_sample_registered _ _ _ _ _ Hsp). simpl.
      split; [|done]. by destruct on_sample. }
    destruct Hone as (cs1 & w1 & Hrun & Hcalls1 & Hreads1 & Hdevs).
    destruct (IH w1 Hq) as (cs2 & w2 & Hloop & Hcalls2 & Hreads2); [by rewrite Hdevs|].
    exists (cs1 ++ cs2), w2. rewrite (loop_cons _ _ _ _ _ _ _ Hrun).
    split; [done|]. split; [by rewrite Hcalls2, Hcalls1, app_assoc|].
    rewrite reads_app. lia.
Qed.

(** While the identity reads do not register the address, every event of
    the address makes one, and the database stays as it was. *)
Lemma loop_reads_fail (a : string) (queue : list (BLEDevice * AdvertisementData * Env))
    (on_sample : option (sample_data -> task)) (w : World) :
  Forall (fun ev => address ev.1.1 = a
                    /\ supported (make_service_info ev.1.1 ev.1.2) = true) queue ->
  Forall (fun ev => stop_raises ev.2 = false
                    /\ registers (devices (db (conn w))) ev.2 = false) queue ->
  txn (conn w) = None ->
  ble_id_in a (devices (db (conn w))) = false ->
  exists cs w',
    loop queue on_sample w = (Ok tt, w')
    /\ calls w' = calls w ++ cs
    /\ conn w' = conn w
    /\ reads cs = length queue.
Proof.
  revert w. induction queue as [|[[device adv] e] rest IH];
    intros w Hq Hfail Htxn Hunknown.
  - exists [], w. by rewrite app_nil_r.
  - apply Forall_cons in Hq as [[Ha Hs] Hq]. simpl in Ha, Hs. subst a.
    apply Forall_cons in Hfail as [[Hstop Hreg] Hfail]. simpl in Hstop, Hreg.
    destruct (process_unknown device adv e on_sample w Hs Hunknown Hstop)
      as (w1 & Hread & Hrun).
    assert (Hw1 : conn w1 = conn w
                  /\ exists mid, calls w1 = calls w ++ ScannerStop :: mid
                                 /\ reads mid = 1%nat).
    { unfold registers in Hreg. destruct (gatt e) as [|raw] eqn:Hg.
      - rewrite read_device_id_raises in Hread by done. injection Hread as <-.
        split; [done|]. exists [ReadGattChar (address device)]. simpl.
        by rewrite <- app_assoc.
      - destruct (le_lt_dec 4 (length raw)) as [Hlen | Hlen].
        + rewrite (read_device_id_long _ _ _ raw Hg Hlen) in Hread. injection Hread as <-.
          destruct (Z.leb_spec 4 (Z.of_nat (length raw))) as [_|]; [|lia].
          simpl in Hreg. apply negb_false_iff in Hreg.
          destruct (add_device_conflict (int_from_bytes_little (take 4 raw))
                      (address device) (conn w) Htxn) as [err Hdup];
            [by rewrite Hreg|].
          simpl. rewrite Hdup. split; [done|]. eexists. rewrite <- app_assoc. simpl.
          split; [reflexivity|done].
        + rewrite (read_device_id_short _ _ _ raw Hg Hlen) in Hread. injection Hread as <-.
          split; [done|]. exists [ReadGattChar (address device)]. simpl.
          by rewrite <- app_assoc. }
    destruct Hw1 as (Hconn1 & mid & Hcalls1 & Hmid).
    rewrite Hconn1, Hcalls1 in Hrun.
    match type of Hrun with
    | _ = (_, ?w2) =>
        destruct (IH w2 Hq Hfail Htxn Hunknown) as (cs2 & w3 & Hloop & Hcalls2 & Hconn2 & Hreads2)
    end.
    exists ((ScannerStop :: mid ++ [ScannerStart]) ++ cs2), w3.
    rewrite (loop_cons _ _ _ _ _ _ _ Hrun).
    split; [exact Hloop|]. split; [|split; [exact Hconn2|]].
    + rewrite Hcalls2. simpl. by rewrite <- !app_assoc.
    + rewrite reads_app, Hreads2. unfold reads in *. simpl.
      rewrite List.filter_app, length_app, Hmid. simpl. lia.
Qed.

(** The schema is an invariant of the ingestion loop. *)
Lemma process_wf (device : BLEDevice) (adv : AdvertisementData) (e : Env)
    (on_sample : option (sample_data -> task)) (w : World) :
  wf (conn w) -> wf (conn (snd (process device adv e on_sample w))).
Proof.
  intros Hwf.
  destruct (supported (make_service_info device adv)) eqn:Hs;
    [|by rewrite process_unsupported].
  destruct (ble_id_in (address device) (devices (db (conn w)))) eqn:Hknown.
  - destruct (sensor_values (make_service_info device adv) !! "temperature") as [t|] eqn:Ht;
      [|by rewrite process_known_no_reading by auto].
    destruct (sensor_values (make_service_info device adv) !! "humidity") as [h|] eqn:Hh;
      [|by rewrite process_known_no_reading by auto].
    destruct (process_known_sample device adv e on_sample w t h Hs Hknown Ht Hh)
      as (sp & _ & _ & ->).
    simpl. by apply add_sample_wf.
  - destruct (stop_raises e) eqn:Hstop; [by rewrite process_unknown_stop_raises|].
    destruct (process_unknown device adv e on_sample w Hs Hknown Hstop)
      as (w1 & Hread & ->).
    simpl. destruct (gatt e) as [|raw] eqn:Hg.
    + rewrite read_device_id_raises in Hread by done. by injection Hread as <-.
    + destruct (le_lt_dec 4 (length raw)) as [Hlen | Hlen].
      * rewrite (read_device_id_long _ _ _ raw Hg Hlen) in Hread. injection Hread as <-.
        simpl. by apply add_device_wf.
      * rewrite (read_device_id_short _ _ _ raw Hg Hlen) in Hread. by injection Hread as <-.
Qed.

Lemma loop_wf (queue : list (BLEDevice * AdvertisementData * Env))
    (on_sample : option (sample_data -> task)) (w : World) :
  wf (conn w) -> wf (conn (snd (loop queue on_sample w))).
Proof.
  revert w. induction queue as [|[[device adv] e] rest IH]; intros w Hwf; [done|].
  destruct (process_returns device adv e on_sample w) as (cs & w1 & Hrun & _).
  rewrite (loop_cons _ _ _ _ _ _ _ Hrun). apply IH.
  pose proof (process_wf device adv e on_sample w Hwf) as Hwf1. by rewrite Hrun in Hwf1.
Qed.

(** C2, as the code has it.  Over any sequence of advertisements the
    decoder recognises, all from one address that is not registered when
    the sequence starts: the loop returns; every identity read follows a
    [scanner.stop()] and is followed by its [scanner.start()] before
    anything else happens, so the restarts are as many as the reads,
    whatever the read and the registration did; there is at most one read
    per advertisement; there is exactly one read in all when the first
    advertisement's read registers the address (it returns four bytes or
    more and their number is not registered yet); and as long as the
    reads do not register it (they fail, come back short, or carry a
    number that is already registered) there is one read per
    advertisement and the database is left as it was. *)
Theorem resolution_reads_and_restarts (a : string)
    (queue : list (BLEDevice * AdvertisementData * Env))
    (on_sample : option (sample_data -> task)) (w : World) :
  Forall (fun ev => address ev.1.1 = a
                    /\ supported (make_service_info ev.1.1 ev.1.2) = true) queue ->
  ble_id_in a (devices (db (conn w))) = false ->
  exists cs w',
    loop queue on_sample w = (Ok tt, w')
    /\ calls w' = calls w ++ cs
    /\ well_bracketed cs = true
    /\ starts cs = reads cs
    /\ (reads cs <= length queue)%nat
    /\ (forall device adv e rest,
          queue = (device, adv, e) :: rest ->
          stop_raises e = false -> registers (devices (db (conn w))) e = true ->
          reads cs = 1%nat)
    /\ (txn (conn w) = None ->
        Forall (fun ev => stop_raises ev.2 = false
                          /\ registers (devices (db (conn w))) ev.2 = false) queue ->
        reads cs = length queue /\ conn w' = conn w).
Proof.
  intros Hq Hunknown.
  destruct (loop_protocol queue on_sample w Scanning eq_refl)
    as (cs & w' & Hloop & Hcalls & (ph' & Hph & Hrest) & Heq & Hle).
  exists cs, w'. split; [done|]. split; [done|].
  split; [by unfold well_bracketed; rewrite Hph|]. split; [done|]. split; [done|]. split.
  - intros device adv e rest -> Hstop Hreg.
    unfold registers in Hreg. destruct (gatt e) as [|raw] eqn:Hg; [done|].
    apply andb_true_iff in Hreg as [Hlen Hfresh].
    apply Z.leb_le in Hlen. apply negb_true_iff in Hfresh.
    assert (Hlen' : (4 <= length raw)%nat) by lia. clear Hlen.
    apply Forall_cons in Hq as [[Ha Hs] Hq]. simpl in Ha, Hs. subst a.
    destruct (process_unknown device adv e on_sample w Hs Hunknown Hstop)
      as (w1 & Hread & Hrun).
    rewrite (read_device_id_long _ _ _ raw Hg Hlen') in Hread. injection Hread as <-.
    simpl in Hrun. rewrite (add_device_fresh _ _ _ Hfresh Hunknown) in Hrun. simpl in Hrun.
    rewrite (loop_cons _ _ _ _ _ _ _ Hrun) in Hloop.
    match type of Hloop with
    | advertisement_loop _ _ _ _ _ ?w1 = _ =>
        destruct (loop_known (address device) rest on_sample w1
                    (Forall_impl _ _ _ Hq (fun ev H => proj1 H)))
          as (cs2 & w2 & Hloop2 & Hcalls2 & Hreads2)
    end.
    { simpl. unfold ble_id_in. rewrite existsb_app. simpl.
      rewrite bool_decide_eq_true_2 by done. by rewrite orb_true_r. }
    rewrite Hloop2 in Hloop. injection Hloop as <-.
    rewrite Hcalls2 in Hcalls. simpl in Hcalls. rewrite <- !app_assoc in Hcalls.
    apply app_inv_head in Hcalls. subst cs.
    unfold reads in *. simpl. by rewrite Hreads2.
  - intros Htxn Hfail.
    destruct (loop_reads_fail a queue on_sample w Hq Hfail Htxn Hunknown)
      as (cs' & w'' & Hloop' & Hcalls' & Hconn' & Hreads').
    rewrite Hloop' in Hloop. injection Hloop as <-.
    rewrite Hcalls' in Hcalls. apply app_inv_head in Hcalls. by subst cs.
Qed.

End Ingestion.

(** C2, as stated, fails when the first identity read fails: the address
    stays unregistered and its next advertisement is read again.  Two
    advertisements of "AA:BB", the read failing on the first and returning
    01 00 00 00 on the second, make two identity reads, not one. *)
Lemma two_identity_reads_after_failure :
  ble_id_in "AA:BB" (devices (db (conn WebBackend.startup))) = false
  /\ reads (calls (snd (WebBackend.ble_task always_supported both_readings fixed_isoformat
                          [(aa_bb, an_advertisement, read_fails);
                           (aa_bb, an_advertisement, read_one)]
                          WebBackend.startup)))
     = 2%nat
  /\ calls (snd (WebBackend.ble_task always_supported both_readings fixed_isoformat
                   [(aa_bb, an_advertisement, read_fails);
                    (aa_bb, an_advertisement, read_one)]
                   WebBackend.startup))
     = [ScannerStop; ReadGattChar "AA:BB"; ScannerStart;
        ScannerStop; ReadGattChar "AA:BB"; AddDevice 1 "AA:BB"; ScannerStart].
Proof. split; [reflexivity|]. split; reflexivity. Qed.

(** Two advertisements of "AA:BB" on a fresh database, the identity read
    returning 01 00 00 00: one read, one restart. *)
Lemma resolution_reads_and_restarts_witness :
  exists cs w',
    advertisement_loop always_supported both_readings fixed_isoformat
      [(aa_bb, an_advertisement, read_one); (aa_bb, an_advertisement, read_one)]
      (Some OnSampleTask) WebBackend.startup = (Ok tt, w')
    /\ calls w' = calls WebBackend.startup ++ cs
    /\ well_bracketed cs = true
    /\ starts cs = reads cs
    /\ reads cs = 1%nat.
Proof.
  destruct (resolution_reads_and_restarts always_supported both_readings fixed_isoformat
              "AA:BB"
              [(aa_bb, an_advertisement, read_one); (aa_bb, an_advertisement, read_one)]
              (Some OnSampleTask) WebBackend.startup)
    as (cs & w' & Hloop & Hcalls & Hwb & Heq & _ & Hone & _).
  - repeat constructor.
  - reflexivity.
  - exists cs, w'. repeat (split; [assumption|]).
    apply (Hone aa_bb an_advertisement read_one [(aa_bb, an_advertisement, read_one)]);
      reflexivity.
Defined.

(** C3. The device number is the unsigned little-endian 32-bit integer of
    the first four bytes of the identity payload: on a payload of four
    bytes or more [read_device_id] calls [add_device] with that number,
    which is below 2^32, and returns; when neither the number nor the
    address is registered yet the device is stored under it.  On a payload
    of fewer than four bytes nothing is registered.  In particular the
    bytes 01 00 00 00 read for the unknown address "AA:BB" register it as
    device number 1, and a two-byte payload registers nothing. *)
Theorem device_number_little_endian :
  (forall (device : BLEDevice) (stop start : bool) (ts now : Z) (w : World)
          (b0 b1 b2 b3 : byte) (rest : list byte),
     let e := mkEnv stop (GattBytes (b0 :: b1 :: b2 :: b3 :: rest)) start ts now in
     let number := Z.of_N (Byte.to_N b0) + 256 * Z.of_N (Byte.to_N b1)
                   + 65536 * Z.of_N (Byte.to_N b2) + 16777216 * Z.of_N (Byte.to_N b3) in
     0 <= number < 2 ^ 32
     /\ read_device_id device e w
        = (Ok tt,
           mkWorld (snd (add_device number (address device) (conn w)))
                   (calls w ++ [ReadGattChar (address device);
                                AddDevice number (address device)])
                   (sample_queue w) (yielded w))
     /\ (sp_id_in number (devices (db (conn w))) = false ->
         ble_id_in (address device) (devices (db (conn w))) = false ->
         devices (db (snd (add_device number (address device) (conn w))))
         = devices (db (conn w))
             ++ [mkDevice (devices_seq (db (conn w)) + 1) number (address device)]))
  /\ (forall (device : BLEDevice) (stop start : bool) (ts now : Z) (w : World)
             (raw : list byte),
        (length raw < 4)%nat ->
        read_device_id device (mkEnv stop (GattBytes raw) start ts now) w
        = (Ok tt,
           mkWorld (conn w) (calls w ++ [ReadGattChar (address device)])
                   (sample_queue w) (yielded w)))
  /\ devices (db (conn (snd (process_advertisement_event
                               always_supported both_readings fixed_isoformat
                               aa_bb an_advertisement read_one (Some OnSampleTask)
                               WebBackend.startup))))
     = [mkDevice 1 1 "AA:BB"]
  /\ devices (db (conn (snd (process_advertisement_event
                               always_supported both_readings fixed_isoformat
                               aa_bb an_advertisement read_short (Some OnSampleTask)
                               WebBackend.startup))))
     = [].
Proof.
  split; [|split; [|split; reflexivity]].
  - intros device stop start ts now w b0 b1 b2 b3 rest e number.
    pose proof (byte_range b0). pose proof (byte_range b1).
    pose proof (byte_range b2). pose proof (byte_range b3).
    split; [unfold number; lia|].
    assert (Hnum : int_from_bytes_little (take 4 (b0 :: b1 :: b2 :: b3 :: rest)) = number)
      by apply int_from_bytes_little_4.
    split.
    + rewrite (read_device_id_long device e w (b0 :: b1 :: b2 :: b3 :: rest));
        [by rewrite Hnum|done|simpl; lia].
    + intros Hsp Hble. by rewrite (add_device_fresh _ _ _ Hsp Hble).
  - intros device stop start ts now w raw Hlen.
    by apply (read_device_id_short device _ w raw).
Qed.

(** ** Sample pipeline and broadcast path *)

(** [get_sensor_by_sp_id] for a registered device: its row, under the name
    the device resolves to. *)
Lemma get_sensor_by_sp_id_registered (sp : Z) (c : Conn) :
  sp_id_in sp (devices (db c)) = true ->
  exists ble,
    get_sensor_by_sp_id sp c = (Ok (Some (mkSensor sp ble (resolved_name sp c))), c).
Proof.
  intros Hsp. apply sp_id_in_true in Hsp as (d & Hd & Hdsp).
  unfold get_sensor_by_sp_id. unfold_py.
  destruct (filter (fun d => d_sp_id d = sp) (devices (db c))) as [|d' l] eqn:Hf.
  { exfalso. by apply (filter_nil_not_elem_of _ _ d Hf Hdsp). }
  assert (Hd' : d' ∈ filter (fun d => d_sp_id d = sp) (devices (db c)))
    by (rewrite Hf; left).
  apply list_elem_of_filter in Hd' as [Hsp' _].
  exists (d_ble_id d'). rewrite fmap_cons. simpl.
  unfold left_join_names, resolved_name, name_rows. rewrite Hsp'.
  by destruct (filter (fun n => n_device_sp_id n = sp) (device_names (db c))).
Qed.

Lemma append_Z_not_empty (s : string) : s +:+ "Z" <> "".
Proof. by destruct s. Qed.

(** [publish_sample] on a record that has its three required fields and
    names a registered device: one [Sample] is put on the queue. *)
Lemma publish_sample_puts (fromisoformat : string -> option Z) (now : Z)
    (sd : sample_data) (w : World) (sp : Z) (t h : Q) :
  sd_sp_id sd = Some sp -> sd_temperature sd = Some t -> sd_humidity sd = Some h ->
  sp_id_in sp (devices (db (conn w))) = true ->
  Resolvers.publish_sample fromisoformat now sd w
  = (Ok tt,
     mkWorld (conn w) (calls w)
       (sample_queue w ++
          [GraphqlSchema.mkSample sp (resolved_name sp (conn w)) t h
             match sd_timestamp sd with
             | Some s => if bool_decide (s = "") then now
                         else default now (fromisoformat (Resolvers.replace_Z s))
             | None => now
             end])
       (yielded w)).
Proof.
  intros Hsp Ht Hh Hreg.
  destruct (get_sensor_by_sp_id_registered sp (conn w) Hreg) as [ble Hget].
  unfold Resolvers.publish_sample, Resolvers.sample_queue_put, on_db, with_conn.
  rewrite Hsp, Ht, Hh. unfold_py. rewrite Hget. simpl. by destruct w.
Qed.

(** Under the UNIQUE constraint on [devices.ble_id] an address names one row. *)
Lemma unique_ble_row (ds : list DeviceRow) (d d' : DeviceRow) :
  NoDup (d_ble_id <$> ds) -> d ∈ ds -> d' ∈ ds -> d_ble_id d' = d_ble_id d -> d' = d.
Proof.
  induction ds as [|x ds IH]; intros Hnd Hd Hd' Heq; [by apply elem_of_nil in Hd|].
  rewrite fmap_cons in Hnd. apply NoDup_cons in Hnd as [Hnotin Hnd].
  apply elem_of_cons in Hd as [-> | Hd]; apply elem_of_cons in Hd' as [-> | Hd'].
  - done.
  - exfalso. apply Hnotin. rewrite <- Heq. by apply list_elem_of_fmap_2.
  - exfalso. apply Hnotin. rewrite Heq. by apply list_elem_of_fmap_2.
  - by apply IH.
Qed.

(** C8. For an advertisement the decoder recognises, from an address that
    is registered: when the decoder finds both a temperature and a humidity,
    [add_sample] is called first and stores the sample under the device
    number of the row that carries the advertising address (the first
    such row, and under the schema the only one), stamped with the
    current time, and commits it: the devices and the names are as they
    were and no transaction is left open; only then the task of the
    callback is created with the record (address, device number,
    temperature, humidity, signal strength, timestamp); run by the event
    loop, the callback spawns [publish_sample], which puts on the sample
    queue the [Sample] with that device number, the friendly name the
    device resolves to, the two readings and the timestamp, and leaves
    the database as the event left it.  When either reading is missing
    nothing is stored and nothing is handed on, and the event still
    returns normally. *)
Theorem known_device_sample_then_broadcast
    (supported : BluetoothServiceInfo -> bool)
    (sensor_values : BluetoothServiceInfo -> gmap string Q)
    (isoformat : Z -> string) (fromisoformat : string -> option Z)
    (device : BLEDevice) (adv : AdvertisementData) (e : Env) (now : Z) (w : World) :
  supported (make_service_info device adv) = true ->
  ble_id_in (address device) (devices (db (conn w))) = true ->
  (forall t h,
     sensor_values (make_service_info device adv) !! "temperature" = Some t ->
     sensor_values (make_service_info device adv) !! "humidity" = Some h ->
     exists d sp w1 w2 w3,
       d ∈ devices (db (conn w))
       /\ d_ble_id d = address device
       /\ d_sp_id d = sp
       /\ head (filter (fun d' => d_ble_id d' = address device) (devices (db (conn w))))
          = Some d
       /\ (NoDup (d_ble_id <$> devices (db (conn w))) ->
           forall d', d' ∈ devices (db (conn w)) -> d_ble_id d' = address device -> d' = d)
       /\ get_device_sp_id (address device) (conn w) = (Ok (Some sp), conn w)
       /\ let record :=
            mkSampleData (Some (address device)) (Some sp) (Some t) (Some h)
                         (Some (rssi adv)) (Some (isoformat (utcnow e) +:+ "Z")) in
          process_advertisement_event supported sensor_values isoformat
            device adv e (Some OnSampleTask) w = (Ok tt, w1)
          /\ samples (db (conn w1))
             = samples (db (conn w))
                 ++ [mkSample (samples_seq (db (conn w)) + 1) sp (current_timestamp e) t h]
          /\ calls w1 = calls w ++ [AddSample sp t h; CreateTask (OnSampleTask record)]
          /\ sample_queue w1 = sample_queue w
          /\ WebBackend.run_task fromisoformat now (OnSampleTask record) w1 = (Ok tt, w2)
          /\ calls w2 = calls w1 ++ [CreateTask (PublishSampleTask record)]
          /\ WebBackend.run_task fromisoformat now (PublishSampleTask record) w2 = (Ok tt, w3)
          /\ sample_queue w3
             = sample_queue w
                 ++ [GraphqlSchema.mkSample sp (resolved_name sp (conn w)) t h
                       (default now
                          (fromisoformat
                             (Resolvers.replace_Z (isoformat (utcnow e) +:+ "Z"))))]
          /\ conn w1
             = mkConn (mkTables (devices (db (conn w))) (devices_seq (db (conn w)))
                         (samples (db (conn w))
                            ++ [mkSample (samples_seq (db (conn w)) + 1) sp
                                         (current_timestamp e) t h])
                         (samples_seq (db (conn w)) + 1)
                         (device_names (db (conn w))) (device_names_seq (db (conn w))))
                      None
          /\ txn (conn w1) = None
          /\ (wf (conn w) -> wf (conn w1))
          /\ yielded w1 = yielded w
          /\ conn w2 = conn w1 /\ sample_queue w2 = sample_queue w /\ yielded w2 = yielded w
          /\ conn w3 = conn w1 /\ calls w3 = calls w2 /\ yielded w3 = yielded w
          /\ resolved_name sp (conn w1) = resolved_name sp (conn w))
  /\ (sensor_values (make_service_info device adv) !! "temperature" = None
      \/ sensor_values (make_service_info device adv) !! "humidity" = None ->
      process_advertisement_event supported sensor_values isoformat
        device adv e (Some OnSampleTask) w = (Ok tt, w)).
Proof.
  intros Hs Hknown. split; [|by apply process_known_no_reading].
  intros t h Ht Hh.
  destruct (head_ble_id_known _ _ Hknown) as (d & Hhead & Hd & Ha).
  destruct (process_known_sample supported sensor_values isoformat device adv e
              (Some OnSampleTask) w t h Hs Hknown Ht Hh) as (sp & Hget & Hreg & Hrun).
  assert (Hsp : d_sp_id d = sp).
  { pose proof Hget as Hget'. unfold get_device_sp_id in Hget'. unfold_py.
    rewrite Hhead in Hget'. simpl in Hget'. by injection Hget'. }
  pose proof (add_sample_wf (current_timestamp e) sp t h (conn w)) as Hkeep.
  rewrite (add_sample_registered _ _ _ _ _ Hreg) in Hrun, Hkeep.
  simpl in Hrun, Hkeep.
  eexists d, sp, _, _, _.
  split; [exact Hd|]. split; [exact Ha|]. split; [exact Hsp|]. split; [exact Hhead|].
  split.
  { intros Hnd d' Hd' Ha'. apply (unique_ble_row _ d d' Hnd Hd Hd'). congruence. }
  split; [exact Hget|]. cbv zeta.
  split; [exact Hrun|]. simpl. split; [reflexivity|]. split; [reflexivity|].
  split; [reflexivity|].
  split; [unfold WebBackend.on_sample_callback, create_task, record_call;
          unfold_py; reflexivity|].
  simpl. split; [reflexivity|].
  split; [by apply publish_sample_puts|]. simpl.
  split.
  { rewrite bool_decide_eq_false_2 by apply append_Z_not_empty. reflexivity. }
  split; [reflexivity|]. split; [reflexivity|]. split; [exact Hkeep|].
  split; [reflexivity|]. split; [reflexivity|]. split; [reflexivity|].
  split; [reflexivity|]. split; [reflexivity|]. split; [reflexivity|].
  split; reflexivity.
Qed.

(** Two sensors are registered, "CC:DD" first under number 5 and "AA:BB"
    second under number 1, named "Garden".  "AA:BB" advertises 23.5
    degrees and 45.2 percent: the sample is stored under number 1, the
    number of the second row, and committed, and the [Sample] is queued
    under the name "Garden"; an advertisement without humidity leaves the
    state as it was. *)
Lemma known_device_sample_then_broadcast_witness :
  exists w1 w2 w3,
    process_advertisement_event always_supported both_readings fixed_isoformat
      aa_bb an_advertisement read_one (Some OnSampleTask) world_with_two_devices
    = (Ok tt, w1)
    /\ devices (db (conn w1)) = [mkDevice 1 5 "CC:DD"; mkDevice 2 1 "AA:BB"]
    /\ samples (db (conn w1))
       = [mkSample 1 1 100 (20 # 1) (50 # 1); mkSample 2 5 150 (18 # 1) (60 # 1);
          mkSample 3 1 200 (21 # 1) (55 # 1); mkSample 4 1 100 (47 # 2) (226 # 5)]
    /\ txn (conn w1) = None
    /\ WebBackend.run_task fixed_fromisoformat 7
         (OnSampleTask (mkSampleData (Some "AA:BB") (Some 1) (Some (47 # 2)) (Some (226 # 5))
                                     (Some (-60)) (Some "2024-01-01T00:00:00Z"))) w1
       = (Ok tt, w2)
    /\ WebBackend.run_task fixed_fromisoformat 7
         (PublishSampleTask (mkSampleData (Some "AA:BB") (Some 1) (Some (47 # 2))
                                          (Some (226 # 5)) (Some (-60))
                                          (Some "2024-01-01T00:00:00Z"))) w2
       = (Ok tt, w3)
    /\ sample_queue w3 = [GraphqlSchema.mkSample 1 "Garden" (47 # 2) (226 # 5) 1704067200]
    /\ process_advertisement_event always_supported no_humidity fixed_isoformat
         aa_bb an_advertisement read_one (Some OnSampleTask) world_with_two_devices
       = (Ok tt, world_with_two_devices).
Proof.
  destruct (known_device_sample_then_broadcast always_supported both_readings
              fixed_isoformat fixed_fromisoformat aa_bb an_advertisement read_one 7
              world_with_two_devices eq_refl eq_refl) as [Hboth _].
  destruct (known_device_sample_then_broadcast always_supported no_humidity
              fixed_isoformat fixed_fromisoformat aa_bb an_advertisement read_one 7
              world_with_two_devices eq_refl eq_refl) as [_ Hmissing].
  destruct (Hboth (47 # 2) (226 # 5) eq_refl eq_refl)
    as (d & sp & w1 & w2 & w3 & _ & _ & _ & _ & _ & Hget & Hrun & Hsamples & _ & _ & Hcb
        & _ & Hpub & Hqueue & Hconn & Htxn & _).
  injection Hget as <-.
  exists w1, w2, w3. split; [exact Hrun|]. split; [by rewrite Hconn|].
  split; [exact Hsamples|]. split; [exact Htxn|].
  split; [exact Hcb|]. split; [exact Hpub|]. split; [exact Hqueue|].
  apply Hmissing. right. reflexivity.
Defined.

(** C9. An advertisement the decoder does not recognise changes nothing:
    the event returns with the state as it was, so no call is made on the
    scanner or the radio, no row is stored, no task is created and nothing
    reaches the sample queue; the same holds for a whole queue of such
    advertisements. *)
Theorem unsupported_advertisement_changes_nothing
    (supported : BluetoothServiceInfo -> bool)
    (sensor_values : BluetoothServiceInfo -> gmap string Q)
    (isoformat : Z -> string)
    (queue : list (BLEDevice * AdvertisementData * Env))
    (on_sample : option (sample_data -> task)) (w : World) :
  Forall (fun ev => supported (make_service_info ev.1.1 ev.1.2) = false) queue ->
  Forall (fun ev => process_advertisement_event supported sensor_values isoformat
                      ev.1.1 ev.1.2 ev.2 on_sample w = (Ok tt, w)) queue
  /\ advertisement_loop supported sensor_values isoformat queue on_sample w = (Ok tt, w).
Proof.
  intros Hq. split.
  - eapply Forall_impl; [exact Hq|]. intros [[device adv] e] Hs. simpl in *.
    by apply process_unsupported.
  - induction queue as [|[[device adv] e] rest IH]; [done|].
    apply Forall_cons in Hq as [Hs Hq]. simpl in Hs.
    rewrite (loop_cons supported sensor_values isoformat device adv e rest on_sample w w).
    + by apply IH.
    + by apply process_unsupported.
Qed.

(** An advertisement no decoder recognises, on a fresh database. *)
Lemma unsupported_advertisement_changes_nothing_witness :
  advertisement_loop never_supported both_readings fixed_isoformat
    [(aa_bb, an_advertisement, read_one)] (Some OnSampleTask) WebBackend.startup
  = (Ok tt, WebBackend.startup).
Proof.
  apply (unsupported_advertisement_changes_nothing never_supported both_readings
           fixed_isoformat [(aa_bb, an_advertisement, read_one)] (Some OnSampleTask)
           WebBackend.startup).
  repeat constructor.
Defined.

(** C10. [publish_sample] on a record whose [sp_id], [temperature] or
    [humidity] is missing returns normally and leaves the state as it
    was: nothing is put on the sample queue. *)
Theorem publish_sample_missing_field (fromisoformat : string -> option Z) (now : Z)
    (sd : sample_data) (w : World) :
  sd_sp_id sd = None \/ sd_temperature sd = None \/ sd_humidity sd = None ->
  Resolvers.publish_sample fromisoformat now sd w = (Ok tt, w)
  /\ sample_queue (snd (Resolvers.publish_sample fromisoformat now sd w)) = sample_queue w.
Proof.
  intros Hmiss.
  assert (Hrun : Resolvers.publish_sample fromisoformat now sd w = (Ok tt, w)).
  { unfold Resolvers.publish_sample. unfold_py.
    destruct (sd_sp_id sd) as [sp|]; [|done].
    destruct (sd_temperature sd) as [t|]; [|done].
    destruct (sd_humidity sd) as [h|]; [|done].
    by destruct Hmiss as [? | [? | ?]]. }
  by rewrite Hrun.
Qed.

(** A record without humidity. *)
Lemma publish_sample_missing_field_witness :
  Resolvers.publish_sample fixed_fromisoformat 7 record_without_humidity world_with_device
  = (Ok tt, world_with_device).
Proof.
  apply (publish_sample_missing_field fixed_fromisoformat 7 record_without_humidity
           world_with_device).
  right. right. reflexivity.
Defined.

(** ** The sample feed *)

Import Resolvers.

(** A subscriber resumed on an empty queue stays suspended. *)
Lemma resumes_on_empty_queue (turns : list nat) (w : World) :
  sample_queue w = [] ->
  run_feed (Resume <$> turns) w = (Ok tt, w).
Proof.
  intros Hempty. induction turns as [|who turns IH]; [done|].
  rewrite fmap_cons. simpl. unfold sensor_updates_subscription. unfold_py.
  rewrite Hempty. exact IH.
Qed.

(** Whatever the schedule, a sample put on the queue is either still on it
    or was yielded once, to one subscriber: the yields followed by the
    queue are the samples published, in order. *)
Lemma feed_conserves_samples (schedule : list feed_step) (w : World) :
  exists w',
    run_feed schedule w = (Ok tt, w')
    /\ (snd <$> yielded w') ++ sample_queue w'
       = (snd <$> yielded w) ++ sample_queue w ++ published schedule.
Proof.
  revert w. induction schedule as [|[s | who] rest IH]; intros w.
  - exists w. simpl. by rewrite app_nil_r.
  - simpl. unfold sample_queue_put. unfold_py.
    destruct (IH (mkWorld (conn w) (calls w) (sample_queue w ++ [s]) (yielded w)))
      as (w' & Hrun & Hcons).
    exists w'. split; [done|]. rewrite Hcons. simpl. by rewrite <- app_assoc.
  - simpl. unfold sensor_updates_subscription. unfold_py.
    destruct (sample_queue w) as [|s q] eqn:Hq.
    + destruct (IH w) as (w' & Hrun & Hcons). exists w'. split; [done|].
      by rewrite Hcons, Hq.
    + simpl.
      destruct (IH (mkWorld (conn w) (calls w) q (yielded w ++ [(who, s)])))
        as (w' & Hrun & Hcons).
      exists w'. split; [done|]. rewrite Hcons. simpl.
      rewrite fmap_app. simpl. by rewrite <- !app_assoc.
Qed.

(** Two subscribers share what was yielded: no yield counts for both. *)
Lemma received_disjoint (w : World) :
  (length (received 0 w) + length (received 1 w) <= length (yielded w))%nat.
Proof.
  unfold received. rewrite !length_fmap.
  induction (yielded w) as [|[who s] ys IH]; [done|].
  rewrite !filter_cons. simpl. repeat case_decide; simpl; lia.
Qed.

(** C1 on the code.  With two subscriber generators on the one global
    [sample_queue], a sample published while both wait is taken by the
    generator resumed first; the other one never yields it, however often
    the two are resumed afterwards.  Under every schedule the two
    subscribers together are sent no more samples than were published, so
    they are never both sent every sample once one is published. *)
Theorem shared_queue_delivers_to_one (s : GraphqlSchema.Sample) (turns : list nat)
    (schedule : list feed_step) :
  received 0 (snd (run_feed (Put s :: Resume 0%nat :: (Resume <$> turns))
                     WebBackend.startup)) = [s]
  /\ received 1 (snd (run_feed (Put s :: Resume 0%nat :: (Resume <$> turns))
                        WebBackend.startup)) = []
  /\ (length (received 0 (snd (run_feed schedule WebBackend.startup)))
      + length (received 1 (snd (run_feed schedule WebBackend.startup)))
      <= length (published schedule))%nat.
Proof.
  split; [|split].
  - change (run_feed (Put s :: Resume 0%nat :: (Resume <$> turns)) WebBackend.startup)
      with (run_feed (Resume <$> turns)
              (mkWorld SqlModel.create [] [] [(0%nat, s)])).
    by rewrite resumes_on_empty_queue.
  - change (run_feed (Put s :: Resume 0%nat :: (Resume <$> turns)) WebBackend.startup)
      with (run_feed (Resume <$> turns)
              (mkWorld SqlModel.create [] [] [(0%nat, s)])).
    by rewrite resumes_on_empty_queue.
  - destruct (feed_conserves_samples schedule WebBackend.startup) as (w' & Hrun & Hcons).
    rewrite Hrun. simpl in *.
    pose proof (received_disjoint w') as Hle.
    apply (f_equal length) in Hcons. rewrite length_app, length_fmap in Hcons. lia.
Qed.

(** * Further properties *)

(** ** Sequences of storage calls *)

Import Api.

Lemma run_call_conn (op : api_call) (c : Conn) :
  snd (run_call op c) =
  match op with
  | DoAddDevice sp ble => snd (add_device sp ble c)
  | DoAddSample now sp t h => snd (add_sample now sp t h c)
  | DoUpdateDeviceName sp name => snd (update_device_name sp name c)
  end.
Proof.
  destruct op; simpl.
  - by destruct (add_device _ _ _) as [[?|?] ?].
  - by destruct (add_sample _ _ _ _ _) as [[?|?] ?].
  - by destruct (update_device_name _ _ _) as [[?|?] ?].
Qed.

Lemma run_calls_snoc (ops : list api_call) (op : api_call) (c : Conn) :
  run_calls (ops ++ [op]) c = snd (run_call op (run_calls ops c)).
Proof. unfold run_calls. by rewrite foldl_app. Qed.

(** What one call does to the tables, when no transaction is open. *)
Lemma run_call_cases (op : api_call) (c : Conn) :
  txn c = None ->
  (exists v, run_call op c = (Some (ValueError v), c))
  \/ (fst (run_call op c) = None
      /\ txn (snd (run_call op c)) = None
      /\ (exists ds, devices (db (snd (run_call op c))) = devices (db c) ++ ds)
      /\ (exists ss, samples (db (snd (run_call op c))) = samples (db c) ++ ss)).
Proof.
  intros Htxn. destruct op as [sp ble | now sp t h | sp name]; simpl.
  - destruct (sp_id_in sp (devices (db c)) || ble_id_in ble (devices (db c))) eqn:Hdup.
    + left. destruct (add_device_conflict sp ble c Htxn Hdup) as [e ->]. eauto.
    + right. apply orb_false_elim in Hdup as [Hsp Hble].
      rewrite (add_device_fresh sp ble c Hsp Hble). simpl.
      repeat split; [by eexists|]. exists []. by rewrite app_nil_r.
  - destruct (sp_id_in sp (devices (db c))) eqn:Hsp.
    + right. rewrite (add_sample_registered now sp t h c Hsp). simpl.
      repeat split; [|by eexists]. exists []. by rewrite app_nil_r.
    + left. rewrite (add_sample_unregistered now sp t h c Htxn Hsp). eauto.
  - destruct (sp_id_in sp (devices (db c))) eqn:Hsp.
    + right. rewrite (update_device_name_registered sp name c Hsp). simpl.
      repeat split; exists []; by rewrite app_nil_r.
    + left. rewrite (update_device_name_unregistered sp name c Hsp). eauto.
Qed.




Lemma run_calls_txn (ops : list api_call) (c : Conn) :
  txn c = None -> txn (run_calls ops c) = None.
Proof.
  intros Htxn. induction ops as [|op ops IH] using rev_ind; [done|].
  rewrite run_calls_snoc.
  destruct (run_call_cases op (run_calls ops c) IH) as [[v ->] | (_ & Hnone & _)]; done.
Qed.

Lemma head_filter_app {A} (P : A -> Prop) `{!forall x, Decision (P x)} (l k : list A) (x : A) :
  head (filter P l) = Some x -> head (filter P (l ++ k)) = Some x.
Proof. rewrite filter_app. by destruct (filter P l). Qed.

(** X3. Device rows and sample rows are only ever appended: after any
    sequence of storage calls the devices and the samples stored before
    are still there, unchanged and in place, so an address that resolved
    to a device number resolves to the same number, and a number that was
    registered stays registered. *)
Theorem rows_are_append_only (ops : list api_call) (c : Conn) :
  txn c = None ->
  (exists ds, devices (db (run_calls ops c)) = devices (db c) ++ ds)
  /\ (exists ss, samples (db (run_calls ops c)) = samples (db c) ++ ss)
  /\ (forall a sp, get_device_sp_id a c = (Ok (Some sp), c) ->
        get_device_sp_id a (run_calls ops c) = (Ok (Some sp), run_calls ops c))
  /\ (forall sp, device_sp_id_exists sp c = (Ok true, c) ->
        device_sp_id_exists sp (run_calls ops c) = (Ok true, run_calls ops c)).
Proof.
  intros Htxn.
  assert (Hgrow : (exists ds, devices (db (run_calls ops c)) = devices (db c) ++ ds)
                  /\ (exists ss, samples (db (run_calls ops c)) = samples (db c) ++ ss)).
  { induction ops as [|op ops IH] using rev_ind.
    - split; exists []; by rewrite app_nil_r.
    - destruct IH as [[ds Hds] [ss Hss]]. rewrite run_calls_snoc.
      destruct (run_call_cases op (run_calls ops c) (run_calls_txn ops c Htxn))
        as [[v ->] | (_ & _ & [ds' Hds'] & [ss' Hss'])]; simpl.
      + split; eauto.
      + rewrite Hds', Hss', Hds, Hss, <- !app_assoc. split; eauto. }
  destruct Hgrow as [[ds Hds] [ss Hss]]. split; [eauto|]. split; [eauto|]. split.
  - intros a sp Hget. unfold get_device_sp_id in *. unfold_py.
    injection Hget as Hget. rewrite Hds. f_equal. f_equal.
    destruct (head (filter _ (devices (db c)))) as [d|] eqn:Hhead; [|done].
    by rewrite (head_filter_app _ _ ds d Hhead).
  - intros sp Hex. unfold device_sp_id_exists in *. unfold_py.
    injection Hex as Hex. by rewrite Hds, sp_id_in_app, Hex.
Qed.

(** After device 1 at "AA:BB", a second device, a sample and a rename. *)
Lemma rows_are_append_only_witness :
  get_device_sp_id "AA:BB"
    (run_calls [DoAddDevice 2 "CC:DD"; DoAddSample 100 1 (47 # 2) (226 # 5);
                DoUpdateDeviceName 1 "Garden"] one_device)
  = (Ok (Some 1),
     run_calls [DoAddDevice 2 "CC:DD"; DoAddSample 100 1 (47 # 2) (226 # 5);
                DoUpdateDeviceName 1 "Garden"] one_device).
Proof.
  destruct (rows_are_append_only
              [DoAddDevice 2 "CC:DD"; DoAddSample 100 1 (47 # 2) (226 # 5);
               DoUpdateDeviceName 1 "Garden"] one_device eq_refl)
    as (_ & _ & Hkeep & _).
  apply Hkeep. reflexivity.
Defined.

(** X4. Registration and lookup round trip: once [add_device] has stored a
    device, [device_exists] finds its address, [device_sp_id_exists] finds
    its number and [get_device_sp_id] resolves the address to that number;
    and on every state [get_device_sp_id] returns [None] exactly for the
    addresses [device_exists] does not find. *)
Theorem registered_device_is_found (sp : Z) (ble : string) (c c' : Conn) (id : Z) :
  add_device sp ble c = (Ok id, c') ->
  device_exists ble c' = (Ok true, c')
  /\ device_sp_id_exists sp c' = (Ok true, c')
  /\ get_device_sp_id ble c' = (Ok (Some sp), c')
  /\ (forall a, get_device_sp_id a c' = (Ok None, c') <->
                device_exists a c' = (Ok false, c')).
Proof.
  intros Hadd.
  assert (Hfresh : sp_id_in sp (devices (db c)) = false
                   /\ ble_id_in ble (devices (db c)) = false).
  { unfold add_device, execute_insert_device, rollback in Hadd. unfold_py.
    destruct (sp_id_in sp (devices (db (begin_implicit c)))) eqn:Hsp; [done|].
    destruct (ble_id_in ble (devices (db (begin_implicit c)))) eqn:Hble; [done|].
    unfold begin_implicit in *. by destruct (txn c). }
  destruct Hfresh as [Hsp Hble].
  rewrite (add_device_fresh sp ble c Hsp Hble) in Hadd. injection Hadd as <- <-.
  unfold device_exists, device_sp_id_exists, get_device_sp_id. unfold_py. simpl.
  split; [|split; [|split]].
  - unfold ble_id_in. rewrite existsb_app. simpl.
    by rewrite bool_decide_eq_true_2, orb_true_r.
  - rewrite sp_id_in_app. simpl. by rewrite Z.eqb_refl, orb_true_r.
  - rewrite filter_app, (filter_none (fun d => d_ble_id d = ble) (devices (db c))).
    + simpl. by rewrite filter_cons_True.
    + by apply ble_id_in_false.
  - intros a. set (ds := devices (db c) ++ _). split.
    + intros Hnone. injection Hnone as Hnone. do 2 f_equal.
      apply not_true_iff_false. intros Hin.
      destruct (head_ble_id_known a ds Hin) as (d & Hhead & _). by rewrite Hhead in Hnone.
    + intros Hfalse. injection Hfalse as Hfalse. do 2 f_equal.
      rewrite (filter_none (fun d => d_ble_id d = a) ds); [done|].
      by apply ble_id_in_false.
Qed.

(** A second sensor registered next to "AA:BB". *)
Lemma registered_device_is_found_witness :
  get_device_sp_id "CC:DD" (snd (add_device 2 "CC:DD" one_device))
  = (Ok (Some 2), snd (add_device 2 "CC:DD" one_device)).
Proof.
  apply (registered_device_is_found 2 "CC:DD" one_device
           (snd (add_device 2 "CC:DD" one_device)) 2).
  reflexivity.
Defined.

(** ** The identity payload *)

Lemma byte_to_N_inj (b b' : byte) : Byte.to_N b = Byte.to_N b' -> b = b'.
Proof.
  intros Heq. pose proof (Byte.of_to_N b) as H. rewrite Heq, Byte.of_to_N in H.
  by injection H.
Qed.

Lemma int_from_bytes_little_bounds (raw : list byte) :
  0 <= int_from_bytes_little raw < 256 ^ Z.of_nat (length raw).
Proof.
  induction raw as [|b raw IH]; [simpl; lia|].
  cbn [int_from_bytes_little length]. pose proof (byte_range b).
  rewrite Nat2Z.inj_succ, Z.pow_succ_r by lia. lia.
Qed.

(** X5. [int.from_bytes(..., "little")] on a payload of [n] bytes is a
    number below 256^n, and payloads of the same length that give the same
    number are the same payload: two sensors whose identity bytes differ
    never get the same device number. *)
Theorem identity_bytes_determine_number (raw raw' : list byte) :
  length raw = length raw' ->
  0 <= int_from_bytes_little raw < 256 ^ Z.of_nat (length raw)
  /\ (int_from_bytes_little raw = int_from_bytes_little raw' <-> raw = raw').
Proof.
  intros Hlen. split; [apply int_from_bytes_little_bounds|].
  split; [|by intros ->].
  revert raw' Hlen. induction raw as [|b raw IH]; intros [|b' raw'] Hlen Heq;
    try done.
  cbn [int_from_bytes_little] in Heq. simpl in Hlen.
  pose proof (byte_range b). pose proof (byte_range b').
  assert (Hb : Z.of_N (Byte.to_N b) = Z.of_N (Byte.to_N b')) by lia.
  assert (Hrest : int_from_bytes_little raw = int_from_bytes_little raw') by lia.
  f_equal.
  - apply byte_to_N_inj. lia.
  - apply IH; [lia|done].
Qed.

(** The payloads 01 00 00 00 and 00 01 00 00 give the numbers 1 and 256. *)
Lemma identity_bytes_determine_number_witness :
  0 <= int_from_bytes_little [x01; x00; x00; x00] < 256 ^ 4
  /\ (int_from_bytes_little [x01; x00; x00; x00]
      = int_from_bytes_little [x00; x01; x00; x00]
      <-> [x01; x00; x00; x00] = [x00; x01; x00; x00]).
Proof.
  apply (identity_bytes_determine_number [x01; x00; x00; x00] [x00; x01; x00; x00]).
  reflexivity.
Defined.

(** ** Storing a sample and reading the latest *)

(** What the latest-sample map binds a device to. *)
Lemma latest_lookup_Some (t : Tables) (d : Z) (i : nat) (r : SampleRow) :
  first_latest (samples t) i r -> s_device_sp_id r = d ->
  dict_by_device (execute_latest_samples t) !! d = Some (select_latest_columns r).
Proof.
  intros Hfl Hd.
  destruct (dict_by_device_bound (execute_latest_samples t) ∅ d) as [row Hrow].
  { left. exists (select_latest_columns r). split; [|done].
    apply execute_latest_samples_elem. eauto. }
  unfold dict_by_device. rewrite Hrow. f_equal.
  apply dict_by_device_lookup in Hrow as [[Hin Hkey] | Hempty]; [|done].
  apply execute_latest_samples_elem in Hin as (i' & r' & Hfl' & ->).
  simpl in Hkey.
  destruct (first_latest_unique _ _ _ _ _ Hfl Hfl') as [_ ->]; [congruence|done].
Qed.

Lemma latest_lookup_None (t : Tables) (d : Z) :
  (forall r, r ∈ samples t -> s_device_sp_id r <> d) ->
  dict_by_device (execute_latest_samples t) !! d = None.
Proof.
  intros Hnone.
  destruct (dict_by_device (execute_latest_samples t) !! d) as [row|] eqn:Hrow; [|done].
  exfalso. apply dict_by_device_lookup in Hrow as [[Hin Hkey] | Hempty]; [|done].
  apply execute_latest_samples_elem in Hin as (i & r & (Hi & _) & ->).
  apply (Hnone r); [by apply list_elem_of_lookup_2 in Hi|done].
Qed.

(** A row appended to the scan leaves the latest of a device in place
    unless it is a later sample of that device. *)
Lemma first_latest_keep (rows : list SampleRow) (x : SampleRow) (i : nat) (r : SampleRow) :
  first_latest rows i r ->
  ~ (s_device_sp_id x = s_device_sp_id r /\ s_created_on r < s_created_on x) ->
  first_latest (rows ++ [x]) i r.
Proof.
  intros (Hi & Hmax & Hfirst) Hkeep. split; [by apply lookup_app_l_Some|]. split.
  - intros r' Hr' Hdev. apply elem_of_app in Hr' as [Hr' | Hr']; [by apply Hmax|].
    apply list_elem_of_singleton in Hr'. subst r'.
    destruct (Z.le_gt_cases (s_created_on x) (s_created_on r)); [done|].
    exfalso. apply Hkeep. split; [done|lia].
  - intros j r' Hj Hr' Hdev. apply (Hfirst j r'); [done| |done].
    apply lookup_lt_Some in Hi. by rewrite lookup_app_l in Hr' by lia.
Qed.

Lemma first_latest_new (rows : list SampleRow) (x : SampleRow) :
  (forall r, r ∈ rows -> s_device_sp_id r = s_device_sp_id x ->
             s_created_on r < s_created_on x) ->
  first_latest (rows ++ [x]) (length rows) x.
Proof.
  intros Hlater. split; [by apply list_lookup_middle|]. split.
  - intros r' Hr' Hdev. apply elem_of_app in Hr' as [Hr' | Hr'].
    + specialize (Hlater r' Hr' Hdev). lia.
    + apply list_elem_of_singleton in Hr'. subst. lia.
  - intros j r' Hj Hr' Hdev. rewrite lookup_app_l in Hr' by done.
    apply Hlater; [by apply list_elem_of_lookup_2 in Hr'|done].
Qed.

(** [add_sample] returns only for a registered device. *)
Lemma add_sample_ok_registered (now sp : Z) (t h : Q) (c c' : Conn) (id : Z) :
  add_sample now sp t h c = (Ok id, c') -> sp_id_in sp (devices (db c)) = true.
Proof.
  intros Hadd. destruct (sp_id_in sp (devices (db c))) eqn:Hsp; [done|]. exfalso.
  unfold add_sample, execute_insert_sample, rollback, device_sp_id_exists in Hadd.
  unfold_py. unfold begin_implicit in Hadd.
  destruct (txn c); simpl in Hadd; rewrite Hsp in Hadd; simpl in Hadd;
    destruct (negb _) in Hadd; discriminate.
Qed.

(** X6. Storing a sample and reading the latest values compose as follows.
    After a successful [add_sample] for device [sp] at time [now], the
    latest-sample map is unchanged for every other device; for [sp] it
    holds the new sample when the device had no sample or only earlier
    ones, and keeps the sample it held when that one is not earlier than
    [now] (a sample stored within the same second does not replace it). *)
Theorem latest_after_add_sample (now sp : Z) (t h : Q) (c c' : Conn) (id : Z)
    (m m' : gmap Z LatestRow) :
  add_sample now sp t h c = (Ok id, c') ->
  get_latest_sample_for_all_sensors c = (Ok m, c) ->
  get_latest_sample_for_all_sensors c' = (Ok m', c') ->
  (forall d, d <> sp -> m' !! d = m !! d)
  /\ m' !! sp =
     match m !! sp with
     | Some row => if l_created_on row <? now then Some (mkLatest sp t h now) else Some row
     | None => Some (mkLatest sp t h now)
     end.
Proof.
  intros Hadd Hm Hm'.
  pose proof (add_sample_ok_registered now sp t h c c' id Hadd) as Hsp.
  rewrite (add_sample_registered now sp t h c Hsp) in Hadd. injection Hadd as <- <-.
  unfold get_latest_sample_for_all_sensors in *. unfold_py.
  injection Hm as <-. injection Hm' as <-. simpl.
  set (x := mkSample (samples_seq (db c) + 1) sp now t h).
  set (t' := mkTables _ _ (samples (db c) ++ [x]) _ _ _).
  assert (Hsamples : samples t' = samples (db c) ++ [x]) by done.
  assert (Hcases : forall d,
            (exists i r, first_latest (samples (db c)) i r /\ s_device_sp_id r = d)
            \/ (forall r, r ∈ samples (db c) -> s_device_sp_id r <> d)).
  { intros d.
    destruct (decide (Exists (fun r => s_device_sp_id r = d) (samples (db c))))
      as [Hex | Hno].
    - left. apply first_latest_exists. by apply Exists_exists.
    - right. intros r Hr Hd. apply Hno, Exists_exists. eauto. }
  split.
  - intros d Hd. destruct (Hcases d) as [(i & r & Hfl & Hrd) | Hnone].
    + rewrite (latest_lookup_Some (db c) d i r Hfl Hrd).
      apply (latest_lookup_Some t' d i r); [|done]. rewrite Hsamples.
      apply first_latest_keep; [done|]. simpl. intros [Hx _]. congruence.
    + rewrite (latest_lookup_None (db c) d Hnone).
      apply latest_lookup_None. rewrite Hsamples. intros r Hr.
      apply elem_of_app in Hr as [Hr | Hr]; [by apply Hnone|].
      apply list_elem_of_singleton in Hr. subst r. simpl. congruence.
  - destruct (Hcases sp) as [(i & r & Hfl & Hrd) | Hnone].
    + rewrite (latest_lookup_Some (db c) sp i r Hfl Hrd). simpl.
      destruct (Z.ltb_spec (s_created_on r) now) as [Hlt | Hge].
      * change (mkLatest sp t h now) with (select_latest_columns x).
        apply (latest_lookup_Some t' sp (length (samples (db c))) x); [|done].
        rewrite Hsamples. apply first_latest_new. simpl. intros r' Hr' Hd'.
        destruct Hfl as (_ & Hmax & _).
        assert (s_created_on r' <= s_created_on r) by (apply Hmax; [done|congruence]).
        lia.
      * apply (latest_lookup_Some t' sp i r); [|done]. rewrite Hsamples.
        apply first_latest_keep; [done|]. simpl. intros [_ Hlt]. lia.
    + rewrite (latest_lookup_None (db c) sp Hnone).
      change (mkLatest sp t h now) with (select_latest_columns x).
      apply (latest_lookup_Some t' sp (length (samples (db c))) x); [|done].
      rewrite Hsamples. apply first_latest_new. simpl. intros r' Hr' Hd'.
      by destruct (Hnone r' Hr').
Qed.

(** A first sample of device 1: it becomes the latest. *)
Lemma latest_after_add_sample_witness :
  exists m',
    get_latest_sample_for_all_sensors (snd (add_sample 100 1 (47 # 2) (226 # 5) one_device))
    = (Ok m', snd (add_sample 100 1 (47 # 2) (226 # 5) one_device))
    /\ m' !! 1 = Some (mkLatest 1 (47 # 2) (226 # 5) 100).
Proof.
  eexists. split; [reflexivity|].
  apply (latest_after_add_sample 100 1 (47 # 2) (226 # 5) one_device
           (snd (add_sample 100 1 (47 # 2) (226 # 5) one_device)) 1
           (dict_by_device (execute_latest_samples (db one_device))));
    reflexivity.
Defined.

(** ** Listing and looking up sensors *)

Import Views.

Lemma run_calls_wf (ops : list api_call) (c : Conn) :
  wf c -> wf (run_calls ops c).
Proof.
  intros Hwf. induction ops as [|op ops IH] using rev_ind; [done|].
  rewrite run_calls_snoc, run_call_conn.
  destruct op; [by apply add_device_wf|by apply add_sample_wf|by apply update_device_name_wf].
Qed.

Lemma sensor_le_total : Total sensor_le.
Proof. intros a b. unfold sensor_le. lia. Qed.

Lemma export_le_total (timestamp_text : Z -> string) : Total (export_le timestamp_text).
Proof. intros a b. unfold export_le. apply String.leb_total. Qed.

(** Under the UNIQUE constraint of [device_names] a device has no name row
    or one. *)
Lemma name_filter_unique (ns : list NameRow) (sp : Z) :
  NoDup (n_device_sp_id <$> ns) ->
  filter (fun n => n_device_sp_id n = sp) ns = []
  \/ exists n, filter (fun n => n_device_sp_id n = sp) ns = [n].
Proof.
  intros Hnd. destruct (filter _ ns) as [|n l] eqn:Hf; [by left|right].
  assert (Hn : n ∈ filter (fun n => n_device_sp_id n = sp) ns) by (rewrite Hf; left).
  apply list_elem_of_filter in Hn as [Hk Hn].
  pose proof (unique_key_filter n_device_sp_id ns n Hnd Hn) as Hone.
  rewrite Hk, Hf in Hone. eauto.
Qed.

Lemma left_join_names_resolved (c : Conn) (d : DeviceRow) :
  NoDup (n_device_sp_id <$> device_names (db c)) ->
  left_join_names (device_names (db c)) d = [sensor_entry c d].
Proof.
  intros Hnd. unfold left_join_names, sensor_entry, resolved_name, name_rows.
  by destruct (name_filter_unique (device_names (db c)) (d_sp_id d) Hnd) as [-> | [n ->]].
Qed.

Lemma join_names_resolved (c : Conn) (ds : list DeviceRow) :
  NoDup (n_device_sp_id <$> device_names (db c)) ->
  concat (left_join_names (device_names (db c)) <$> ds) = sensor_entry c <$> ds.
Proof.
  intros Hnd. induction ds as [|d ds IH]; [done|].
  rewrite !fmap_cons. simpl. by rewrite IH, left_join_names_resolved.
Qed.

Lemma listing_rows (c : Conn) :
  wf c ->
  exists l, get_all_sensors_with_names c = (Ok l, c)
    /\ l ≡ₚ sensor_entry c <$> devices (db c)
    /\ Sorted sensor_le l.
Proof.
  intros Hwf. unfold get_all_sensors_with_names. unfold_py.
  eexists. split; [reflexivity|]. split.
  - by rewrite merge_sort_Permutation, (join_names_resolved c _ (wf_name_unique c Hwf)).
  - apply (@Sorted_merge_sort _ sensor_le _ sensor_le_total).
Qed.

(** X7. The sensor listing is complete, free of duplicates and sorted: on
    a database that satisfies its schema, [get_all_sensors_with_names]
    returns one entry per registered device and no other, each with the
    device's address and the name it resolves to (the empty name for an
    unnamed device), in ascending order of device number. *)
Theorem sensor_listing_complete_and_sorted (c : Conn) :
  wf c ->
  exists l, get_all_sensors_with_names c = (Ok l, c)
    /\ l ≡ₚ sensor_entry c <$> devices (db c)
    /\ Sorted sensor_le l
    /\ NoDup (sp_id <$> l)
    /\ length l = length (devices (db c)).
Proof.
  intros Hwf. destruct (listing_rows c Hwf) as (l & Hrun & Hperm & Hsorted).
  exists l. split; [done|]. split; [done|]. split; [done|]. split.
  - rewrite Hperm, <- list_fmap_compose. apply (wf_sp_id_unique c Hwf).
  - by rewrite Hperm, length_fmap.
Qed.

(** The two sensors are listed 1 "AA:BB" "Garden", then 5 "CC:DD" unnamed. *)
Lemma sensor_listing_complete_and_sorted_witness :
  wf two_devices
  /\ exists l, get_all_sensors_with_names two_devices = (Ok l, two_devices)
       /\ l ≡ₚ sensor_entry two_devices <$> devices (db two_devices)
       /\ Sorted sensor_le l
       /\ NoDup (sp_id <$> l)
       /\ length l = length (devices (db two_devices)).
Proof.
  assert (Hwf : wf two_devices) by apply run_calls_wf, wf_create.
  split; [exact Hwf|]. apply (sensor_listing_complete_and_sorted two_devices Hwf).
Defined.

(** X8. The lookup of one sensor agrees with the listing: on a database
    that satisfies its schema, [get_sensor_by_sp_id] returns the entry the
    listing has for that device number, and [None] exactly when the number
    is not registered. *)
Theorem sensor_lookup_agrees_with_listing (sp : Z) (c : Conn) (l : list SensorRow) :
  wf c ->
  get_all_sensors_with_names c = (Ok l, c) ->
  exists o, get_sensor_by_sp_id sp c = (Ok o, c)
    /\ (forall s, o = Some s <-> s ∈ l /\ sp_id s = sp)
    /\ (o = None <-> device_sp_id_exists sp c = (Ok false, c)).
Proof.
  intros Hwf Hl.
  destruct (listing_rows c Hwf) as (l' & Hrun & Hperm & _).
  rewrite Hrun in Hl. injection Hl as ->.
  unfold get_sensor_by_sp_id, device_sp_id_exists. unfold_py.
  rewrite (join_names_resolved c _ (wf_name_unique c Hwf)).
  eexists. split; [reflexivity|]. split.
  - intros s. rewrite Hperm, list_elem_of_fmap. split.
    + intros Hhead.
      destruct (filter (fun d => d_sp_id d = sp) (devices (db c))) as [|d ds] eqn:Hf; [done|].
      injection Hhead as <-.
      assert (Hd : d ∈ filter (fun d => d_sp_id d = sp) (devices (db c)))
        by (rewrite Hf; left).
      apply list_elem_of_filter in Hd as [Hsp Hd]. split; [eauto|done].
    + intros [(d & -> & Hd) Hsp]. simpl in Hsp.
      pose proof (unique_key_filter d_sp_id _ d (wf_sp_id_unique c Hwf) Hd) as Hone.
      rewrite Hsp in Hone. by rewrite Hone.
  - split.
    + intros Hnone. do 2 f_equal. apply sp_id_in_false. intros d Hd Hsp.
      destruct (filter (fun d => d_sp_id d = sp) (devices (db c))) as [|d' ds] eqn:Hf;
        [|done].
      by apply (filter_nil_not_elem_of _ _ d Hf Hsp).
    + intros Hfalse. injection Hfalse as Hfalse.
      rewrite filter_none; [done|]. by apply sp_id_in_false.
Qed.

(** Sensor 5 is found under its empty name, sensor 7 is not found. *)
Lemma sensor_lookup_agrees_with_listing_witness :
  wf two_devices
  /\ get_sensor_by_sp_id 5 two_devices = (Ok (Some (mkSensor 5 "CC:DD" "")), two_devices)
  /\ exists o, get_sensor_by_sp_id 7 two_devices = (Ok o, two_devices)
       /\ (o = None <-> device_sp_id_exists 7 two_devices = (Ok false, two_devices)).
Proof.
  assert (Hwf : wf two_devices) by apply run_calls_wf, wf_create.
  split; [exact Hwf|]. split; [reflexivity|].
  destruct (sensor_lookup_agrees_with_listing 7 two_devices
              (merge_sort sensor_le
                 (concat (left_join_names (device_names (db two_devices)) <$>
                            devices (db two_devices)))) Hwf eq_refl)
    as (o & Hrun & _ & Hnone).
  exists o. split; [exact Hrun|exact Hnone].
Defined.

(** ** Exporting samples *)

Import QueryResolvers.

Lemma left_join_sample_names_resolved (c : Conn) (r : SampleRow) :
  NoDup (n_device_sp_id <$> device_names (db c)) ->
  left_join_sample_names (device_names (db c)) r = [export_entry c r].
Proof.
  intros Hnd. unfold left_join_sample_names, export_entry, resolved_name, name_rows.
  by destruct (name_filter_unique (device_names (db c)) (s_device_sp_id r) Hnd)
    as [-> | [n ->]].
Qed.

Lemma join_sample_names_resolved (c : Conn) (rs : list SampleRow) :
  NoDup (n_device_sp_id <$> device_names (db c)) ->
  concat (left_join_sample_names (device_names (db c)) <$> rs) = export_entry c <$> rs.
Proof.
  intros Hnd. induction rs as [|r rs IH]; [done|].
  rewrite !fmap_cons. simpl. by rewrite IH, left_join_sample_names_resolved.
Qed.

Lemma on_db_read {A} (m : M Conn A) (a : A) (w : World) :
  m (conn w) = (Ok a, conn w) -> on_db m w = (Ok a, w).
Proof.
  intros Hm. unfold on_db, with_conn. unfold_py. rewrite Hm. by destruct w.
Qed.

(** Byte order on texts: a text is not above itself, nor above what
    extends it, and every proper extension is above it. *)
Lemma text_compare_refl (x : string) : String.compare x x = Eq.
Proof.
  induction x as [|a x IH]; [done|]. simpl.
  unfold Ascii.compare. by rewrite N.compare_refl.
Qed.

Lemma text_compare_extension (x rest : string) :
  String.compare x (x +:+ rest) = if bool_decide (rest = "") then Eq else Lt.
Proof.
  induction x as [|a x IH].
  - destruct rest; [done|]. by rewrite bool_decide_eq_false_2.
  - change (String a x +:+ rest) with (String a (x +:+ rest)). simpl.
    unfold Ascii.compare. by rewrite N.compare_refl.
Qed.

Lemma text_leb_extension (x rest : string) : String.leb x (x +:+ rest) = true.
Proof.
  unfold String.leb. rewrite text_compare_extension. by destruct (bool_decide _).
Qed.

Lemma text_leb_proper_extension (x rest : string) :
  rest <> "" -> String.leb (x +:+ rest) x = false.
Proof.
  intros Hne. unfold String.leb.
  rewrite String.compare_antisym, text_compare_extension.
  by rewrite bool_decide_eq_false_2.
Qed.

Lemma text_leb_refl (x : string) : String.leb x x = true.
Proof. unfold String.leb. by rewrite text_compare_refl. Qed.

(** X9. The export compares texts.  On a database that satisfies its
    schema, [get_samples_for_export] returns one row per stored sample
    whose [created_on] text is, in byte order, not below the text the
    driver binds for the first bound and not above the text it binds for
    the second, and no other row, each with the name its device resolves
    to, ordered by the [created_on] text.  So a sample stored in the
    second the first bound spells is left out as soon as that bound
    carries a fraction or a UTC offset, and returned for a naive bound on
    the whole second (when it is not above the second bound); a sample
    stored in the second the second bound spells is returned whatever
    that bound carries (when it is not below the first bound).
    [get_samples_resolver] turns the rows, in the same order, into the
    [Sample]s of the API and leaves the state as it was; without a request
    or a database in its context it returns the empty list. *)
Theorem export_is_the_period_in_order (timestamp_text : Z -> string)
    (begin_dt end_dt : Datetime) (w : World) :
  wf (conn w) ->
  (exists rows,
      get_samples_for_export timestamp_text begin_dt end_dt (conn w) = (Ok rows, conn w)
      /\ rows ≡ₚ export_entry (conn w) <$>
                  filter (in_period timestamp_text begin_dt end_dt) (samples (db (conn w)))
      /\ Sorted (export_le timestamp_text) rows
      /\ (forall r, r ∈ samples (db (conn w)) ->
            s_created_on r = dt_second begin_dt -> dt_rest begin_dt <> "" ->
            export_entry (conn w) r ∉ rows)
      /\ (forall r, r ∈ samples (db (conn w)) ->
            s_created_on r = dt_second begin_dt -> dt_rest begin_dt = "" ->
            String.leb (timestamp_text (s_created_on r))
                       (adapt_datetime timestamp_text end_dt) = true ->
            export_entry (conn w) r ∈ rows)
      /\ (forall r, r ∈ samples (db (conn w)) ->
            s_created_on r = dt_second end_dt ->
            String.leb (adapt_datetime timestamp_text begin_dt)
                       (timestamp_text (s_created_on r)) = true ->
            export_entry (conn w) r ∈ rows)
      /\ get_samples_resolver timestamp_text (Request true) begin_dt end_dt w
         = (Ok (sample_of_row <$> rows), w)
      /\ sample_of_row <$> rows
         ≡ₚ sample_entry (conn w) <$>
              filter (in_period timestamp_text begin_dt end_dt) (samples (db (conn w))))
  /\ get_samples_resolver timestamp_text NoRequest begin_dt end_dt w = (Ok [], w)
  /\ get_samples_resolver timestamp_text (Request false) begin_dt end_dt w = (Ok [], w).
Proof.
  intros Hwf. split; [|done].
  set (rows := merge_sort (export_le timestamp_text)
                 (concat (left_join_sample_names (device_names (db (conn w))) <$>
                            filter (in_period timestamp_text begin_dt end_dt)
                                   (samples (db (conn w)))))).
  assert (Hrun : get_samples_for_export timestamp_text begin_dt end_dt (conn w)
                 = (Ok rows, conn w)) by done.
  assert (Hperm : rows ≡ₚ export_entry (conn w) <$>
                           filter (in_period timestamp_text begin_dt end_dt)
                                  (samples (db (conn w)))).
  { unfold rows.
    by rewrite merge_sort_Permutation,
      (join_sample_names_resolved _ _ (wf_name_unique _ Hwf)). }
  assert (Hin : forall r, r ∈ samples (db (conn w)) ->
                  in_period timestamp_text begin_dt end_dt r ->
                  export_entry (conn w) r ∈ rows).
  { intros r Hr Hp. rewrite Hperm. apply list_elem_of_fmap_2.
    by apply list_elem_of_filter. }
  exists rows. split; [done|]. split; [done|].
  split; [apply (@Sorted_merge_sort _ (export_le timestamp_text) _
                   (export_le_total timestamp_text))|].
  split; [|split; [|split; [|split]]].
  - intros r Hr Hsecond Hrest. rewrite Hperm. intros Hrow.
    apply list_elem_of_fmap in Hrow as (r' & Heq & Hr').
    apply list_elem_of_filter in Hr' as [Hp _].
    assert (Hsame : s_created_on r' = s_created_on r)
      by (apply (f_equal e_created_on) in Heq; by simpl in Heq).
    unfold in_period, text_between, adapt_datetime in Hp.
    rewrite Hsame, Hsecond, (text_leb_proper_extension _ _ Hrest) in Hp. done.
  - intros r Hr Hsecond Hrest Hend. apply Hin; [done|].
    unfold in_period, text_between. rewrite Hend, andb_true_r.
    unfold adapt_datetime. rewrite Hsecond, Hrest.
    replace (timestamp_text (dt_second begin_dt) +:+ "")
      with (timestamp_text (dt_second begin_dt)); [apply text_leb_refl|].
    clear. induction (timestamp_text (dt_second begin_dt)) as [|a x IH]; [done|].
    change (String a x +:+ "") with (String a (x +:+ "")). by rewrite <- IH.
  - intros r Hr Hsecond Hbegin. apply Hin; [done|].
    unfold in_period, text_between. rewrite Hbegin. simpl.
    unfold adapt_datetime. rewrite Hsecond. apply text_leb_extension.
  - unfold get_samples_resolver. simpl. unfold_py.
    by rewrite (on_db_read _ rows w Hrun).
  - by rewrite Hperm, <- list_fmap_compose.
Qed.

(** The two sensors, the period from 00:01:40 (naive) to 00:02:30+00:00:
    the sample of "Garden" stored at 00:01:40 and the sample of the
    unnamed sensor stored at 00:02:30 are returned. *)
Lemma export_is_the_period_in_order_witness :
  wf (conn world_with_two_devices)
  /\ exists rows,
       get_samples_resolver first_hour_text (Request true)
         (mkDatetime 100 "") (mkDatetime 150 "+00:00") world_with_two_devices
       = (Ok (sample_of_row <$> rows), world_with_two_devices)
       /\ mkExport 1 1 100 (20 # 1) (50 # 1) "Garden" ∈ rows
       /\ mkExport 2 5 150 (18 # 1) (60 # 1) "" ∈ rows
       /\ Sorted (export_le first_hour_text) rows.
Proof.
  assert (Hwf : wf (conn world_with_two_devices)) by apply run_calls_wf, wf_create.
  split; [exact Hwf|].
  destruct (export_is_the_period_in_order first_hour_text
              (mkDatetime 100 "") (mkDatetime 150 "+00:00") world_with_two_devices Hwf)
    as [(rows & _ & _ & Hsorted & _ & Hbegin & Hend & Hrun & _) _].
  exists rows. split; [exact Hrun|]. split; [|split; [|exact Hsorted]].
  - apply (Hbegin (mkSample 1 1 100 (20 # 1) (50 # 1))); [|reflexivity..].
    apply list_elem_of_In. simpl. tauto.
  - apply (Hend (mkSample 2 5 150 (18 # 1) (60 # 1))); [|reflexivity..].
    apply list_elem_of_In. simpl. tauto.
Defined.

(** ** The sensors query and the rename mutation *)

Lemma sensor_of_fields (m : gmap Z LatestRow) (s_base : SensorRow) :
  GraphqlSensor.sp_id (sensor_of m s_base) = sp_id s_base
  /\ GraphqlSensor.ble_id (sensor_of m s_base) = ble_id s_base
  /\ GraphqlSensor.friendly_name (sensor_of m s_base) = friendly_name s_base.
Proof. unfold sensor_of. by destruct (m !! sp_id s_base). Qed.



(** The last reading [sensor_of] attaches is the latest stored one. *)
Lemma sensor_of_latest (c : Conn) (s_base : SensorRow) :
  latest_reported c (sensor_of (dict_by_device (execute_latest_samples (db c))) s_base).
Proof.
  unfold latest_reported.
  destruct (sensor_of_fields (dict_by_device (execute_latest_samples (db c))) s_base)
    as (-> & _ & _).
  destruct (decide (Exists (fun r => s_device_sp_id r = sp_id s_base) (samples (db c))))
    as [Hex | Hno].
  - right. apply Exists_exists in Hex.
    destruct (first_latest_exists _ _ Hex) as (i & r & Hfl & Hd).
    exists i, r. unfold sensor_of.
    by rewrite (latest_lookup_Some (db c) _ i r Hfl Hd).
  - left.
    assert (Hnone : forall r, r ∈ samples (db c) -> s_device_sp_id r <> sp_id s_base).
    { intros r Hr Hd. apply Hno, Exists_exists. eauto. }
    unfold sensor_of. by rewrite (latest_lookup_None (db c) _ Hnone).
Qed.

Lemma sensor_of_entry (c : Conn) (d : DeviceRow) :
  d ∈ devices (db c) ->
  shows_device c (sensor_of (dict_by_device (execute_latest_samples (db c)))
                            (sensor_entry c d)).
Proof.
  intros Hd. unfold shows_device.
  destruct (sensor_of_fields (dict_by_device (execute_latest_samples (db c)))
              (sensor_entry c d)) as (-> & -> & ->).
  split; [by exists d|done].
Qed.

(** X10. The sensors query shows every registered device once, with its
    latest reading: on a database that satisfies its schema,
    [get_sensors_resolver] returns without raising and leaves the state as
    it was; with a database in its context the list has one [Sensor] per
    registered device and no other, in ascending order of device number,
    each under the name the device resolves to, with no last reading when
    the device has no sample and otherwise the time, temperature and
    humidity of a sample of the device that none is later than; without a
    request or a database in its context the list is empty. *)
Theorem sensors_query_shows_every_device (info : Info) (w : World) :
  wf (conn w) ->
  exists l,
    get_sensors_resolver info w = (Ok l, w)
    /\ match get_db_from_info info with
       | RaisesRuntimeError _ => l = []
       | DbFound =>
           GraphqlSensor.sp_id <$> l ≡ₚ d_sp_id <$> devices (db (conn w))
           /\ Sorted Z.le (GraphqlSensor.sp_id <$> l)
           /\ Forall (fun s => shows_device (conn w) s /\ latest_reported (conn w) s) l
       end.
Proof.
  intros Hwf. unfold get_sensors_resolver.
  destruct (get_db_from_info info); [|by exists []].
  destruct (listing_rows (conn w) Hwf) as (l0 & Hrun & Hperm & Hsorted).
  set (m := dict_by_device (execute_latest_samples (db (conn w)))).
  exists (sensor_of m <$> l0). split.
  { unfold_py. rewrite (on_db_read _ l0 w Hrun).
    by rewrite (on_db_read get_latest_sample_for_all_sensors m w). }
  assert (Hids : GraphqlSensor.sp_id <$> (sensor_of m <$> l0) = sp_id <$> l0).
  { rewrite <- list_fmap_compose. apply list_fmap_ext. intros i s _. simpl.
    apply sensor_of_fields. }
  split; [|split].
  - by rewrite Hids, Hperm, <- list_fmap_compose.
  - rewrite Hids. by apply (Sorted_fmap sp_id sensor_le).
  - apply Forall_fmap, Forall_forall. intros s_base Hs. simpl.
    split; [|apply sensor_of_latest].
    rewrite Hperm in Hs. apply list_elem_of_fmap in Hs as (d & -> & Hd).
    by apply sensor_of_entry.
Qed.

(** The two sensors: "Garden" with its reading of 200, the unnamed one
    with its reading of 150. *)
Lemma sensors_query_shows_every_device_witness :
  wf (conn world_with_two_devices)
  /\ get_sensors_resolver (Request true) world_with_two_devices
     = (Ok [GraphqlSensor.mkSensor 1 "AA:BB" "Garden" (Some 200) (Some (21 # 1)) (Some (55 # 1));
            GraphqlSensor.mkSensor 5 "CC:DD" "" (Some 150) (Some (18 # 1)) (Some (60 # 1))],
        world_with_two_devices)
  /\ exists l,
       get_sensors_resolver (Request true) world_with_two_devices
       = (Ok l, world_with_two_devices)
       /\ GraphqlSensor.sp_id <$> l ≡ₚ d_sp_id <$> devices (db two_devices)
       /\ Sorted Z.le (GraphqlSensor.sp_id <$> l)
       /\ Forall (fun s => shows_device two_devices s /\ latest_reported two_devices s) l.
Proof.
  assert (Hwf : wf (conn world_with_two_devices)) by apply run_calls_wf, wf_create.
  split; [exact Hwf|]. split; [reflexivity|].
  apply (sensors_query_shows_every_device (Request true) world_with_two_devices Hwf).
Defined.



(** ** The ingestion loop on any queue *)

Lemma get_device_sp_id_known (a : string) (sp : Z) (c : Conn) :
  get_device_sp_id a c = (Ok (Some sp), c) -> ble_id_in a (devices (db c)) = true.
Proof.
  intros Hget. unfold get_device_sp_id in Hget. unfold_py. injection Hget as Hget.
  destruct (filter (fun d => d_ble_id d = a) (devices (db c))) as [|d ds] eqn:Hf; [done|].
  assert (Hd : d ∈ filter (fun d => d_ble_id d = a) (devices (db c))) by (rewrite Hf; left).
  apply list_elem_of_filter in Hd as [Ha Hd]. apply ble_id_in_true. eauto.
Qed.

Lemma get_device_sp_id_app (a : string) (sp : Z) (c c' : Conn) (ds : list DeviceRow) :
  devices (db c') = devices (db c) ++ ds ->
  get_device_sp_id a c = (Ok (Some sp), c) ->
  get_device_sp_id a c' = (Ok (Some sp), c').
Proof.
  intros Hds Hget. unfold get_device_sp_id in *. unfold_py.
  injection Hget as Hget. rewrite Hds. do 2 f_equal.
  destruct (head (filter _ (devices (db c)))) as [d|] eqn:Hhead; [|done].
  by rewrite (head_filter_app _ _ ds d Hhead).
Qed.

Lemma add_device_appends (sp : Z) (ble : string) (c : Conn) :
  txn c = None ->
  exists ds, devices (db (snd (add_device sp ble c))) = devices (db c) ++ ds.
Proof.
  intros Htxn.
  destruct (sp_id_in sp (devices (db c)) || ble_id_in ble (devices (db c))) eqn:Hdup.
  - destruct (add_device_conflict sp ble c Htxn Hdup) as [e ->].
    exists []. by rewrite app_nil_r.
  - apply orb_false_elim in Hdup as [Hsp Hble].
    rewrite (add_device_fresh sp ble c Hsp Hble). simpl. eauto.
Qed.

Ltac not_in_calls :=
  let Hin := fresh "Hin" in
  intros Hin;
  repeat (apply elem_of_cons in Hin as [Hin | Hin]; [congruence|]);
  by apply elem_of_nil in Hin.

Section IngestionRuns.

Variable supported : BluetoothServiceInfo -> bool.
Variable sensor_values : BluetoothServiceInfo -> gmap string Q.
Variable isoformat : Z -> string.

Abbreviation process := (process_advertisement_event supported sensor_values isoformat).
Abbreviation loop := (advertisement_loop supported sensor_values isoformat).

Lemma loop_app (q1 q2 : list (BLEDevice * AdvertisementData * Env))
    (on_sample : option (sample_data -> task)) (w : World) :
  loop (q1 ++ q2) on_sample w = loop q2 on_sample (snd (loop q1 on_sample w)).
Proof.
  revert w. induction q1 as [|[[device adv] e] rest IH]; intros w; [done|].
  destruct (process_returns supported sensor_values isoformat device adv e on_sample w)
    as (cs & w1 & Hrun & _).
  rewrite <- app_comm_cons.
  rewrite !(loop_cons _ _ _ _ _ _ _ _ _ _ Hrun). apply IH.
Qed.

(** The loop itself puts nothing on the sample queue. *)
Lemma loop_feed_untouched (queue : list (BLEDevice * AdvertisementData * Env))
    (on_sample : option (sample_data -> task)) (w : World) :
  sample_queue (snd (loop queue on_sample w)) = sample_queue w
  /\ yielded (snd (loop queue on_sample w)) = yielded w.
Proof.
  revert w. induction queue as [|[[device adv] e] rest IH]; intros w; [done|].
  destruct (process_returns supported sensor_values isoformat device adv e on_sample w)
    as (cs & w1 & Hrun & _ & Hq & Hy & _).
  rewrite (loop_cons _ _ _ _ _ _ _ _ _ _ Hrun).
  destruct (IH w1) as [-> ->]. done.
Qed.

(** X12. The ingestion loop survives every queue.  Whatever
    advertisements arrive, from whatever addresses, and whatever the
    scanner, the radio and the database answer, [advertisement_loop]
    processes them all without raising; processing a queue is processing
    a first part and then the rest; at the end of every part the calls
    made so far respect the scan-pause protocol (each identity read
    follows a stop and is followed by its restart), with as many restarts
    as reads and at most one read per advertisement; and the loop itself
    never touches the sample queue. *)
Theorem ingestion_loop_survives_any_queue
    (q1 q2 : list (BLEDevice * AdvertisementData * Env))
    (on_sample : option (sample_data -> task)) (w : World) :
  exists cs1 cs2 w1 w2,
    loop q1 on_sample w = (Ok tt, w1) /\ calls w1 = calls w ++ cs1
    /\ loop q2 on_sample w1 = (Ok tt, w2) /\ calls w2 = calls w1 ++ cs2
    /\ loop (q1 ++ q2) on_sample w = (Ok tt, w2)
    /\ well_bracketed cs1 = true /\ well_bracketed (cs1 ++ cs2) = true
    /\ starts (cs1 ++ cs2) = reads (cs1 ++ cs2)
    /\ (reads (cs1 ++ cs2) <= length (q1 ++ q2))%nat
    /\ sample_queue w2 = sample_queue w /\ yielded w2 = yielded w.
Proof.
  destruct (loop_protocol supported sensor_values isoformat q1 on_sample w Scanning eq_refl)
    as (cs1 & w1 & Hloop1 & Hcalls1 & (ph1 & Hph1 & Hrest1) & Heq1 & Hle1).
  destruct (loop_protocol supported sensor_values isoformat q2 on_sample w1 ph1 Hrest1)
    as (cs2 & w2 & Hloop2 & Hcalls2 & (ph2 & Hph2 & Hrest2) & Heq2 & Hle2).
  exists cs1, cs2, w1, w2.
  split; [done|]. split; [done|]. split; [done|]. split; [done|].
  split; [by rewrite loop_app, Hloop1|].
  split; [by unfold well_bracketed; rewrite Hph1|].
  split; [by unfold well_bracketed; rewrite phase_run_app, Hph1, Hph2|].
  split; [rewrite reads_app, starts_app; lia|].
  split; [rewrite reads_app, length_app; lia|].
  pose proof (loop_feed_untouched q1 on_sample w) as [Hq1 Hy1].
  pose proof (loop_feed_untouched q2 on_sample w1) as [Hq2 Hy2].
  rewrite Hloop1 in Hq1, Hy1. rewrite Hloop2 in Hq2, Hy2. simpl in *.
  split; congruence.
Qed.

(** One event leaves a registered address alone. *)
Lemma process_keeps_registered (device : BLEDevice) (adv : AdvertisementData) (e : Env)
    (on_sample : option (sample_data -> task)) (w : World) (a : string) (sp : Z) :
  wf (conn w) ->
  get_device_sp_id a (conn w) = (Ok (Some sp), conn w) ->
  exists cs w',
    process device adv e on_sample w = (Ok tt, w')
    /\ calls w' = calls w ++ cs
    /\ (ReadGattChar a ∉ cs)
    /\ (forall sp', AddDevice sp' a ∉ cs)
    /\ get_device_sp_id a (conn w') = (Ok (Some sp), conn w')
    /\ wf (conn w').
Proof.
  intros Hwf Hget.
  pose proof (get_device_sp_id_known a sp (conn w) Hget) as Hknown_a.
  assert (Hcore : exists cs w',
            process device adv e on_sample w = (Ok tt, w')
            /\ calls w' = calls w ++ cs
            /\ (ReadGattChar a ∉ cs)
            /\ (forall sp', AddDevice sp' a ∉ cs)
            /\ exists ds, devices (db (conn w')) = devices (db (conn w)) ++ ds).
  { assert (Hnil : exists ds : list DeviceRow,
               devices (db (conn w)) = devices (db (conn w)) ++ ds)
      by (exists []; by rewrite app_nil_r).
    destruct (supported (make_service_info device adv)) eqn:Hs.
    2:{ exists [], w. rewrite process_unsupported by done. rewrite app_nil_r.
        repeat split; [not_in_calls|intros sp'; not_in_calls|done]. }
    destruct (ble_id_in (address device) (devices (db (conn w)))) eqn:Hknown.
    - destruct (sensor_values (make_service_info device adv) !! "temperature")
        as [t|] eqn:Ht.
      2:{ exists [], w. rewrite process_known_no_reading by auto. rewrite app_nil_r.
          repeat split; [not_in_calls|intros sp'; not_in_calls|done]. }
      destruct (sensor_values (make_service_info device adv) !! "humidity")
        as [h|] eqn:Hh.
      2:{ exists [], w. rewrite process_known_no_reading by auto. rewrite app_nil_r.
          repeat split; [not_in_calls|intros sp'; not_in_calls|done]. }
      destruct (process_known_sample supported sensor_values isoformat
                  device adv e on_sample w t h Hs Hknown Ht Hh)
        as (sp0 & _ & Hsp0 & Hrun).
      eexists _, _. split; [exact Hrun|]. simpl. split; [done|].
      rewrite (add_sample_registered _ _ _ _ _ Hsp0). simpl.
      repeat split; [destruct on_sample; not_in_calls
                    |intros sp'; destruct on_sample; not_in_calls|done].
    - assert (Hne : address device <> a) by (intros Heq; rewrite Heq in Hknown; congruence).
      destruct (stop_raises e) eqn:Hstop.
      + eexists _, _.
        split; [by apply process_unknown_stop_raises|]. simpl.
        repeat split; [not_in_calls|intros sp'; not_in_calls|done].
      + destruct (process_unknown supported sensor_values isoformat
                    device adv e on_sample w Hs Hknown Hstop) as (w1 & Hread & Hrun).
        destruct (gatt e) as [|raw] eqn:Hg.
        * rewrite read_device_id_raises in Hread by done. injection Hread as <-.
          exists [ScannerStop; ReadGattChar (address device); ScannerStart].
          eexists. split; [exact Hrun|]. simpl. rewrite <- !app_assoc.
          repeat split; [not_in_calls|intros sp'; not_in_calls|done].
        * destruct (le_lt_dec 4 (length raw)) as [Hlen | Hlen].
          -- rewrite (read_device_id_long _ _ _ raw) in Hread by done.
             injection Hread as <-.
             exists [ScannerStop; ReadGattChar (address device);
                     AddDevice (int_from_bytes_little (take 4 raw)) (address device);
                     ScannerStart].
             eexists. split; [exact Hrun|]. simpl. rewrite <- !app_assoc.
             repeat split; [not_in_calls|intros sp'; not_in_calls|].
             apply add_device_appends, (wf_txn _ Hwf).
          -- rewrite (read_device_id_short _ _ _ raw) in Hread by done.
             injection Hread as <-.
             exists [ScannerStop; ReadGattChar (address device); ScannerStart].
             eexists. split; [exact Hrun|]. simpl. rewrite <- !app_assoc.
             repeat split; [not_in_calls|intros sp'; not_in_calls|done]. }
  destruct Hcore as (cs & w' & Hrun & Hcalls & Hread & Hadd & ds & Hds).
  exists cs, w'. split; [done|]. split; [done|]. split; [done|]. split; [done|].
  split; [by apply (get_device_sp_id_app a sp (conn w) (conn w') ds)|].
  pose proof (process_wf supported sensor_values isoformat device adv e on_sample w Hwf)
    as Hwf'.
  by rewrite Hrun in Hwf'.
Qed.

(** X13. A registered sensor is never connected to again.  Once an
    address resolves to a device number on a database that satisfies its
    schema, then over every queue of advertisements, from this and any
    other address and whatever the outcomes of the reads, the loop makes
    no identity read of that address and no registration for it, the
    address keeps resolving to the same number, and the schema still
    holds at the end. *)
Theorem registered_address_is_left_alone (a : string) (sp : Z)
    (queue : list (BLEDevice * AdvertisementData * Env))
    (on_sample : option (sample_data -> task)) (w : World) :
  wf (conn w) ->
  get_device_sp_id a (conn w) = (Ok (Some sp), conn w) ->
  exists cs w',
    loop queue on_sample w = (Ok tt, w')
    /\ calls w' = calls w ++ cs
    /\ (ReadGattChar a ∉ cs)
    /\ (forall sp', AddDevice sp' a ∉ cs)
    /\ get_device_sp_id a (conn w') = (Ok (Some sp), conn w')
    /\ wf (conn w').
Proof.
  revert w. induction queue as [|[[device adv] e] rest IH]; intros w Hwf Hget.
  - exists [], w. rewrite app_nil_r.
    split; [done|]. split; [done|]. split; [not_in_calls|].
    split; [intros sp'; not_in_calls|done].
  - destruct (process_keeps_registered device adv e on_sample w a sp Hwf Hget)
      as (cs1 & w1 & Hrun & Hcalls1 & Hread1 & Hadd1 & Hget1 & Hwf1).
    destruct (IH w1 Hwf1 Hget1) as (cs2 & w2 & Hloop & Hcalls2 & Hread2 & Hadd2 & Hget2 & Hwf2).
    exists (cs1 ++ cs2), w2. rewrite (loop_cons _ _ _ _ _ _ _ _ _ _ Hrun).
    split; [done|]. split; [by rewrite Hcalls2, Hcalls1, app_assoc|].
    split; [by apply not_elem_of_app|].
    split; [intros sp'; by apply not_elem_of_app|done].
Qed.

End IngestionRuns.

(** "AA:BB" is registered; advertisements of "AA:BB" and of a second
    sensor whose identity read fails arrive in turn. *)
Lemma registered_address_is_left_alone_witness :
  wf (conn world_with_device)
  /\ exists cs w',
       advertisement_loop always_supported both_readings fixed_isoformat
         [(aa_bb, an_advertisement, read_one);
          (mkBLEDevice "CC:DD" None, an_advertisement, read_fails);
          (aa_bb, an_advertisement, read_one)]
         (Some OnSampleTask) world_with_device = (Ok tt, w')
       /\ calls w' = calls world_with_device ++ cs
       /\ (ReadGattChar "AA:BB" ∉ cs)
       /\ (forall sp', AddDevice sp' "AA:BB" ∉ cs)
       /\ get_device_sp_id "AA:BB" (conn w') = (Ok (Some 1), conn w')
       /\ wf (conn w').
Proof.
  assert (Hwf : wf (conn world_with_device)) by (apply add_device_wf, wf_create).
  split; [exact Hwf|].
  apply (registered_address_is_left_alone always_supported both_readings fixed_isoformat
           "AA:BB" 1 _ (Some OnSampleTask) world_with_device Hwf).
  reflexivity.
Defined.

(** ** Publishing a sample *)

(** [str.replace("Z", "+00:00")] on a timestamp of the pipeline: the
    trailing "Z" becomes the offset and nothing else changes. *)
Lemma replace_Z_of_pipeline_timestamp (iso : string) :
  ~ List.In "Z"%char (list_ascii_of_string iso) ->
  replace_Z (iso +:+ "Z") = iso +:+ "+00:00".
Proof.
  induction iso as [|c iso IH]; intros Hno; [done|].
  simpl in *. destruct (Ascii.eqb_spec c "Z"%char) as [-> | Hne].
  - exfalso. apply Hno. by left.
  - change (String c iso +:+ "+00:00") with (String c (iso +:+ "+00:00")).
    f_equal. apply IH. intros Hin. apply Hno. by right.
Qed.

Lemma get_sensor_by_sp_id_unregistered (sp : Z) (c : Conn) :
  sp_id_in sp (devices (db c)) = false ->
  get_sensor_by_sp_id sp c = (Ok None, c).
Proof.
  intros Hsp. unfold get_sensor_by_sp_id. unfold_py.
  rewrite filter_none; [done|]. by apply sp_id_in_false.
Qed.

(** X14. [publish_sample] always returns and never touches the database,
    the scanner or what subscribers were sent.  A record that has its
    device number, temperature and humidity puts exactly one [Sample] on
    the queue, behind those already there, with these three values: under
    the name the device resolves to, under the empty name when the device
    is not registered (the sample is published all the same); stamped
    with the current time when the record has no timestamp, an empty one
    or one that does not parse, and with the parsed instant otherwise,
    where a timestamp of the pipeline (an ISO text without "Z", then "Z")
    is parsed as that text followed by "+00:00".  Any other record puts
    nothing on the queue. *)
Theorem publish_sample_always_returns (fromisoformat : string -> option Z) (now : Z)
    (sd : sample_data) (w : World) :
  exists w',
    publish_sample fromisoformat now sd w = (Ok tt, w')
    /\ conn w' = conn w /\ calls w' = calls w /\ yielded w' = yielded w
    /\ match sd_sp_id sd, sd_temperature sd, sd_humidity sd with
       | Some sp, Some t, Some h =>
           exists s,
             sample_queue w' = sample_queue w ++ [s]
             /\ GraphqlSchema.device_sp_id s = sp
             /\ GraphqlSchema.temperature_c s = t
             /\ GraphqlSchema.humidity s = h
             /\ (sp_id_in sp (devices (db (conn w))) = true ->
                 GraphqlSchema.friendly_name s = resolved_name sp (conn w))
             /\ (sp_id_in sp (devices (db (conn w))) = false ->
                 GraphqlSchema.friendly_name s = "")
             /\ (sd_timestamp sd = None \/ sd_timestamp sd = Some "" ->
                 GraphqlSchema.created_on s = now)
             /\ (forall ts, sd_timestamp sd = Some ts ->
                   fromisoformat (replace_Z ts) = None ->
                   GraphqlSchema.created_on s = now)
             /\ (forall ts z, sd_timestamp sd = Some ts -> ts <> "" ->
                   fromisoformat (replace_Z ts) = Some z ->
                   GraphqlSchema.created_on s = z)
             /\ (forall iso z, sd_timestamp sd = Some (iso +:+ "Z") ->
                   ~ List.In "Z"%char (list_ascii_of_string iso) ->
                   fromisoformat (iso +:+ "+00:00") = Some z ->
                   GraphqlSchema.created_on s = z)
       | _, _, _ => sample_queue w' = sample_queue w
       end.
Proof.
  unfold publish_sample.
  destruct (sd_sp_id sd) as [sp|]; [|by exists w].
  destruct (sd_temperature sd) as [t|]; [|by exists w].
  destruct (sd_humidity sd) as [h|]; [|by exists w].
  assert (Hget : exists o,
             get_sensor_by_sp_id sp (conn w) = (Ok o, conn w)
             /\ (sp_id_in sp (devices (db (conn w))) = true ->
                 match o with Some details => friendly_name details | None => "" end
                 = resolved_name sp (conn w))
             /\ (sp_id_in sp (devices (db (conn w))) = false ->
                 match o with Some details => friendly_name details | None => "" end = "")).
  { destruct (sp_id_in sp (devices (db (conn w)))) eqn:Hsp.
    - destruct (get_sensor_by_sp_id_registered sp (conn w) Hsp) as [ble ->].
      eexists. split; [done|]. by split.
    - rewrite (get_sensor_by_sp_id_unregistered sp (conn w) Hsp).
      eexists. split; [done|]. by split. }
  destruct Hget as (o & Hget & Hreg & Hunreg).
  unfold sample_queue_put. unfold_py.
  rewrite (on_db_read _ o w Hget). simpl.
  eexists. split; [reflexivity|]. simpl.
  split; [done|]. split; [done|]. split; [done|].
  eexists. split; [reflexivity|]. simpl.
  split; [done|]. split; [done|]. split; [done|].
  split; [done|]. split; [done|]. split; [|split; [|split]].
  - intros [-> | ->]; done.
  - intros ts -> Hparse. rewrite Hparse. simpl. by destruct (bool_decide (ts = "")).
  - intros ts z -> Hne Hparse. rewrite Hparse. simpl.
    by rewrite bool_decide_eq_false_2.
  - intros iso z -> Hno Hparse.
    rewrite (replace_Z_of_pipeline_timestamp iso Hno), Hparse. simpl.
    rewrite bool_decide_eq_false_2; [done|]. apply append_Z_not_empty.
Qed.

(** ** The feeds *)

Lemma feed_yields_to_resumed (who : nat) (schedule : list feed_step) (w : World) :
  Forall (fun st => match st with Resume who' => who' = who | Put _ => True end) schedule ->
  Forall (fun y => fst y = who) (yielded w) ->
  Forall (fun y => fst y = who) (yielded (snd (run_feed schedule w))).
Proof.
  revert w. induction schedule as [|[s | who'] rest IH]; intros w Hlone Hw; [done| |].
  - apply Forall_cons in Hlone as [_ Hlone]. simpl. unfold sample_queue_put. unfold_py.
    by apply IH.
  - apply Forall_cons in Hlone as [-> Hlone]. simpl.
    unfold sensor_updates_subscription. unfold_py.
    destruct (sample_queue w) as [|s q]; [by apply IH|].
    simpl. apply IH; [done|]. simpl. apply Forall_app. split; [done|].
    by apply Forall_singleton.
Qed.

Lemma feed_keeps_database (schedule : list feed_step) (w : World) :
  conn (snd (run_feed schedule w)) = conn w
  /\ calls (snd (run_feed schedule w)) = calls w.
Proof.
  revert w. induction schedule as [|[s | who] rest IH]; intros w; [done| |].
  - simpl. unfold sample_queue_put. unfold_py. by destruct (IH (mkWorld (conn w) (calls w) (sample_queue w ++ [s]) (yielded w))) as [-> ->].
  - simpl. unfold sensor_updates_subscription. unfold_py.
    destruct (sample_queue w) as [|s q]; [apply IH|].
    simpl.
    by destruct (IH (mkWorld (conn w) (calls w) q (yielded w ++ [(who, s)]))) as [-> ->].
Qed.

(** X15. The sample feed is first in, first out.  Starting with an empty
    queue and nothing sent, then under every schedule of publications and
    resumptions of subscriber generators: the samples sent so far,
    followed by those still queued, are the samples published, in order
    of publication, so none is lost, duplicated or overtaken; what one
    subscriber was sent is a subsequence of what was published; a
    subscriber that is alone is sent every sample that left the queue;
    and the feed touches neither the database nor the scanner. *)
Theorem sample_feed_first_in_first_out (schedule : list feed_step) (who : nat) (w : World) :
  sample_queue w = [] -> yielded w = [] ->
  exists w',
    run_feed schedule w = (Ok tt, w')
    /\ (snd <$> yielded w') ++ sample_queue w' = published schedule
    /\ received who w' `sublist_of` published schedule
    /\ (Forall (fun st => match st with Resume who' => who' = who | Put _ => True end)
               schedule ->
        received who w' ++ sample_queue w' = published schedule)
    /\ conn w' = conn w /\ calls w' = calls w.
Proof.
  intros Hq Hy.
  destruct (feed_conserves_samples schedule w) as (w' & Hrun & Hcons).
  rewrite Hq, Hy in Hcons. simpl in Hcons.
  exists w'. split; [done|]. split; [done|]. split; [|split].
  - rewrite <- Hcons. apply sublist_inserts_r. unfold received.
    apply fmap_sublist, sublist_filter.
  - intros Hlone. rewrite <- Hcons. f_equal. unfold received. f_equal.
    apply filter_all. apply Forall_forall.
    pose proof (feed_yields_to_resumed who schedule w Hlone) as Hall.
    rewrite Hrun, Hy in Hall. by apply Hall.
  - pose proof (feed_keeps_database schedule w) as Hkeep. by rewrite Hrun in Hkeep.
Qed.

(** Two samples published, the lone subscriber resumed three times. *)
Lemma sample_feed_first_in_first_out_witness :
  exists w',
    run_feed [Put (GraphqlSchema.mkSample 1 "Garden" (20 # 1) (50 # 1) 100);
              Resume 0%nat;
              Put (GraphqlSchema.mkSample 5 "" (18 # 1) (60 # 1) 150);
              Resume 0%nat; Resume 0%nat] WebBackend.startup = (Ok tt, w')
    /\ received 0 w' ++ sample_queue w'
       = [GraphqlSchema.mkSample 1 "Garden" (20 # 1) (50 # 1) 100;
          GraphqlSchema.mkSample 5 "" (18 # 1) (60 # 1) 150].
Proof.
  destruct (sample_feed_first_in_first_out
              [Put (GraphqlSchema.mkSample 1 "Garden" (20 # 1) (50 # 1) 100);
               Resume 0%nat;
               Put (GraphqlSchema.mkSample 5 "" (18 # 1) (60 # 1) 150);
               Resume 0%nat; Resume 0%nat] 0%nat WebBackend.startup eq_refl eq_refl)
    as (w' & Hrun & _ & _ & Hlone & _).
  exists w'. split; [exact Hrun|]. apply Hlone.
  repeat constructor.
Defined.

(** ** The advertisement queue *)

Lemma detected_length (schedule : list Ingest.step) :
  (length (Ingest.detected schedule) <= length schedule)%nat.
Proof.
  induction schedule as [|[device adv | e] rest IH]; simpl in *; lia.
Qed.

(** X16. Advertisements are processed in the order they were detected.
    Under every schedule of detections ([handle_advertisement]) and turns
    of the loop, the run never raises; the advertisements processed so
    far, followed by those still queued, are the advertisements that were
    queued at the start followed by those detected, in order, so none is
    lost, processed twice or overtaken; at most one advertisement is
    processed per turn; and the shared state is what [advertisement_loop]
    leaves after the processed advertisements, each with the answers the
    scanner, the radio and the clocks gave during its turn. *)
Theorem advertisements_processed_in_arrival_order
    (supported : BluetoothServiceInfo -> bool)
    (sensor_values : BluetoothServiceInfo -> gmap string Q)
    (isoformat : Z -> string)
    (schedule : list Ingest.step) (on_sample : option (sample_data -> task))
    (st : Ingest.State) :
  exists st' processed,
    Ingest.run supported sensor_values isoformat schedule on_sample st = (Ok tt, st')
    /\ (fst <$> processed) ++ Ingest.advertisement_queue st'
       = Ingest.advertisement_queue st ++ Ingest.detected schedule
    /\ (length processed <= length schedule - length (Ingest.detected schedule))%nat
    /\ advertisement_loop supported sensor_values isoformat processed on_sample
         (Ingest.world st)
       = (Ok tt, Ingest.world st').
Proof.
  revert st. induction schedule as [|[device adv | e] rest IH]; intros st.
  - exists st, []. simpl. by rewrite app_nil_r.
  - simpl. unfold Ingest.handle_advertisement. unfold_py.
    destruct (IH (Ingest.mkState (Ingest.advertisement_queue st ++ [(device, adv)])
                                 (Ingest.world st)))
      as (st' & processed & Hrun & Hfifo & Hlen & Hloop).
    exists st', processed. split; [done|]. cbn [Ingest.advertisement_queue Ingest.world] in *.
    split; [rewrite Hfifo; by rewrite <- app_assoc|]. split; [lia|done].
  - simpl. unfold Ingest.advertisement_loop_turn. unfold_py.
    destruct (Ingest.advertisement_queue st) as [|[device adv] queue] eqn:Hq.
    + destruct (IH st) as (st' & processed & Hrun & Hfifo & Hlen & Hloop).
      exists st', processed. split; [done|]. rewrite Hq in Hfifo.
      split; [done|]. split; [|done].
      pose proof (detected_length rest). simpl in *. lia.
    + destruct (process_returns supported sensor_values isoformat device adv e on_sample
                  (Ingest.world st)) as (cs & w1 & Hproc & _).
      simpl. rewrite Hproc.
      destruct (IH (Ingest.mkState queue w1))
        as (st' & processed & Hrun & Hfifo & Hlen & Hloop).
      exists st', ((device, adv, e) :: processed). split; [done|].
      cbn [Ingest.advertisement_queue Ingest.world] in *.
      split; [rewrite fmap_cons; simpl; by rewrite <- Hfifo|]. split.
      * pose proof (detected_length rest). cbn [length]. lia.
      * by rewrite (loop_cons _ _ _ _ _ _ _ _ _ _ Hproc).
Qed.

(** ** The log feed *)

Lemma log_feed_conserves (schedule : list LogFeed.log_step) (f : LogFeed.Feed) :
  exists f',
    LogFeed.run_log schedule f = (Ok tt, f')
    /\ (snd <$> LogFeed.log_yielded f') ++ LogFeed.log_queue f'
       = (snd <$> LogFeed.log_yielded f) ++ LogFeed.log_queue f ++ LogFeed.emitted schedule.
Proof.
  revert f. induction schedule as [|[record | who] rest IH]; intros f.
  - exists f. simpl. by rewrite app_nil_r.
  - simpl. unfold LogFeed.emit. unfold_py.
    match goal with
    | |- exists f', LogFeed.run_log rest ?f1 = _ /\ _ =>
        destruct (IH f1) as (f' & Hrun & Hcons)
    end.
    exists f'. split; [done|]. rewrite Hcons. simpl. by rewrite <- app_assoc.
  - simpl. unfold LogFeed.log_messages_subscription. unfold_py.
    destruct (LogFeed.log_queue f) as [|entry q] eqn:Hq.
    + destruct (IH f) as (f' & Hrun & Hcons). exists f'. split; [done|].
      by rewrite Hcons, Hq.
    + simpl.
      match goal with
      | |- exists f', LogFeed.run_log rest ?f1 = _ /\ _ =>
          destruct (IH f1) as (f' & Hrun & Hcons)
      end.
      exists f'. split; [done|]. rewrite Hcons. simpl.
      rewrite fmap_app. simpl. by rewrite <- !app_assoc.
Qed.

Lemma log_feed_yields_to_resumed (who : nat) (schedule : list LogFeed.log_step)
    (f : LogFeed.Feed) :
  Forall (fun st => match st with
                    | LogFeed.ResumeLog who' => who' = who
                    | LogFeed.Emit _ => True
                    end) schedule ->
  Forall (fun y => fst y = who) (LogFeed.log_yielded f) ->
  Forall (fun y => fst y = who) (LogFeed.log_yielded (snd (LogFeed.run_log schedule f))).
Proof.
  revert f. induction schedule as [|[record | who'] rest IH]; intros f Hlone Hf; [done| |].
  - apply Forall_cons in Hlone as [_ Hlone]. simpl. unfold LogFeed.emit. unfold_py.
    by apply IH.
  - apply Forall_cons in Hlone as [-> Hlone]. simpl.
    unfold LogFeed.log_messages_subscription. unfold_py.
    destruct (LogFeed.log_queue f) as [|entry q]; [by apply IH|].
    simpl. apply IH; [done|]. simpl. apply Forall_app. split; [done|].
    by apply Forall_singleton.
Qed.

(** X17. The log feed is first in, first out.  Starting with an empty
    queue and nothing sent, then under every schedule of log records
    handled by [QueueLogHandler.emit] and resumptions of the generators
    of [log_messages_subscription]: every record becomes one entry with
    the record's creation time, formatted text and level name; the
    entries sent so far, followed by those still queued, are the entries
    of the records emitted, in order of emission; what one subscriber was
    sent is a subsequence of them; and a subscriber that is alone is sent
    every entry that left the queue. *)
Theorem log_feed_first_in_first_out (schedule : list LogFeed.log_step) (who : nat)
    (f : LogFeed.Feed) :
  LogFeed.log_queue f = [] -> LogFeed.log_yielded f = [] ->
  exists f',
    LogFeed.run_log schedule f = (Ok tt, f')
    /\ (snd <$> LogFeed.log_yielded f') ++ LogFeed.log_queue f' = LogFeed.emitted schedule
    /\ LogFeed.log_received who f' `sublist_of` LogFeed.emitted schedule
    /\ (Forall (fun st => match st with
                          | LogFeed.ResumeLog who' => who' = who
                          | LogFeed.Emit _ => True
                          end) schedule ->
        LogFeed.log_received who f' ++ LogFeed.log_queue f' = LogFeed.emitted schedule)
    /\ (forall records,
          schedule = LogFeed.Emit <$> records ->
          LogFeed.log_queue f'
          = (fun record => LogFeed.mkLogMessage (LogFeed.created record)
                             (LogFeed.formatted record) (LogFeed.levelname record))
              <$> records).
Proof.
  intros Hq Hy.
  destruct (log_feed_conserves schedule f) as (f' & Hrun & Hcons).
  rewrite Hq, Hy in Hcons. simpl in Hcons.
  exists f'. split; [done|]. split; [done|]. split; [|split].
  - rewrite <- Hcons. apply sublist_inserts_r. unfold LogFeed.log_received.
    apply fmap_sublist, sublist_filter.
  - intros Hlone. rewrite <- Hcons. f_equal. unfold LogFeed.log_received. f_equal.
    apply filter_all. apply Forall_forall.
    pose proof (log_feed_yields_to_resumed who schedule f Hlone) as Hall.
    rewrite Hrun, Hy in Hall. by apply Hall.
  - intros records ->.
    assert (Hnone : LogFeed.log_yielded f' = []).
    { pose proof (log_feed_yields_to_resumed 0 (LogFeed.Emit <$> records) f) as H0.
      pose proof (log_feed_yields_to_resumed 1 (LogFeed.Emit <$> records) f) as H1.
      rewrite Hrun, Hy in H0, H1. simpl in H0, H1.
      destruct (LogFeed.log_yielded f') as [|[who' entry] ys]; [done|]. exfalso.
      assert (Hall : forall n : nat,
                 Forall (fun st => match st with
                                   | LogFeed.ResumeLog who' => who' = n
                                   | LogFeed.Emit _ => True
                                   end) (LogFeed.Emit <$> records)).
      { intros n. apply Forall_fmap, Forall_forall. done. }
      specialize (H0 (Hall 0%nat) (Forall_nil_2 _)).
      specialize (H1 (Hall 1%nat) (Forall_nil_2 _)).
      apply Forall_cons in H0 as [H0 _]. apply Forall_cons in H1 as [H1 _].
      simpl in *. congruence. }
    rewrite Hnone in Hcons. simpl in Hcons. rewrite Hcons.
    unfold LogFeed.emitted. clear. induction records as [|record records IH]; [done|].
    simpl in *. by f_equal.
Qed.

(** Two records emitted, the lone subscriber resumed once in between. *)
Lemma log_feed_first_in_first_out_witness :
  exists f',
    LogFeed.run_log
      [LogFeed.Emit (LogFeed.mkLogRecord 100 "Starting advertisement processing loop..." "INFO");
       LogFeed.ResumeLog 0%nat;
       LogFeed.Emit (LogFeed.mkLogRecord 101 "Error in advertisement loop" "ERROR")]
      (LogFeed.mkFeed [] []) = (Ok tt, f')
    /\ LogFeed.log_received 0 f' ++ LogFeed.log_queue f'
       = [LogFeed.mkLogMessage 100 "Starting advertisement processing loop..." "INFO";
          LogFeed.mkLogMessage 101 "Error in advertisement loop" "ERROR"].
Proof.
  destruct (log_feed_first_in_first_out
              [LogFeed.Emit
                 (LogFeed.mkLogRecord 100 "Starting advertisement processing loop..." "INFO");
               LogFeed.ResumeLog 0%nat;
               LogFeed.Emit (LogFeed.mkLogRecord 101 "Error in advertisement loop" "ERROR")]
              0%nat (LogFeed.mkFeed [] []) eq_refl eq_refl)
    as (f' & Hrun & _ & _ & Hlone & _).
  exists f'. split; [exact Hrun|]. apply Hlone.
  repeat constructor.
Defined.

(** ** Row identifiers *)

Lemma add_device_ok_fresh (sp : Z) (ble : string) (c c' : Conn) (id : Z) :
  add_device sp ble c = (Ok id, c') ->
  sp_id_in sp (devices (db c)) = false /\ ble_id_in ble (devices (db c)) = false.
Proof.
  intros Hadd. unfold add_device, execute_insert_device, rollback in Hadd. unfold_py.
  destruct (sp_id_in sp (devices (db (begin_implicit c)))) eqn:Hsp; [done|].
  destruct (ble_id_in ble (devices (db (begin_implicit c)))) eqn:Hble; [done|].
  unfold begin_implicit in *. by destruct (txn c).
Qed.

(** No stored sample carries an identifier above the sequence of its table. *)
Lemma sample_ids_bounded (ops : list api_call) :
  Forall (fun r => s_id r <= samples_seq (db (run_calls ops create)))
         (samples (db (run_calls ops create))).
Proof.
  induction ops as [|op ops IH] using rev_ind; [by apply Forall_nil|].
  pose proof (run_calls_txn ops create eq_refl) as Htxn.
  rewrite run_calls_snoc, run_call_conn.
  set (c := run_calls ops create) in *.
  destruct op as [sp ble | now sp t h | sp name].
  - destruct (sp_id_in sp (devices (db c)) || ble_id_in ble (devices (db c))) eqn:Hdup.
    + by destruct (add_device_conflict sp ble c Htxn Hdup) as [e ->].
    + apply orb_false_elim in Hdup as [Hsp Hble].
      by rewrite (add_device_fresh sp ble c Hsp Hble).
  - destruct (sp_id_in sp (devices (db c))) eqn:Hsp.
    + rewrite (add_sample_registered now sp t h c Hsp). simpl.
      apply Forall_app. split.
      * eapply Forall_impl; [exact IH|]. simpl. intros r Hr. lia.
      * apply Forall_singleton. simpl. lia.
    + by rewrite (add_sample_unregistered now sp t h c Htxn Hsp).
  - destruct (sp_id_in sp (devices (db c))) eqn:Hsp.
    + by rewrite (update_device_name_registered sp name c Hsp).
    + by rewrite (update_device_name_unregistered sp name c Hsp).
Qed.

(** X18. The identifier a registration or a stored sample returns names
    the new row and no other.  In every state reached from a fresh
    database by storage calls, whether they succeeded or raised, a
    successful [add_device] returns an identifier under which the devices
    table holds exactly the row just inserted, and a successful
    [add_sample] returns an identifier under which the samples table
    holds exactly the sample just stored, stamped with the current time. *)
Theorem returned_id_names_the_new_row (ops : list api_call) :
  (forall sp ble id c',
      add_device sp ble (run_calls ops create) = (Ok id, c') ->
      filter (fun d => d_id d = id) (devices (db c')) = [mkDevice id sp ble])
  /\ (forall now sp t h id c',
        add_sample now sp t h (run_calls ops create) = (Ok id, c') ->
        filter (fun r => s_id r = id) (samples (db c')) = [mkSample id sp now t h]).
Proof.
  pose proof (run_calls_wf ops create wf_create) as Hwf.
  pose proof (sample_ids_bounded ops) as Hbound.
  set (c := run_calls ops create) in *. split.
  - intros sp ble id c' Hadd.
    destruct (add_device_ok_fresh sp ble c c' id Hadd) as [Hsp Hble].
    rewrite (add_device_fresh sp ble c Hsp Hble) in Hadd. injection Hadd as <- <-.
    simpl. rewrite filter_app, filter_none.
    + simpl. by rewrite filter_cons_True.
    + intros d Hd Hid.
      pose proof (proj1 (Forall_forall _ _) (wf_device_ids c Hwf) d Hd). simpl in *. lia.
  - intros now sp t h id c' Hadd.
    pose proof (add_sample_ok_registered now sp t h c c' id Hadd) as Hsp.
    rewrite (add_sample_registered now sp t h c Hsp) in Hadd. injection Hadd as <- <-.
    simpl. rewrite filter_app, filter_none.
    + simpl. by rewrite filter_cons_True.
    + intros r Hr Hid.
      pose proof (proj1 (Forall_forall _ _) Hbound r Hr). simpl in *. lia.
Qed.

(** ** From the first advertisement to the API *)

(** X19. A new sensor is onboarded by its first two advertisements.  On a
    fresh backend, when the decoder recognises the advertisements of a
    sensor, the scanner stops for the first one and the identity read
    returns four bytes or more: the first advertisement registers the
    address under the little-endian number of the first four bytes,
    between a stop and a restart of the scanner; the second one, when it
    carries both readings, stores them for that number and hands the
    record to the callback; afterwards the database holds that one device
    and that one sample, with no transaction open, and the sensors query
    shows the sensor, unnamed, with these readings as its last ones. *)
Theorem new_sensor_is_onboarded
    (supported : BluetoothServiceInfo -> bool)
    (sensor_values : BluetoothServiceInfo -> gmap string Q)
    (isoformat : Z -> string)
    (device : BLEDevice) (adv : AdvertisementData) (e1 e2 : Env)
    (raw : list byte) (t h : Q) :
  supported (make_service_info device adv) = true ->
  stop_raises e1 = false -> gatt e1 = GattBytes raw -> (4 <= length raw)%nat ->
  sensor_values (make_service_info device adv) !! "temperature" = Some t ->
  sensor_values (make_service_info device adv) !! "humidity" = Some h ->
  exists w',
    WebBackend.ble_task supported sensor_values isoformat
      [(device, adv, e1); (device, adv, e2)] WebBackend.startup = (Ok tt, w')
    /\ calls w'
       = [ScannerStop; ReadGattChar (address device);
          AddDevice (int_from_bytes_little (take 4 raw)) (address device);
          ScannerStart;
          AddSample (int_from_bytes_little (take 4 raw)) t h;
          CreateTask
            (OnSampleTask
               (mkSampleData (Some (address device))
                             (Some (int_from_bytes_little (take 4 raw)))
                             (Some t) (Some h) (Some (rssi adv))
                             (Some (isoformat (utcnow e2) +:+ "Z"))))]
    /\ conn w'
       = mkConn (mkTables
                   [mkDevice 1 (int_from_bytes_little (take 4 raw)) (address device)] 1
                   [mkSample 1 (int_from_bytes_little (take 4 raw)) (current_timestamp e2) t h]
                   1 [] 0)
                None
    /\ get_sensors_resolver (Request true) w'
       = (Ok [GraphqlSensor.mkSensor (int_from_bytes_little (take 4 raw)) (address device) ""
                (Some (current_timestamp e2)) (Some t) (Some h)], w').
Proof.
  intros Hs Hstop Hg Hlen Ht Hh. unfold WebBackend.ble_task.
  set (sp := int_from_bytes_little (take 4 raw)).
  destruct (process_unknown supported sensor_values isoformat device adv e1
              (Some OnSampleTask) WebBackend.startup Hs eq_refl Hstop)
    as (w1 & Hread & Hrun1).
  rewrite (read_device_id_long _ _ _ raw Hg Hlen) in Hread. injection Hread as <-.
  fold sp in Hrun1. simpl in Hrun1.
  rewrite (loop_cons _ _ _ _ _ _ _ _ _ _ Hrun1).
  match type of Hrun1 with
  | _ = (_, ?w) => set (w1 := w) in *
  end.
  assert (Hknown : ble_id_in (address device) (devices (db (conn w1))) = true).
  { simpl. unfold ble_id_in. simpl. by rewrite bool_decide_eq_true_2. }
  destruct (process_known_sample supported sensor_values isoformat device adv e2
              (Some OnSampleTask) w1 t h Hs Hknown Ht Hh) as (sp0 & Hget & Hsp0 & Hrun2).
  assert (sp0 = sp) as ->.
  { unfold get_device_sp_id in Hget. unfold_py. simpl in Hget.
    rewrite filter_cons_True in Hget by done. simpl in Hget. by injection Hget. }
  rewrite (add_sample_registered _ _ _ _ _ Hsp0) in Hrun2. simpl in Hrun2.
  rewrite (loop_cons _ _ _ _ _ _ _ _ _ _ Hrun2).
  match type of Hrun2 with
  | _ = (_, ?w) => set (w2 := w) in *
  end.
  set (r := mkSample 1 sp (current_timestamp e2) t h).
  assert (Hlatest : dict_by_device (execute_latest_samples (db (conn w2))) !! sp
                    = Some (select_latest_columns r)).
  { apply (latest_lookup_Some (db (conn w2)) sp 0 r); [|done].
    split; [done|]. split.
    - intros r' Hr' _. apply list_elem_of_singleton in Hr'. subst r'. reflexivity.
    - intros j r' Hj. lia. }
  exists w2. split; [done|]. split; [done|]. split; [done|].
  unfold get_sensors_resolver. simpl. unfold_py.
  rewrite (on_db_read get_all_sensors_with_names [mkSensor sp (address device) ""] w2
             eq_refl).
  rewrite (on_db_read get_latest_sample_for_all_sensors _ w2 eq_refl).
  do 2 f_equal. rewrite list_fmap_singleton. unfold sensor_of.
  cbn [SqlModel.sp_id]. by rewrite Hlatest.
Qed.

(** The sensor at "AA:BB", whose identity bytes are 01 00 00 00. *)
Lemma new_sensor_is_onboarded_witness :
  exists w',
    WebBackend.ble_task always_supported both_readings fixed_isoformat
      [(aa_bb, an_advertisement, read_one); (aa_bb, an_advertisement, read_one)]
      WebBackend.startup = (Ok tt, w')
    /\ samples (db (conn w')) = [mkSample 1 1 100 (47 # 2) (226 # 5)]
    /\ get_sensors_resolver (Request true) w'
       = (Ok [GraphqlSensor.mkSensor 1 "AA:BB" "" (Some 100) (Some (47 # 2)) (Some (226 # 5))],
          w').
Proof.
  destruct (new_sensor_is_onboarded always_supported both_readings fixed_isoformat
              aa_bb an_advertisement read_one read_one [x01; x00; x00; x00]
              (47 # 2) (226 # 5) eq_refl eq_refl eq_refl (le_n 4) eq_refl eq_refl)
    as (w' & Hrun & _ & Hconn & Hsensors).
  exists w'. split; [exact Hrun|]. split; [by rewrite Hconn|exact Hsensors].
Defined.
